(** * PPG feature pipeline of [app.py]: a shallow embedding

    The development follows the blood-pressure part of [app.py]
    ([butter_bandpass_filter], the four [extract_*] functions,
    [extract_features] and the [/predict] route).

    Numbers.  A Python / NumPy [float64] that holds a finite value is
    modelled by an exact rational ([Q]); the value [np.nan] is the
    constructor [nan] of [feat].  Rounding error, overflow and infinities
    are outside the model: every statement below is about the structure
    of the computation (which slots exist, which are missing, which
    indices are selected, which exact integer arithmetic feeds a slot),
    not about the last bits of a double.  Peak indices are [nat]
    ([np.intp] array indices); differences of indices are [Z].

    Exceptions.  A Python function that may raise returns [result A]:
    [Ok a] for a normal return and [Err e] for a raised exception [e].

    Libraries.  NumPy, SciPy and scikit-learn functions whose result is
    decided by index logic and plain arithmetic ([np.mean], [np.max],
    [np.min], [np.diff], [np.argmax], [find_peaks], [filtfilt],
    [lfilter], [MinMaxScaler], [SimpleImputer]) are written out after
    their documented algorithms.  Those that need transcendental
    functions or linear algebra ([np.std], [stats.skew],
    [stats.kurtosis], [stats.entropy], [welch], [butter], [lfilter_zi])
    and the two trained regressors are parameters of the sections that
    use them. *)

From Stdlib Require Import ZArith QArith Qabs Qround Lia Lqa List Sorted String Bool.
From Stdlib Require Import DecimalString.
From stdpp Require Import base list gmap strings.
Import ListNotations.

Open Scope Q_scope.

(** ** Exceptions and the result monad *)

Inductive exn : Type :=
| ValueError (msg : string)
| ZeroDivisionError (msg : string)
| IndexError (msg : string).

(** [str(e)] of the [except Exception as e] handler. *)
Definition str (e : exn) : string :=
  match e with
  | ValueError m => m
  | ZeroDivisionError m => m
  | IndexError m => m
  end.

Inductive result (A : Type) : Type :=
| Ok (a : A)
| Err (e : exn).
Arguments Ok {A} a.
Arguments Err {A} e.

Definition rbind {A B : Type} (r : result A) (k : A -> result B) : result B :=
  match r with
  | Ok a => k a
  | Err e => Err e
  end.

Notation "'let!' x ':=' r 'in' k" := (rbind r (fun x => k))
  (at level 10, x pattern, r at level 100, k at level 200).

(** A [for] loop whose body may raise: the first exception ends it. *)
Fixpoint rmap {A B : Type} (f : A -> result B) (l : list A) : result (list B) :=
  match l with
  | [] => Ok []
  | a :: l' => let! b := f a in let! bs := rmap f l' in Ok (b :: bs)
  end.

(** ** Feature values *)

(** One slot of a feature row: a finite number or [np.nan]. *)
Inductive feat : Type :=
| nan
| num (q : Q).

Definition is_nan (v : feat) : bool :=
  match v with nan => true | num _ => false end.

(** The number of missing slots of a row. *)
Fixpoint count_missing (row : list feat) : nat :=
  match row with
  | [] => 0
  | v :: row' => ((if is_nan v then 1 else 0) + count_missing row')%nat
  end.

(** ** Comparisons and elementary NumPy reductions *)

Definition Qltb (a b : Q) : bool := negb (Qle_bool b a).

Definition sample (x : list Q) (i : nat) : Q := nth i x 0.

Definition np_sum (l : list Q) : Q := fold_left Qplus l 0.

(** [np.mean] of a non-empty array. *)
Definition np_mean (l : list Q) : Q := np_sum l / inject_Z (Z.of_nat (length l)).

(** [np.max] and [np.min] raise [ValueError] on an empty array. *)
Definition np_max (l : list Q) : result Q :=
  match l with
  | [] => Err (ValueError "zero-size array to reduction operation maximum which has no identity")
  | x :: l' => Ok (fold_left (fun m y => if Qltb m y then y else m) l' x)
  end.

Definition np_min (l : list Q) : result Q :=
  match l with
  | [] => Err (ValueError "zero-size array to reduction operation minimum which has no identity")
  | x :: l' => Ok (fold_left (fun m y => if Qltb y m then y else m) l' x)
  end.

(** [np.diff] of an index array. *)
Fixpoint np_diff (l : list nat) : list Z :=
  match l with
  | a :: (b :: _) as l' => (Z.of_nat b - Z.of_nat a)%Z :: np_diff l'
  | _ => []
  end.

(** [np.diff] of a sample array. *)
Fixpoint np_diffQ (l : list Q) : list Q :=
  match l with
  | a :: (b :: _) as l' => (b - a) :: np_diffQ l'
  | _ => []
  end.

(** ** [scipy.signal.find_peaks(x, distance=d)] *)

(** Inner loop of [_local_maxima_1d]:
    [while i_ahead < i_max and x[i_ahead] == x[i]: i_ahead += 1]. *)
Fixpoint skip_plateau (x : list Q) (i_max : nat) (xi : Q) (fuel i_ahead : nat) : nat :=
  match fuel with
  | O => i_ahead
  | S fuel' =>
      if (i_ahead <? i_max)%nat && Qeq_bool (sample x i_ahead) xi
      then skip_plateau x i_max xi fuel' (S i_ahead)
      else i_ahead
  end.

(** Outer loop of [_local_maxima_1d], from index [i]; a plateau is
    reported by the midpoint [(left_edge + right_edge) // 2]. *)
Fixpoint local_maxima_loop (x : list Q) (i_max fuel i : nat) : list nat :=
  match fuel with
  | O => []
  | S fuel' =>
      if (i <? i_max)%nat then
        if Qltb (sample x (i - 1)) (sample x i) then
          let i_ahead := skip_plateau x i_max (sample x i) (i_max - (i + 1)) (i + 1) in
          if Qltb (sample x i_ahead) (sample x i) then
            ((i + (i_ahead - 1)) / 2)%nat :: local_maxima_loop x i_max fuel' (i_ahead + 1)
          else local_maxima_loop x i_max fuel' (i + 1)
        else local_maxima_loop x i_max fuel' (i + 1)
      else []
  end.

(** [i = 1], [i_max = x.shape[0] - 1]; the first and the last sample are
    never peaks. *)
Definition local_maxima_1d (x : list Q) : list nat :=
  local_maxima_loop x (length x - 1) (length x) 1.

(** [np.argsort(priority)]: positions in ascending order of priority.
    Equal priorities keep their index order (NumPy leaves their order
    unspecified). *)
Fixpoint insert_by (pr : list Q) (j : nat) (l : list nat) : list nat :=
  match l with
  | [] => [j]
  | k :: l' => if Qltb (sample pr j) (sample pr k) then j :: l else k :: insert_by pr j l'
  end.

Definition argsort (pr : list Q) : list nat :=
  fold_left (fun acc j => insert_by pr j acc) (seq 0 (length pr)) [].

(** [k = j - 1; while 0 <= k and peaks[j] - peaks[k] < distance_:
    keep[k] = 0; k -= 1], with [k1 = k + 1]. *)
Fixpoint clear_left (peaks : list nat) (d : Z) (pj : nat) (k1 : nat)
    (keep : list bool) : list bool :=
  match k1 with
  | O => keep
  | S k =>
      if (Z.of_nat pj - Z.of_nat (nth k peaks 0%nat) <? d)%Z
      then clear_left peaks d pj k (<[k := false]> keep)
      else keep
  end.

(** [k = j + 1; while k < peaks_size and peaks[k] - peaks[j] < distance_:
    keep[k] = 0; k += 1]. *)
Fixpoint clear_right (peaks : list nat) (d : Z) (pj : nat) (fuel k : nat)
    (keep : list bool) : list bool :=
  match fuel with
  | O => keep
  | S fuel' =>
      if (k <? length peaks)%nat && (Z.of_nat (nth k peaks 0%nat) - Z.of_nat pj <? d)%Z
      then clear_right peaks d pj fuel' (S k) (<[k := false]> keep)
      else keep
  end.

(** Body of the priority loop for position [j]. *)
Definition select_step (peaks : list nat) (d : Z) (keep : list bool) (j : nat) : list bool :=
  match keep !! j with
  | Some true =>
      let pj := nth j peaks 0%nat in
      clear_right peaks d pj (length peaks - (j + 1)) (j + 1)
        (clear_left peaks d pj j keep)
  | _ => keep
  end.

(** [_select_by_peak_distance]: highest priority first. *)
Definition select_by_peak_distance (peaks : list nat) (priority : list Q) (d : Z) : list bool :=
  fold_left (select_step peaks d) (rev (argsort priority)) (repeat true (length peaks)).

(** [peaks[keep]]. *)
Fixpoint mask {A : Type} (l : list A) (keep : list bool) : list A :=
  match l, keep with
  | a :: l', b :: keep' => if b then a :: mask l' keep' else mask l' keep'
  | _, _ => []
  end.

Definition find_peaks (x : list Q) (distance : Z) : result (list nat) :=
  if (distance <? 1)%Z
  then Err (ValueError "`distance` must be greater or equal to 1")
  else
    let peaks := local_maxima_1d x in
    let keep := select_by_peak_distance peaks (map (sample x) peaks) distance in
    Ok (mask peaks keep).

(** ** Pulse-interval features: [extract_ppg_specific_features] *)

(** Body of [for s in sig]; [int(fs*0.5)] truncates towards zero. *)
Definition ppg_specific_row (fs : Z) (s : list Q) : result (feat * feat) :=
  let! pks := find_peaks s (Z.quot fs 2) in
  if (1 <? length pks)%nat
  then Ok (num (np_mean (map inject_Z (np_diff pks)) / inject_Z fs),
           num (np_mean (map (sample s) pks)))
  else Ok (nan, nan).

(** [np.column_stack((intervals, amps))]: one row [[interval; amp]] per
    signal. *)
Definition extract_ppg_specific_features (sig : list (list Q)) (fs : Z)
    : result (list (list feat)) :=
  let! cols := rmap (ppg_specific_row fs) sig in
  Ok (map (fun ia => [fst ia; snd ia]) cols).

(** ** Morphology features: [extract_ppg_features] *)

Definition eps8 : Q := 1 # 100000000.

(** [(sig - np.min(sig)) / (np.max(sig) - np.min(sig) + 1e-8)]. *)
Definition renormalize (sig : list Q) : result (list Q) :=
  let! mn := np_min sig in
  let! mx := np_max sig in
  Ok (map (fun v => (v - mn) / (mx - mn + eps8)) sig).

(** The loop body after the normalisation line, on the normalised [sig]. *)
Definition ppg_features_core (fs : Z) (sig : list Q) : result (list feat) :=
  let! peaks := find_peaks sig 50 in
  let! valleys := find_peaks (map Qopp sig) 50 in
  if (length peaks <? 2)%nat || (length valleys <? 2)%nat
  then Ok (repeat nan 9)
  else
    let p0 := nth 0 peaks 0%nat in
    let p1 := nth 1 peaks 0%nat in
    let v0 := nth 0 valleys 0%nat in
    let v1 := nth 1 valleys 0%nat in
    let Pp := sample sig p0 in
    let Pv := sample sig v0 in
    let T1 := (Z.of_nat p0 - Z.of_nat v0)%Z in
    let T2 := if (1 <? length valleys)%nat then (Z.of_nat v1 - Z.of_nat p0)%Z else T1 in
    let T3 := if (1 <? length peaks)%nat && (1 <? length valleys)%nat
              then (Z.of_nat p1 - Z.of_nat v1)%Z else T1 in
    let T4 := (Z.of_nat v0 - Z.of_nat p0)%Z in
    let T5 := (Z.of_nat p0 - Z.of_nat v0)%Z in
    let ETR := if (T1 + T2 + T3 =? 0)%Z then nan
               else num (inject_Z (T4 + T5) / inject_Z (T1 + T2 + T3)) in
    let BD := (T1 + T2 + T3)%Z in
    let HR := inject_Z BD / 60 in
    let SVC := if (T1 =? 0)%Z then nan else num ((Pp - Pv) / inject_Z T1) in
    let DVC := if (T2 =? 0)%Z then nan else num ((Pp - Pv) / inject_Z T2) in
    let d := np_diffQ sig in
    let! SMVC := np_max d in
    let! DMVC := np_min d in
    let PWIR := if Qeq_bool Pv 0 then nan else num (Pp / Pv) in
    let PWAT := inject_Z T1 / inject_Z fs in
    Ok [ETR; num (inject_Z BD); num HR; SVC; DVC; num SMVC; num DMVC; PWIR; num PWAT].

(** Body of [for sig in ppg_array]. *)
Definition ppg_features_row (fs : Z) (sig : list Q) : result (list feat) :=
  let! sig' := renormalize sig in
  ppg_features_core fs sig'.

Definition extract_ppg_features (ppg_array : list (list Q)) (fs : Z)
    : result (list (list feat)) :=
  rmap (ppg_features_row fs) ppg_array.


(** Test waveforms: a triangle wave of period 60 samples, 150 samples
    starting at phase 10 (peaks at 20, 80 and 140, valleys at 50 and
    110); [beats] takes the integer values 0 .. 30, [pulse_train] is the
    same wave between 0 and 1. *)
Definition triangle (i : nat) : Z :=
  let r := (Z.of_nat i mod 60)%Z in
  if (r <? 30)%Z then r else (60 - r)%Z.

Definition beats : list Q := map (fun i => inject_Z (triangle i)) (seq 10 150).


(** A test waveform without a local maximum: the ramp 0, 1, ..., 29. *)
Definition ramp : list Q := map (fun i => inject_Z (Z.of_nat i)) (seq 0 30).

(** ** [sklearn.preprocessing.MinMaxScaler().fit_transform] on one column *)

(** [10 * np.finfo(np.float64).eps], the threshold of
    [_handle_zeros_in_scale]. *)
Definition ten_eps : Q := 10 * (1 # 4503599627370496).

(** A (near-)constant column is scaled by 1. *)
Definition handle_zeros_in_scale (scale : Q) : Q :=
  if Qltb scale ten_eps then 1 else scale.

(** [fit]: [scale_ = (1 - 0) / handle_zeros(data_max - data_min)],
    [min_ = 0 - data_min * scale_]; [transform]: [X * scale_ + min_].
    An array without samples is rejected. *)
Definition MinMaxScaler_fit_transform (col : list Q) : result (list Q) :=
  match col with
  | [] => Err (ValueError "Found array with 0 sample(s) (shape=(0, 1)) while a minimum of 1 is required by MinMaxScaler.")
  | _ =>
      let! data_min := np_min col in
      let! data_max := np_max col in
      let scale_ := 1 / handle_zeros_in_scale (data_max - data_min) in
      let min_ := 0 - data_min * scale_ in
      Ok (map (fun v => v * scale_ + min_) col)
  end.

(** ** [sklearn.impute.SimpleImputer(strategy="mean").fit_transform] *)

Fixpoint observed (c : list feat) : list Q :=
  match c with
  | [] => []
  | nan :: c' => observed c'
  | num q :: c' => q :: observed c'
  end.

(** [statistics_[j]]: the mean of the observed values of a column, [nan]
    for a column without any. *)
Definition column_mean (c : list feat) : feat :=
  match observed c with
  | [] => nan
  | vals => num (np_mean vals)
  end.

Definition column (X : list (list feat)) (j : nat) : list feat :=
  map (fun row => nth j row nan) X.

(** [transform] of one row: a column whose statistic is [nan] (no
    observed value at [fit]) is dropped ([keep_empty_features=False]);
    in the others a missing entry takes the column mean. *)
Fixpoint impute_row (stats : list feat) (row : list feat) : list Q :=
  match stats, row with
  | nan :: stats', _ :: row' => impute_row stats' row'
  | num m :: stats', v :: row' =>
      (match v with nan => m | num q => q end) :: impute_row stats' row'
  | _, _ => []
  end.

Definition SimpleImputer_fit_transform (X : list (list feat)) : result (list (list Q)) :=
  match X with
  | [] => Err (ValueError "Found array with 0 sample(s) while a minimum of 1 is required by SimpleImputer.")
  | row0 :: _ =>
      let stats := map (fun j => column_mean (column X j)) (seq 0 (length row0)) in
      Ok (map (impute_row stats) X)
  end.

(** ** [scipy.signal.lfilter] and [scipy.signal.filtfilt] *)

(** One sample of the transposed direct form II:
    [y = z[0] + b[0]*x], [z[i] = z[i+1] + b[i+1]*x - a[i+1]*y]. *)
Fixpoint df2t_state (z b a : list Q) (xm y : Q) (n : nat) : list Q :=
  match n with
  | O => []
  | S n' =>
      (sample z 1 + sample b 1 * xm - sample a 1 * y)
        :: df2t_state (tl z) (tl b) (tl a) xm y n'
  end.

Fixpoint df2t_run (b a : list Q) (ntaps : nat) (x z : list Q) : list Q * list Q :=
  match x with
  | [] => ([], z)
  | xm :: x' =>
      let y := sample z 0 + sample b 0 * xm in
      let z' := df2t_state z b a xm y (ntaps - 1) in
      let (ys, zf) := df2t_run b a ntaps x' z' in
      (y :: ys, zf)
  end.

(** [lfilter(b, a, x, zi=zi)]: coefficients are normalised by [a[0]];
    [zi] must hold [max(len(a), len(b)) - 1] values. *)
Definition lfilter (b a x zi : list Q) : result (list Q * list Q) :=
  match a with
  | [] => Err (ValueError "object of too small depth for desired array")
  | a0 :: _ =>
      if Qeq_bool a0 0
      then Err (ValueError "Filter coefficient a[0] == 0 not supported yet")
      else
        let ntaps := Nat.max (length a) (length b) in
        if negb (length zi =? ntaps - 1)%nat
        then Err (ValueError "Unexpected shape for zi")
        else Ok (df2t_run (map (fun c => c / a0) b) (map (fun c => c / a0) a) ntaps x zi)
  end.

(** [odd_ext(x, n)]: [2*x[0] - x[n:0:-1]], [x], [2*x[-1] - x[-2:-(n+2):-1]]. *)
Definition odd_ext (x : list Q) (n : nat) : list Q :=
  let left_end := sample x 0 in
  let right_end := sample x (length x - 1) in
  let left_ext := rev (firstn n (skipn 1 x)) in
  let right_ext := rev (firstn n (skipn (length x - 1 - n) x)) in
  map (fun v => 2 * left_end - v) left_ext ++ x ++ map (fun v => 2 * right_end - v) right_ext.

(** ["%d" % n]. *)
Definition str_of_nat (n : nat) : string := NilZero.string_of_uint (Nat.to_uint n).

(** [padlen = 3 * max(len(a), len(b))], the default of [filtfilt]. *)
Definition padlen (b a : list Q) : nat := 3 * Nat.max (length a) (length b).

(** [filtfilt(b, a, x)] with [method="pad"], [padtype="odd"]: forward
    pass, backward pass on the reversed output, both started from the
    steady state [zi] scaled by the first sample, then the padding is cut
    off.  [zi] is the value of [lfilter_zi(b, a)]. *)
Definition filtfilt_with (zi : list Q) (b a x : list Q) : result (list Q) :=
  let edge := padlen b a in
  if (length x <=? edge)%nat
  then Err (ValueError ("The length of the input vector x must be greater than padlen, which is "
                        ++ str_of_nat edge ++ "."))
  else
    let ext := odd_ext x edge in
    let x0 := sample ext 0 in
    let! yf := lfilter b a ext (map (fun z => z * x0) zi) in
    let y := fst yf in
    let y0 := sample y (length y - 1) in
    let! yb := lfilter b a (rev y) (map (fun z => z * y0) zi) in
    let y' := rev (fst yb) in
    Ok (firstn (length y' - 2 * edge) (skipn edge y')).

(** [np.argmax]: position of the first largest entry. *)
Fixpoint argmax_from (l : list Q) (best : Q) (besti i : nat) : nat :=
  match l with
  | [] => besti
  | y :: l' => if Qltb best y then argmax_from l' y i (S i) else argmax_from l' best besti (S i)
  end.

Definition np_argmax (l : list Q) : result nat :=
  match l with
  | [] => Err (ValueError "attempt to get argmax of an empty sequence")
  | x :: l' => Ok (argmax_from l' x 0 1)
  end.

(** [f[i]] on a one-dimensional array. *)
Definition getitem (f : list Q) (i : nat) : result Q :=
  match f !! i with
  | Some v => Ok v
  | None => Err (IndexError "index out of bounds")
  end.

(** [np.hstack] of two-dimensional arrays with equally many rows. *)
Fixpoint hstack (A B : list (list feat)) : list (list feat) :=
  match A, B with
  | r :: A', s :: B' => (r ++ s) :: hstack A' B'
  | _, _ => []
  end.

(** Python's [round(x, 1)]: to the nearest tenth, ties to the even one. *)
Definition round1 (q : Q) : Q :=
  let t := q * 10 in
  let n := Qfloor t in
  let r := t - inject_Z n in
  let m := if Qltb r (1 # 2) then n
           else if Qltb (1 # 2) r then (n + 1)%Z
           else if Z.even n then n else (n + 1)%Z in
  inject_Z m / 10.

(** ** The [/predict] route: requests, responses and the call trace *)

(** The JSON body of the request: [{"ppg": [...], "fs": int}], both
    keys optional. *)
Record request : Type := { req_ppg : option (list Q); req_fs : option Z }.

Inductive json : Type :=
| JNum (q : Q)
| JStr (s : string)
| JArr (l : list Q).

(** [jsonify(dict), status]. *)
Record response : Type := { status : Z; body : list (string * json) }.

(** The pipeline functions [predict] calls, in the order it calls them. *)
Inductive stage : Type := Filtering | Extraction | InferenceSBP | InferenceDBP.

(** A computation that records which stages it entered. *)
Definition traced (A : Type) : Type := (list stage * result A)%type.

Definition tcall {A : Type} (s : stage) (r : result A) : traced A := ([s], r).

Definition tbind {A B : Type} (m : traced A) (k : A -> traced B) : traced B :=
  match m with
  | (t, Ok a) => let (t', r) := k a in (t ++ t', r)
  | (t, Err e) => (t, Err e)
  end.

Notation "'run!' x ':=' m 'in' k" := (tbind m (fun x => k))
  (at level 10, x pattern, m at level 100, k at level 200).

(** A loaded regressor: [model.predict(X)]. *)
Definition model : Type := list (list Q) -> result (list Q).

(** [float(model.predict(X)[0])]. *)
Definition predict_first (m : model) (X : list (list Q)) : result Q :=
  let! ys := m X in
  match ys with
  | y :: _ => Ok y
  | [] => Err (IndexError "index 0 is out of bounds for axis 0 with size 0")
  end.

(** The body of the response of a successful request. *)
Definition success_body (sbp dbp : Q) (filt : list Q) : list (string * json) :=
  [("sbp"%string, JNum (round1 sbp)); ("dbp"%string, JNum (round1 dbp));
   ("filtered"%string, JArr filt)].

Definition error_body (msg : string) : list (string * json) :=
  [("error"%string, JStr msg)].
(** ** Predicates used in the statements *)

(** Two signals are order-equivalent when they have the same length and
    compare in the same way at every pair of positions. *)
Definition order_equiv (x y : list Q) : Prop :=
  length x = length y /\
  forall i j, (i < length x)%nat -> (j < length x)%nat ->
    Qltb (sample x i) (sample x j) = Qltb (sample y i) (sample y j).

(** Position [m] of [peaks] is within distance [d] of position [j]. *)
Definition too_close (peaks : list nat) (d : Z) (j m : nat) : Prop :=
  (Z.abs (Z.of_nat (nth m peaks 0%nat) - Z.of_nat (nth j peaks 0%nat)) < d)%Z.

(** Signals that never decrease, or never increase. *)
Definition nondecreasing (x : list Q) : Prop :=
  forall i j, (i <= j)%nat -> (j < length x)%nat -> sample x i <= sample x j.

Definition nonincreasing (x : list Q) : Prop :=
  forall i j, (i <= j)%nat -> (j < length x)%nat -> sample x j <= sample x i.


(** * The other routes of [app.py]

    The simulated sensors draw their readings with [random] and
    [np.random] and read the clock; here every draw and every clock
    reading is an argument of the route that uses it.  The module-level
    dictionaries and lists the routes mutate are the state they take and
    return. *)

(** ** Values and exceptions shared by the routes *)

(** A decoded JSON value; [JNull] is Python's [None]. *)
#[warnings="-register-all"]
Inductive jval : Type :=
| JNull
| JBool (b : bool)
| JInt (z : Z)
| JReal (q : Q)
| JString (s : string)
| JList (l : list jval)
| JObject (d : gmap string jval).

(** Python truthiness, as used by [x or default] and [if not x]. *)
Definition truthy (v : jval) : bool :=
  match v with
  | JNull => false
  | JBool b => b
  | JInt z => negb (z =? 0)%Z
  | JReal q => negb (Qeq_bool q 0)
  | JString s => negb (String.eqb s "")
  | JList l => match l with [] => false | _ => true end
  | JObject d => negb (bool_decide (d = ∅))
  end.

(** [v == s] for a string literal [s]. *)
Definition is_str (v : jval) (s : string) : bool :=
  match v with
  | JString t => String.eqb t s
  | _ => false
  end.

(** Exceptions the routes can raise and do not catch ([IndexRange] is
    the [IndexError] of a list index out of range). *)
Inductive raised : Type :=
| KeyError (key : string)
| AttributeError (msg : string)
| TypeError (msg : string)
| ZeroDivision (msg : string)
| IndexRange (msg : string).

Inductive outcome (A : Type) : Type :=
| Returns (a : A)
| Raises (e : raised).
Arguments Returns {A} a.
Arguments Raises {A} e.

(** [str(n)] of an integer. *)
Definition str_of_Z (z : Z) : string := NilZero.string_of_int (Z.to_int z).

(** Python's [round(x, ndigits)]: to the nearest multiple of
    [10 ** -ndigits], ties to the even one. *)
Definition round_to (ndigits : nat) (q : Q) : Q :=
  let scale := (10 ^ Z.of_nat ndigits)%Z in
  let t := q * inject_Z scale in
  let n := Qfloor t in
  let r := t - inject_Z n in
  let m := if Qltb r (1 # 2) then n
           else if Qltb (1 # 2) r then (n + 1)%Z
           else if Z.even n then n else (n + 1)%Z in
  inject_Z m / inject_Z scale.

(** ** Capped buffers *)

(** [buf.append(x)] followed by [if len(buf) > cap: buf.pop(0)]. *)
Definition append_capped {A : Type} (cap : nat) (buf : list A) (x : A) : list A :=
  let buf' := buf ++ [x] in
  if (cap <? length buf')%nat then tail buf' else buf'.

(** [collections.deque(maxlen=n).append(x)]: a full deque discards its
    leftmost item; with [maxlen = 0] nothing is kept. *)
Definition deque_append {A : Type} (maxlen : nat) (d : list A) (x : A) : list A :=
  if (maxlen =? 0)%nat then []
  else if (length d <? maxlen)%nat then d ++ [x]
  else tail d ++ [x].

(** The last [n] items of a list. *)
Definition last_n {A : Type} (n : nat) (l : list A) : list A :=
  drop (length l - n) l.

(** ** Connectivity: [get_com_ports], [test_wifi], [save_config],
    [get_config] *)

Module Connectivity.

Definition rpi_ports : list string :=
  ["/dev/ttyUSB0"; "/dev/ttyACM0"; "/dev/ttyS0"; "/dev/ttyAMA0"]%string.

Definition baud_rates : list string :=
  ["9600"; "19200"; "38400"; "57600"; "115200"]%string.

(** [comports] is the list of device names, [None] when listing them
    raised; [system] is [platform.system()] and [path_exists] is
    [os.path.exists].  The result is the pair of ['ports'] and
    ['baud_rates']. *)
Definition get_com_ports (comports : option (list string)) (system : string)
    (path_exists : string -> bool) : list string * list string :=
  let ports := default [] comports in
  let ports := if negb (String.eqb system "Windows")
               then ports ++ List.filter path_exists rpi_ports
               else ports in
  let ports := match ports with
               | [] => ["No Ports Available"%string]
               | _ => ports
               end in
  (ports, baud_rates).

(** [request.get_json(silent=True) or {}]: a missing, undecodable or
    falsy body counts as the empty object. *)
Definition body_or_empty (body : option jval) : jval :=
  match body with
  | Some v => if truthy v then v else JObject ∅
  | None => JObject ∅
  end.

(** [data.get(key)]; only a dictionary has [get]. *)
Definition get (data : jval) (key : string) : outcome jval :=
  match data with
  | JObject d => Returns (default JNull (d !! key))
  | _ => Raises (AttributeError "object has no attribute 'get'")
  end.

(** The module-level [connection_config]. *)
Definition connection_config0 : gmap string jval :=
  <["mode"%string := JNull]>
  (<["serial_port"%string := JNull]>
  (<["baud_rate"%string := JNull]>
  (<["ble_address"%string := JNull]>
  (<["wifi_ip"%string := JNull]> ∅)))).

Record save_response : Type :=
  { success : bool; message : string; config : gmap string jval }.

(** [save_config]: the new [connection_config] and the response, or the
    exception raised before anything was stored. *)
Definition save_config (body : option jval) (cfg : gmap string jval)
    : outcome (gmap string jval * save_response) :=
  let data := body_or_empty body in
  match data with
  | JObject d =>
      let field k := default JNull (d !! k) in
      let mode := field "mode"%string in
      let cfg := <["mode"%string := mode]> cfg in
      let cfg := if negb (is_str mode "serial")
                 then <["baud_rate"%string := JNull]> (<["serial_port"%string := JNull]> cfg)
                 else cfg in
      let cfg := if negb (is_str mode "ble")
                 then <["ble_address"%string := JNull]> cfg else cfg in
      let cfg := if negb (is_str mode "wifi")
                 then <["wifi_ip"%string := JNull]> cfg else cfg in
      let cfg := if is_str mode "serial"
                 then <["baud_rate"%string := field "baud_rate"%string]>
                        (<["serial_port"%string := field "com_port"%string]> cfg)
                 else if is_str mode "ble"
                 then <["ble_address"%string := field "ble_address"%string]> cfg
                 else if is_str mode "wifi"
                 then <["wifi_ip"%string := field "wifi_ip"%string]> cfg
                 else cfg in
      Returns (cfg, {| success := true; message := "Configuration saved"; config := cfg |})
  | _ => Raises (AttributeError "object has no attribute 'get'")
  end.

Definition get_config (cfg : gmap string jval) : gmap string jval := cfg.







End Connectivity.
(** ** Simulated sensors: [api_get_data], [ppg_data], [get_data],
    [ecg_data], [get_gas_data] *)

Module Sensors.

Definition MAX_BUFFER_SIZE : nat := 70.
Definition MAX_SAMPLES : nat := 100.
Definition MAX_HISTORY : nat := 100.

(** [d[key].append(x)]. *)
Definition dict_append {K : Type} `{Countable K} {A : Type} (show : K -> string)
    (d : gmap K (list A)) (key : K) (x : A) : outcome (gmap K (list A)) :=
  match d !! key with
  | Some buf => Returns (<[key := buf ++ [x]]> d)
  | None => Raises (KeyError (show key))
  end.

(** [if len(buf) > cap: buf.pop(0)]. *)
Definition trim {A : Type} (cap : nat) (buf : list A) : list A :=
  if (cap <? length buf)%nat then tail buf else buf.

(** *** [api_get_data] *)

(** The draws of one call, in the order the route makes them, and the
    clock reading formatted by [isoformat()]. *)
Record api_draws : Type :=
  { heartrate : Z; spo2 : Z; ecg_val : Q; bp_sys : Z; bp_dia : Z;
    temp0 : Q; temp1 : Q; temp2 : Q;
    gas0 : Z; gas1 : Z; gas2 : Z; gas3 : Z; gas4 : Z; gas5 : Q;
    ppg0 : Z; ppg1 : Z; ppg2 : Z;
    timestamp : string }.

Record api_state : Type :=
  { ECG_BUFFER : list Q; PPG_BUFFERS : gmap string (list Z) }.

Definition api_state0 : api_state :=
  {| ECG_BUFFER := [];
     PPG_BUFFERS := <["ir"%string := []]> (<["red"%string := []]>
                      (<["green"%string := []]> ∅)) |}.

Record api_response : Type :=
  { r_heartrate : Z; r_spo2 : Z; r_ecg : Q; r_bp : string;
    r_temperatures : list Q; r_gas : list jval; r_ppg : list Z;
    r_timestamp : string;
    r_ecg_buffer : list Q; r_ppg_buffers : gmap string (list Z) }.

(** The state after the call and its response, or the exception; an
    exception leaves the buffers as they were mutated up to it. *)
Definition api_get_data (d : api_draws) (st : api_state)
    : api_state * outcome api_response :=
  let ecg_buffer := trim MAX_BUFFER_SIZE (ECG_BUFFER st ++ [ecg_val d]) in
  let raise e b := ({| ECG_BUFFER := ecg_buffer; PPG_BUFFERS := b |}, Raises e) in
  match dict_append id (PPG_BUFFERS st) "ir"%string (ppg0 d) with
  | Raises e => raise e (PPG_BUFFERS st)
  | Returns b1 =>
  match dict_append id b1 "red"%string (ppg1 d) with
  | Raises e => raise e b1
  | Returns b2 =>
  match dict_append id b2 "green"%string (ppg2 d) with
  | Raises e => raise e b2
  | Returns b3 =>
      let buffers := trim MAX_BUFFER_SIZE <$> b3 in
      ({| ECG_BUFFER := ecg_buffer; PPG_BUFFERS := buffers |},
       Returns {| r_heartrate := heartrate d; r_spo2 := spo2 d; r_ecg := ecg_val d;
                  r_bp := str_of_Z (bp_sys d) ++ "/" ++ str_of_Z (bp_dia d);
                  r_temperatures := [temp0 d; temp1 d; temp2 d];
                  r_gas := [JInt (gas0 d); JInt (gas1 d); JInt (gas2 d); JInt (gas3 d);
                            JInt (gas4 d); JReal (gas5 d)];
                  r_ppg := [ppg0 d; ppg1 d; ppg2 d];
                  r_timestamp := timestamp d;
                  r_ecg_buffer := ecg_buffer; r_ppg_buffers := buffers |})
  end end end.

(** *** [ppg_data] *)

Definition STREAM_PPG_BUFFERS0 : gmap string (list Z) :=
  <["ir"%string := repeat 0%Z MAX_SAMPLES]>
  (<["red"%string := repeat 0%Z MAX_SAMPLES]>
  (<["green"%string := repeat 0%Z MAX_SAMPLES]> ∅)).

Record ppg_point : Type := { ir : Z; red : Z; green : Z; ms : Z }.

(** One pass of [for ch in ["ir", "red", "green"]]. *)
Definition stream_channel (ch : string) (x : Z) (b : gmap string (list Z))
    : outcome (gmap string (list Z)) :=
  match b !! ch with
  | Some buf => Returns (<[ch := trim MAX_SAMPLES (buf ++ [x])]> b)
  | None => Raises (KeyError ch)
  end.

Definition ppg_data (new_data : ppg_point) (b : gmap string (list Z))
    : gmap string (list Z) * outcome ppg_point :=
  match stream_channel "ir" (ir new_data) b with
  | Raises e => (b, Raises e)
  | Returns b1 =>
  match stream_channel "red" (red new_data) b1 with
  | Raises e => (b1, Raises e)
  | Returns b2 =>
  match stream_channel "green" (green new_data) b2 with
  | Raises e => (b2, Raises e)
  | Returns b3 => (b3, Returns new_data)
  end end end.

(** *** [get_data], the temperature route *)

Definition history0 : gmap nat (list Q) :=
  <[0%nat := []]> (<[1%nat := []]> (<[2%nat := []]> ∅)).

(** [min(l)] and [max(l)] of a non-empty list. *)
Definition list_min (x : Q) (l : list Q) : Q :=
  fold_left (fun m y => if Qltb y m then y else m) l x.

Definition list_max (x : Q) (l : list Q) : Q :=
  fold_left (fun m y => if Qltb m y then y else m) l x.

Record temp_stats : Type := { t_min : Q; t_max : Q; t_avg : Q }.

(** The status of sensor [i] reading [temp]. *)
Definition temp_status (i : nat) (temp : Q) : string :=
  let status := "normal"%string in
  let status := if (i =? 0)%nat && (Qltb temp 36 || Qltb (75 # 2) temp)
                then "warning"%string else status in
  let status := if (i =? 2)%nat && (Qltb temp 36 || Qltb (77 # 2) temp)
                then "critical"%string else status in
  status.

(** The first loop: statuses and history, sensor by sensor. *)
Fixpoint temp_loop (i : nat) (temps : list Q) (h : gmap nat (list Q))
    : gmap nat (list Q) * outcome (list string) :=
  match temps with
  | [] => (h, Returns [])
  | temp :: temps' =>
      match h !! i with
      | None => (h, Raises (KeyError (str_of_Z (Z.of_nat i))))
      | Some buf =>
          let h' := <[i := trim MAX_HISTORY (buf ++ [temp])]> h in
          match temp_loop (S i) temps' h' with
          | (h'', Returns statuses) => (h'', Returns (temp_status i temp :: statuses))
          | (h'', Raises e) => (h'', Raises e)
          end
      end
  end.

(** The entry of [stats] for sensor [i]; [None] is the entry of three
    nulls. *)
Definition temp_stat (h : gmap nat (list Q)) (i : nat) : outcome (option temp_stats) :=
  match h !! i with
  | None => Raises (KeyError (str_of_Z (Z.of_nat i)))
  | Some [] => Returns None
  | Some (x :: l) =>
      Returns (Some {| t_min := list_min x l; t_max := list_max x l;
                       t_avg := round1 (np_sum (x :: l) / inject_Z (Z.of_nat (length (x :: l)))) |})
  end.

Fixpoint temp_stats_loop (h : gmap nat (list Q)) (sensors : list nat)
    : outcome (list (option temp_stats)) :=
  match sensors with
  | [] => Returns []
  | i :: is' =>
      match temp_stat h i with
      | Raises e => Raises e
      | Returns s =>
          match temp_stats_loop h is' with
          | Raises e => Raises e
          | Returns ss => Returns (s :: ss)
          end
      end
  end.

Record temp_response : Type :=
  { tr_temperatures : list Q; tr_statuses : list string;
    tr_stats : list (option temp_stats); tr_timestamp : string }.

(** [u0], [u1], [u2] are the three [random.uniform] draws before
    rounding. *)
Definition get_data (u0 u1 u2 : Q) (now : string) (h : gmap nat (list Q))
    : gmap nat (list Q) * outcome temp_response :=
  let temps := [round1 u0; round1 u1; round1 u2] in
  match temp_loop 0 temps h with
  | (h', Raises e) => (h', Raises e)
  | (h', Returns statuses) =>
      match temp_stats_loop h' [0; 1; 2]%nat with
      | Raises e => (h', Raises e)
      | Returns stats =>
          (h', Returns {| tr_temperatures := temps; tr_statuses := statuses;
                          tr_stats := stats; tr_timestamp := now |})
      end
  end.

(** *** [ecg_data] *)




(** *** [get_gas_data] *)

(** [(safe, moderate, hazardous)] for CO, CH4, C2H5OH, H2, NH3, NO2. *)
Definition GAS_THRESHOLDS : list (Q * Q * Q) :=
  [(0, 10, 50); (0, 50, 200); (0, 100, 300); (0, 100, 500); (0, 25, 50);
   (0, 1 # 10, 1)].

(** [[deque(maxlen=30) for _ in range(6)]]. *)
Definition HISTORY0 : list (list Q) := repeat [] 6.

(** The loop over [enumerate(GAS_THRESHOLDS)] from gas [i] on;
    [uniform i] is the draw made for gas [i]. *)
Fixpoint gas_loop (uniform : nat -> Q) (i : nat) (thrs : list (Q * Q * Q))
    (H : list (list Q)) : list (list Q) * outcome (list Q) :=
  match thrs with
  | [] => (H, Returns [])
  | _ :: thrs' =>
      let val := round_to 2 (uniform i) in
      match H !! i with
      | None => (H, Raises (IndexRange "list index out of range"))
      | Some h =>
          let H' := <[i := deque_append 30 h val]> H in
          match gas_loop uniform (S i) thrs' H' with
          | (H'', Returns vals) => (H'', Returns (val :: vals))
          | (H'', Raises e) => (H'', Raises e)
          end
      end
  end.

(** The histories after the call and the pair of ['gas'] and
    ['history']. *)
Definition get_gas_data (uniform : nat -> Q) (H : list (list Q))
    : list (list Q) * outcome (list Q * list (list Q)) :=
  match gas_loop uniform 0 GAS_THRESHOLDS H with
  | (H', Returns vals) => (H', Returns (vals, H'))
  | (H', Raises e) => (H', Raises e)
  end.

End Sensors.
(** ** Sessions: [update], [clear], [get_spo2_data], [toggle_pause],
    [update_settings] and their helpers *)

Module Session.

(** A number stored in [session_data]: an integer or a float that is
    infinite or not a number. *)
Inductive xnum : Type := NegInf | Fin (z : Z) | PosInf | NaN.

(** A value stored in [session_data]. *)
Inductive sval : Type :=
| SNum (x : xnum)
| SList (l : list Z).

(** One module-level name, [session_data], serves both the heart-rate
    session and the SpO2 session. *)
Record state : Type :=
  { session_data : gmap string sval;
    session_start_time : Q;
    graph_data : list (Z * Z);
    last_valid_hr : option Z;
    session_start : option Q;
    paused : bool;
    thresholds : jval }.

(** The dictionary bound at line 376 and again by [clear]. *)
Definition hr_session : gmap string sval :=
  <["min"%string := SNum PosInf]> (<["max"%string := SNum NegInf]>
  (<["total"%string := SNum (Fin 0)]> (<["count"%string := SNum (Fin 0)]> ∅))).

(** The dictionary bound at line 446; it is the later binding, so it is
    what [session_data] holds once the module is loaded. *)
Definition spo2_session : gmap string sval :=
  <["spo2"%string := SList []]> (<["pulse"%string := SList []]> ∅).

Definition thresholds0 : jval :=
  JObject (<["spo2"%string :=
              JObject (<["low"%string := JInt 90]>
                         (<["critical_low"%string := JInt 85]> ∅))]>
          (<["pulse"%string :=
              JObject (<["low"%string := JInt 50]> (<["high"%string := JInt 120]>
                        (<["critical_low"%string := JInt 40]>
                        (<["critical_high"%string := JInt 150]> ∅))))]> ∅)).

(** The state with which the module is loaded at clock reading [t0]. *)
Definition state0 (t0 : Q) : state :=
  {| session_data := spo2_session; session_start_time := t0; graph_data := [];
     last_valid_hr := None; session_start := None; paused := false;
     thresholds := thresholds0 |}.

Definition set_session_data (d : gmap string sval) (st : state) : state :=
  {| session_data := d; session_start_time := session_start_time st;
     graph_data := graph_data st; last_valid_hr := last_valid_hr st;
     session_start := session_start st; paused := paused st;
     thresholds := thresholds st |}.

(** [int(x)]: towards zero. *)
Definition int_of (x : Q) : Z := Z.quot (Qnum x) (Z.pos (Qden x)).

(** [hr < x] for an integer [hr]. *)
Definition int_lt (hr : Z) (x : xnum) : bool :=
  match x with
  | NegInf => false
  | Fin z => (hr <? z)%Z
  | PosInf => true
  | NaN => false
  end.

Definition lt_int (x : xnum) (hr : Z) : bool :=
  match x with
  | NegInf => true
  | Fin z => (z <? hr)%Z
  | PosInf => false
  | NaN => false
  end.

(** [min(x, hr)] and [max(x, hr)]: the first argument unless the second
    is smaller (larger). *)
Definition min_with (x : xnum) (hr : Z) : xnum := if int_lt hr x then Fin hr else x.
Definition max_with (x : xnum) (hr : Z) : xnum := if lt_int x hr then Fin hr else x.

(** [x + n] for an integer [n]. *)
Definition add_int (x : xnum) (n : Z) : xnum :=
  match x with
  | Fin z => Fin (z + n)
  | _ => x
  end.

(** [a // b]. *)
Definition floordiv (a b : xnum) : outcome xnum :=
  match b with
  | Fin 0 => Raises (ZeroDivision "integer division or modulo by zero")
  | Fin c =>
      match a with
      | Fin t => Returns (Fin (t / c))
      | _ => Returns NaN
      end
  | PosInf =>
      match a with
      | Fin t => Returns (Fin (if (t <? 0)%Z then -1 else 0))
      | _ => Returns NaN
      end
  | NegInf =>
      match a with
      | Fin t => Returns (Fin (if (0 <? t)%Z then -1 else 0))
      | _ => Returns NaN
      end
  | NaN => Returns NaN
  end.

(** [session_data[key]] read as a number. *)
Definition number_at (d : gmap string sval) (key : string) : outcome xnum :=
  match d !! key with
  | None => Raises (KeyError key)
  | Some (SNum x) => Returns x
  | Some (SList _) => Raises (TypeError "unsupported operand type(s) for list and int")
  end.

(** A statistic of a response: a number, or the text ["--"]. *)
Inductive stat : Type := Dash | Stat (x : xnum).

Record update_response : Type :=
  { u_heartrate : Z; u_status : string; u_min : stat; u_max : stat; u_avg : stat;
    u_graph : list (Z * Z) }.

Definition hr_status (hr : Z) : string :=
  if (130 <? hr)%Z then "HIGH HEART RATE"
  else if (100 <? hr)%Z then "ELEVATED"
  else "NORMAL".

(** [update]: [hr] is the value of [random.choice([randint(55, 120), -1])]
    and [now] the clock reading for the graph.  The statements that
    touch [session_data] run in order, so an exception leaves the
    entries written before it in place. *)
Definition update (hr : Z) (now : Q) (st : state) : state * outcome update_response :=
  if (hr =? -1)%Z then
    (st, Returns {| u_heartrate := -1; u_status := "Place finger on sensor";
                    u_min := Dash; u_max := Dash; u_avg := Dash;
                    u_graph := graph_data st |})
  else
    let st := {| session_data := session_data st;
                 session_start_time := session_start_time st;
                 graph_data := graph_data st; last_valid_hr := Some hr;
                 session_start := session_start st; paused := paused st;
                 thresholds := thresholds st |} in
    let d0 := session_data st in
    match number_at d0 "min" with
    | Raises e => (st, Raises e)
    | Returns mn =>
    let d1 := <["min"%string := SNum (min_with mn hr)]> d0 in
    match number_at d1 "max" with
    | Raises e => (set_session_data d1 st, Raises e)
    | Returns mx =>
    let d2 := <["max"%string := SNum (max_with mx hr)]> d1 in
    match number_at d2 "total" with
    | Raises e => (set_session_data d2 st, Raises e)
    | Returns total =>
    let d3 := <["total"%string := SNum (add_int total hr)]> d2 in
    match number_at d3 "count" with
    | Raises e => (set_session_data d3 st, Raises e)
    | Returns count =>
    let d4 := <["count"%string := SNum (add_int count 1)]> d3 in
    let st4 := set_session_data d4 st in
    match floordiv (add_int total hr) (add_int count 1) with
    | Raises e => (st4, Raises e)
    | Returns avg =>
        let elapsed := int_of (now - session_start_time st) in
        let graph := deque_append 60 (graph_data st) (elapsed, hr) in
        ({| session_data := d4; session_start_time := session_start_time st;
            graph_data := graph; last_valid_hr := Some hr;
            session_start := session_start st; paused := paused st;
            thresholds := thresholds st |},
         Returns {| u_heartrate := hr; u_status := hr_status hr;
                    u_min := Stat (min_with mn hr); u_max := Stat (max_with mx hr);
                    u_avg := Stat avg; u_graph := graph |})
    end end end end end.

(** [clear] at clock reading [now]. *)
Definition clear (now : Q) (st : state) : state :=
  {| session_data := hr_session; session_start_time := now; graph_data := [];
     last_valid_hr := None; session_start := session_start st; paused := paused st;
     thresholds := thresholds st |}.

(** [f"{n:02d}"]. *)
Definition fmt02 (n : Z) : string :=
  if (0 <=? n)%Z && (n <? 10)%Z then ("0" ++ str_of_Z n)%string else str_of_Z n.

(** [get_duration]: [t_first] is the clock reading that starts the
    session when none is running, [t_now] the reading the elapsed time
    is taken from. *)
Definition get_duration (t_first t_now : Q) (st : state) : state * string :=
  let start := default t_first (session_start st) in
  let st' := {| session_data := session_data st;
                session_start_time := session_start_time st;
                graph_data := graph_data st; last_valid_hr := last_valid_hr st;
                session_start := Some start; paused := paused st;
                thresholds := thresholds st |} in
  let elapsed := int_of (t_now - start) in
  (st', (fmt02 (elapsed / 60) ++ ":" ++ fmt02 (elapsed mod 60))%string).

(** The dictionary with the keys ["status"], ["color"] and ["icon"]. *)
Record status_badge : Type := { badge : string; color : string; icon : string }.

Definition get_spo2_status (value : Z) : status_badge :=
  if (95 <=? value)%Z then {| badge := "Normal"; color := "green"; icon := "✅" |}
  else if (90 <=? value)%Z && (value <? 95)%Z then {| badge := "Low"; color := "yellow"; icon := "⚠️" |}
  else {| badge := "Critical"; color := "red"; icon := "❌" |}.

Definition get_pulse_status (value : Z) : status_badge :=
  if (60 <=? value)%Z && (value <=? 100)%Z then {| badge := "Normal"; color := "green"; icon := "✅" |}
  else if ((50 <=? value)%Z && (value <? 60)%Z) || ((100 <? value)%Z && (value <=? 120)%Z)
  then {| badge := "Abnormal"; color := "yellow"; icon := "⚠️" |}
  else {| badge := "Critical"; color := "red"; icon := "❌" |}.

Record stats3 : Type := { s_avg : stat; s_min : stat; s_max : stat }.

Definition no_stats : stats3 := {| s_avg := Dash; s_min := Dash; s_max := Dash |}.

Definition sum_Z (l : list Z) : Z := fold_left Z.add l 0%Z.

Definition min_Z (x : Z) (l : list Z) : Z := fold_left (fun m y => if (y <? m)%Z then y else m) l x.
Definition max_Z (x : Z) (l : list Z) : Z := fold_left (fun m y => if (m <? y)%Z then y else m) l x.

(** The statistics of one of the two lists of [get_stats]. *)
Definition stats_of (d : gmap string sval) (key : string) : outcome stats3 :=
  match d !! key with
  | None => Raises (KeyError key)
  | Some (SList []) => Returns no_stats
  | Some (SList (x :: l)) =>
      Returns {| s_avg := Stat (Fin (sum_Z (x :: l) / Z.of_nat (length (x :: l))));
                 s_min := Stat (Fin (min_Z x l)); s_max := Stat (Fin (max_Z x l)) |}
  | Some (SNum (Fin 0)) => Returns no_stats
  | Some (SNum _) => Raises (TypeError "object is not iterable")
  end.

(** [get_stats]: both lists are looked up before either is used. *)
Definition get_stats (d : gmap string sval) : outcome (stats3 * stats3) :=
  match d !! "spo2"%string, d !! "pulse"%string with
  | None, _ => Raises (KeyError "spo2")
  | Some _, None => Raises (KeyError "pulse")
  | Some _, Some _ =>
      match stats_of d "spo2" with
      | Raises e => Raises e
      | Returns s =>
          match stats_of d "pulse" with
          | Raises e => Raises e
          | Returns p => Returns (s, p)
          end
      end
  end.

(** [session_data[key].append(x)]. *)
Definition list_append_at (d : gmap string sval) (key : string) (x : Z)
    : outcome (gmap string sval) :=
  match d !! key with
  | None => Raises (KeyError key)
  | Some (SList l) => Returns (<[key := SList (l ++ [x])]> d)
  | Some (SNum _) => Raises (AttributeError "object has no attribute 'append'")
  end.

Inductive spo2_response : Type :=
| Paused (duration : string)
| Reading (spo2 pulse : Z) (spo2_status pulse_status : status_badge)
    (stats : stats3 * stats3) (duration : string).

(** [get_spo2_data] with the two draws and the two clock readings of
    [get_duration]. *)
Definition get_spo2_data (spo2_val pulse_val : Z) (t_first t_now : Q) (st : state)
    : state * outcome spo2_response :=
  if paused st then
    let (st', duration) := get_duration t_first t_now st in
    (st', Returns (Paused duration))
  else
    match list_append_at (session_data st) "spo2" spo2_val with
    | Raises e => (st, Raises e)
    | Returns d1 =>
    match list_append_at d1 "pulse" pulse_val with
    | Raises e => (set_session_data d1 st, Raises e)
    | Returns d2 =>
    let st2 := set_session_data d2 st in
    match get_stats d2 with
    | Raises e => (st2, Raises e)
    | Returns stats =>
        let (st3, duration) := get_duration t_first t_now st2 in
        (st3, Returns (Reading spo2_val pulse_val (get_spo2_status spo2_val)
                         (get_pulse_status pulse_val) stats duration))
    end end end.

Definition toggle_pause (st : state) : state * bool :=
  ({| session_data := session_data st; session_start_time := session_start_time st;
      graph_data := graph_data st; last_valid_hr := last_valid_hr st;
      session_start := session_start st; paused := negb (paused st);
      thresholds := thresholds st |},
   negb (paused st)).

(** [update_settings]: [data] is [request.json]. *)
Definition update_settings (data : jval) (st : state) : state * jval :=
  ({| session_data := session_data st; session_start_time := session_start_time st;
      graph_data := graph_data st; last_valid_hr := last_valid_hr st;
      session_start := session_start st; paused := paused st;
      thresholds := data |},
   data).

(** The requests that touch the session state, each with the draws and
    clock readings it consumes. *)
Inductive request : Type :=
| Update (hr : Z) (now : Q)
| Clear (now : Q)
| Spo2Data (spo2_val pulse_val : Z) (t_first t_now : Q)
| TogglePause
| Settings (data : jval).

(** The state a request leaves behind, whether it returned or raised. *)
Definition step (st : state) (r : request) : state :=
  match r with
  | Update hr now => (update hr now st).1
  | Clear now => clear now st
  | Spo2Data s p t1 t2 => (get_spo2_data s p t1 t2 st).1
  | TogglePause => (toggle_pause st).1
  | Settings data => (update_settings data st).1
  end.

Definition run (rs : list request) (st : state) : state := fold_left step rs st.

End Session.

(** ** Runs and invariants used in the statements about the routes *)

(** Successive calls of [api_get_data], each with its draws. *)
Definition api_run (ds : list Sensors.api_draws) (st : Sensors.api_state)
    : Sensors.api_state :=
  fold_left (fun st d => (Sensors.api_get_data d st).1) ds st.

(** The buffers hold a sliding window over the draws [ds]. *)
Definition api_window (ds : list Sensors.api_draws) (st : Sensors.api_state) : Prop :=
  Sensors.ECG_BUFFER st = last_n 70 (map Sensors.ecg_val ds) /\
  Sensors.PPG_BUFFERS st !! "ir"%string = Some (last_n 70 (map Sensors.ppg0 ds)) /\
  Sensors.PPG_BUFFERS st !! "red"%string = Some (last_n 70 (map Sensors.ppg1 ds)) /\
  Sensors.PPG_BUFFERS st !! "green"%string = Some (last_n 70 (map Sensors.ppg2 ds)).
(** Successive calls of [ppg_data], each with the point it draws. *)
Definition ppg_run (ps : list Sensors.ppg_point) (b : gmap string (list Z))
    : gmap string (list Z) :=
  fold_left (fun b p => (Sensors.ppg_data p b).1) ps b.

(** Each streaming buffer holds the last [MAX_SAMPLES] items of the
    initial zeros followed by the points [ps]. *)
Definition ppg_window (ps : list Sensors.ppg_point) (b : gmap string (list Z)) : Prop :=
  b !! "ir"%string = Some (last_n 100 (repeat 0%Z 100 ++ map Sensors.ir ps)) /\
  b !! "red"%string = Some (last_n 100 (repeat 0%Z 100 ++ map Sensors.red ps)) /\
  b !! "green"%string = Some (last_n 100 (repeat 0%Z 100 ++ map Sensors.green ps)) /\
  forall ch buf, b !! ch = Some buf -> length buf = 100%nat.

(** Successive calls of [get_gas_data]; a call is given by its draws. *)
Definition gas_run (us : list (nat -> Q)) (H : list (list Q)) : list (list Q) :=
  fold_left (fun H u => (Sensors.get_gas_data u H).1) us H.

(** The history of gas [i] after the calls [us]. *)
Definition gas_history (us : list (nat -> Q)) (i : nat) : list Q :=
  last_n 30 (map (fun u => round_to 2 (u i)) us).

(** Successive calls of the temperature route; a call is given by its
    three draws. *)
Definition temp_run (us : list (Q * Q * Q)) (h : gmap nat (list Q)) : gmap nat (list Q) :=
  fold_left (fun h u => (Sensors.get_data u.1.1 u.1.2 u.2 "" h).1) us h.

(** The history of sensor [i] after the calls [us]. *)
Definition temp_history (us : list (Q * Q * Q)) (i : nat) : list Q :=
  last_n 100 (map (fun u => round1 (nth i [u.1.1; u.1.2; u.2] 0)) us).
(** *** Sessions *)

Definition is_clear (r : Session.request) : bool :=
  match r with
  | Session.Clear _ => true
  | _ => false
  end.

Definition is_settings (r : Session.request) : bool :=
  match r with
  | Session.Settings _ => true
  | _ => false
  end.

(** No request of [rs] is a [clear]. *)
Definition no_clear (rs : list Session.request) : Prop :=
  forallb (fun r => negb (is_clear r)) rs = true.

(** The points [(elapsed, hr)] that the [update] requests of [rs] add to
    the graph of a session started at [t]: one for each heart rate other
    than -1. *)
Definition hr_samples (t : Q) (rs : list Session.request) : list (Z * Z) :=
  flat_map (fun r => match r with
                     | Session.Update hr now =>
                         if (hr =? -1)%Z then [] else [(Session.int_of (now - t), hr)]
                     | _ => []
                     end) rs.

(** [m] is the least (greatest) item of [l]. *)
Definition least (m : Z) (l : list Z) : Prop :=
  In m l /\ Forall (fun v => (m <= v)%Z) l.

Definition greatest (m : Z) (l : list Z) : Prop :=
  In m l /\ Forall (fun v => (v <= m)%Z) l.

(** The state of a heart-rate session started by [clear] at [t] in
    which the points [S] were recorded. *)
Definition hr_inv (t : Q) (S : list (Z * Z)) (st : Session.state) : Prop :=
  Session.session_start_time st = t /\
  Session.graph_data st = last_n 60 S /\
  Session.session_data st !! "spo2"%string = None /\
  Session.session_data st !! "count"%string
    = Some (Session.SNum (Session.Fin (Z.of_nat (length S)))) /\
  Session.session_data st !! "total"%string
    = Some (Session.SNum (Session.Fin (Session.sum_Z (map snd S)))) /\
  exists mn mx,
    Session.session_data st !! "min"%string = Some (Session.SNum mn) /\
    Session.session_data st !! "max"%string = Some (Session.SNum mx) /\
    match S with
    | [] => mn = Session.PosInf /\ mx = Session.NegInf
    | _ => exists a b, mn = Session.Fin a /\ mx = Session.Fin b /\
                       least a (map snd S) /\ greatest b (map snd S)
    end.

(** [session_data] has the four numeric entries of the heart-rate
    session and no ["spo2"] entry. *)
Definition hr_shaped (d : gmap string Session.sval) : Prop :=
  d !! "spo2"%string = None /\
  (exists x, d !! "min"%string = Some (Session.SNum x)) /\
  (exists x, d !! "max"%string = Some (Session.SNum x)) /\
  (exists x, d !! "total"%string = Some (Session.SNum x)) /\
  (exists x, d !! "count"%string = Some (Session.SNum x)).

(** The pause flag and the readings [(spo2, pulse)] recorded, request by
    request: a reading is recorded by [get_spo2_data] unless paused. *)
Definition track (acc : bool * list (Z * Z)) (r : Session.request) : bool * list (Z * Z) :=
  match r with
  | Session.TogglePause => (negb acc.1, acc.2)
  | Session.Spo2Data s p _ _ => if acc.1 then acc else (acc.1, acc.2 ++ [(s, p)])
  | _ => acc
  end.

Definition paused_after (rs : list Session.request) : bool :=
  (fold_left track rs (false, [])).1.

Definition recorded (rs : list Session.request) : list (Z * Z) :=
  (fold_left track rs (false, [])).2.

(** The state of the SpO2 session in which the readings [R] were
    recorded. *)
Definition spo2_inv (p : bool) (R : list (Z * Z)) (st : Session.state) : Prop :=
  Session.paused st = p /\
  Session.session_data st !! "spo2"%string = Some (Session.SList (map fst R)) /\
  Session.session_data st !! "pulse"%string = Some (Session.SList (map snd R)) /\
  Session.session_data st !! "min"%string = None.

(** The statistics [get_stats] reports for the values [l]. *)
Definition stats_for (l : list Z) (s : Session.stats3) : Prop :=
  exists mn mx,
    Session.s_min s = Session.Stat (Session.Fin mn) /\
    Session.s_max s = Session.Stat (Session.Fin mx) /\
    Session.s_avg s = Session.Stat (Session.Fin (Session.sum_Z l / Z.of_nat (length l))) /\
    least mn l /\ greatest mx l /\
    (mn <= Session.sum_Z l / Z.of_nat (length l) <= mx)%Z.

(** The reply of a route to a request. *)
Inductive reply : Type :=
| UpdateReply (o : outcome Session.update_response)
| ClearReply
| Spo2Reply (o : outcome Session.spo2_response)
| PauseReply (b : bool)
| SettingsReply (data : jval).

Definition respond (st : Session.state) (r : Session.request) : Session.state * reply :=
  match r with
  | Session.Update hr now =>
      (Session.step st r, UpdateReply (Session.update hr now st).2)
  | Session.Clear now => (Session.step st r, ClearReply)
  | Session.Spo2Data s p t1 t2 =>
      (Session.step st r, Spo2Reply (Session.get_spo2_data s p t1 t2 st).2)
  | Session.TogglePause => (Session.step st r, PauseReply (Session.toggle_pause st).2)
  | Session.Settings data =>
      (Session.step st r, SettingsReply (Session.update_settings data st).2)
  end.

(** The replies to the requests [rs], made in that order from [st]. *)
Fixpoint replies (rs : list Session.request) (st : Session.state) : list reply :=
  match rs with
  | [] => []
  | r :: rs' => (respond st r).2 :: replies rs' (respond st r).1
  end.

Definition is_settings_reply (r : reply) : bool :=
  match r with
  | SettingsReply _ => true
  | _ => false
  end.
(** The state [st] with other thresholds. *)
Definition with_thresholds (th : jval) (st : Session.state) : Session.state :=
  {| Session.session_data := Session.session_data st;
     Session.session_start_time := Session.session_start_time st;
     Session.graph_data := Session.graph_data st;
     Session.last_valid_hr := Session.last_valid_hr st;
     Session.session_start := Session.session_start st;
     Session.paused := Session.paused st;
     Session.thresholds := th |}.
(** The start of the SpO2 clock, request by request: the first
    [get_spo2_data] sets it to its first clock reading. *)
Definition poll (o : option Q) (r : Session.request) : option Q :=
  match o, r with
  | None, Session.Spo2Data _ _ t_first _ => Some t_first
  | _, _ => o
  end.

Definition duration_of (r : Session.spo2_response) : string :=
  match r with
  | Session.Paused d => d
  | Session.Reading _ _ _ _ _ d => d
  end.

(** The two decimal digits of a number below 100. *)
Definition two_digits (n : Z) : string :=
  String (Ascii.ascii_of_nat (48 + Z.to_nat (n / 10)))
    (String (Ascii.ascii_of_nat (48 + Z.to_nat (n mod 10))) EmptyString).

(** ** An instance of the library parameters

    Stand-ins for the numerical library functions that the pipeline
    takes as parameters, so that it can be run on concrete waveforms:
    constant statistics, a two-bin spectrum, a first-difference filter
    and regressors that return a fixed value for every row. *)
Module Demo.

Definition np_std (s : list Q) : feat := num 1.
Definition stats_skew (s : list Q) : feat := num 0.
Definition stats_kurtosis (s : list Q) : feat := num 0.
Definition stats_entropy (s : list Q) : feat := num 1.

Definition welch (fs : Z) (nperseg : nat) (x : list Q) : result (list Q * list Q) :=
  Ok ([0; inject_Z fs / 2], [1; 2]).

Definition butter (order : nat) (low high : Q) : result (list Q * list Q) :=
  if Qltb 0 low && Qltb low high && Qltb high 1
  then Ok ([1; 0; -1], [1; 0; 0])
  else Err (ValueError "Digital filter critical frequencies must be 0 < Wn < 1").

Definition lfilter_zi (b a : list Q) : result (list Q) :=
  Ok (repeat 0 (Nat.max (length a) (length b) - 1)).

Definition constant_model (v : Q) : model := fun X => Ok (map (fun _ => v) X).

End Demo.

Section Pipeline.

(** *** Library functions taken as parameters *)

(** [np.std], [stats.skew], [stats.kurtosis] and [stats.entropy] of one
    row; each may be [nan] (a constant row has no skewness). *)
Variable np_std : list Q -> feat.
Variable stats_skew : list Q -> feat.
Variable stats_kurtosis : list Q -> feat.
Variable stats_entropy : list Q -> feat.

(** [welch(x, fs=fs, nperseg=n)]: the frequencies and the power
    spectral density. *)
Variable welch : Z -> nat -> list Q -> result (list Q * list Q).

(** [butter(order, [low, high], btype="band")]: the coefficients
    [(b, a)], or [ValueError] for cut-offs outside (0, 1). *)
Variable butter : nat -> Q -> Q -> result (list Q * list Q).

(** [lfilter_zi(b, a)]: the steady state of the step response. *)
Variable lfilter_zi : list Q -> list Q -> result (list Q).

(** The module-level [model_sbp] and [model_dbp]; [None] after a failed
    load. *)
Variable model_sbp : option model.
Variable model_dbp : option model.

(** *** [butter_bandpass_filter] *)

Definition filtfilt (b a x : list Q) : result (list Q) :=
  let! zi := lfilter_zi b a in
  filtfilt_with zi b a x.

Definition butter_bandpass_filter (data : list Q) (lowcut highcut : Q) (fs : Z)
    (order : nat) : result (list Q) :=
  let nyq := (1 # 2) * inject_Z fs in
  if Qeq_bool nyq 0 then Err (ZeroDivisionError "float division by zero")
  else
    let low := lowcut / nyq in
    let high := highcut / nyq in
    let! ba := butter order low high in
    filtfilt (fst ba) (snd ba) data.

(** *** [extract_time_domain_features] *)

Definition time_domain_row (s : list Q) : result (list feat) :=
  let m := np_mean s in
  let sd := np_std s in
  let! mx := np_max s in
  let! mn := np_min s in
  let rng := mx - mn in
  let sk := stats_skew s in
  let kt := stats_kurtosis s in
  let ent := stats_entropy (map (fun v => Qabs v + eps8) s) in
  Ok [num m; sd; num mx; num mn; num rng; sk; kt; ent].

Definition extract_time_domain_features (sig : list (list Q))
    : result (list (list feat)) :=
  rmap time_domain_row sig.

(** *** [extract_frequency_domain_features] *)

Definition frequency_domain_row (fs : Z) (s : list Q) : result (list feat) :=
  let! fp := welch fs (Nat.min 256 (length s)) s in
  let (f, psd) := fp in
  let! k := np_argmax psd in
  let! domf := getitem f k in
  let power := np_sum psd in
  Ok [num domf; num power].

Definition extract_frequency_domain_features (sig : list (list Q)) (fs : Z)
    : result (list (list feat)) :=
  rmap (frequency_domain_row fs) sig.

(** *** [extract_features] *)

(** [np.asarray(ppg_signal).reshape(1, -1)] is the one-row array
    [[ppg_signal]]; the scaler sees its transpose, one column. *)
Definition stacked_features (scaled : list Q) : result (list (list feat)) :=
  let! tf := extract_time_domain_features [scaled] in
  let! ff := extract_frequency_domain_features [scaled] 100 in
  let! pf := extract_ppg_specific_features [scaled] 100 in
  let! wf := extract_ppg_features [scaled] 100 in
  Ok (hstack (hstack (hstack tf ff) pf) wf).

Definition extract_features (ppg_signal : list Q) : result (list (list Q)) :=
  let! scaled := MinMaxScaler_fit_transform ppg_signal in
  let! feats := stacked_features scaled in
  SimpleImputer_fit_transform feats.

(** *** [predict] *)

(** The body of the [try] block; [np.array(data, dtype=float)] leaves a
    list of numbers as it is.  Each call is recorded before its result is
    inspected, and an exception ends the block. *)
Definition predict_try (m_sbp m_dbp : model) (data : list Q) (fs : Z)
    : traced (list Q * list (list Q) * Q * Q) :=
  run! filt := tcall Filtering (butter_bandpass_filter data (1 # 2) 8 fs 3) in
  run! X := tcall Extraction (extract_features filt) in
  run! sbp := tcall InferenceSBP (predict_first m_sbp X) in
  run! dbp := tcall InferenceDBP (predict_first m_dbp X) in
  ([], Ok (filt, X, sbp, dbp)).

(** [if not data or model_sbp is None or model_dbp is None] answers 400
    before the [try] block; inside it, [except Exception] turns any
    exception into the 500 response. *)
Definition predict (req : request) : list stage * response :=
  let data := default [] (req_ppg req) in
  let fs := default 100%Z (req_fs req) in
  match data, model_sbp, model_dbp with
  | _ :: _, Some m_sbp, Some m_dbp =>
      match predict_try m_sbp m_dbp data fs with
      | (t, Ok (filt, _, sbp, dbp)) =>
          (t, {| status := 200; body := success_body sbp dbp filt |})
      | (t, Err e) =>
          (t, {| status := 500; body := error_body (str e) |})
      end
  | _, _, _ =>
      ([], {| status := 400; body := error_body "Invalid input or models not loaded" |})
  end.

(** * Properties *)

(** ** Comparisons *)

Lemma Qltb_lt (a b : Q) : Qltb a b = true <-> a < b.
Proof.
  unfold Qltb. rewrite negb_true_iff, <- not_true_iff_false, Qle_bool_iff.
  split; [apply Qnot_le_lt | apply Qlt_not_le].
Qed.

Lemma Qltb_ge (a b : Q) : Qltb a b = false <-> b <= a.
Proof.
  unfold Qltb. rewrite negb_false_iff. apply Qle_bool_iff.
Qed.

Lemma Qeq_bool_ltb (a b : Q) : Qeq_bool a b = negb (Qltb a b) && negb (Qltb b a).
Proof.
  destruct (Qeq_bool a b) eqn:E.
  - apply Qeq_bool_iff in E.
    assert (H1 : Qltb a b = false) by (apply Qltb_ge; lra).
    assert (H2 : Qltb b a = false) by (apply Qltb_ge; lra).
    now rewrite H1, H2.
  - destruct (Qltb a b) eqn:E1; [reflexivity|].
    destruct (Qltb b a) eqn:E2; [reflexivity|].
    apply Qltb_ge in E1, E2.
    assert (H : a == b) by lra.
    apply Qeq_bool_iff in H. congruence.
Qed.

(** ** Signals with the same order pattern *)

Lemma order_equiv_eqb (x y : list Q) (i j : nat) :
  order_equiv x y -> (i < length x)%nat -> (j < length x)%nat ->
  Qeq_bool (sample x i) (sample x j) = Qeq_bool (sample y i) (sample y j).
Proof.
  intros [_ H] Hi Hj. rewrite !Qeq_bool_ltb.
  now rewrite (H i j Hi Hj), (H j i Hj Hi).
Qed.

Lemma sample_map (f : Q -> Q) (x : list Q) (i : nat) :
  (i < length x)%nat -> sample (map f x) i = f (sample x i).
Proof.
  intros Hi. unfold sample.
  rewrite (nth_indep (map f x) 0 (f 0)) by (now rewrite length_map).
  apply map_nth.
Qed.

Lemma order_equiv_map (f g : Q -> Q) (x : list Q) :
  (forall a b, Qltb (f a) (f b) = Qltb (g a) (g b)) ->
  order_equiv (map f x) (map g x).
Proof.
  intros H. split; [now rewrite !length_map|].
  intros i j Hi Hj. rewrite length_map in Hi, Hj.
  rewrite !sample_map by assumption. apply H.
Qed.

(** ** [_local_maxima_1d] *)

Lemma skip_plateau_bounds (x : list Q) (i_max : nat) (xi : Q) (fuel k : nat) :
  (k <= skip_plateau x i_max xi fuel k)%nat /\
  (skip_plateau x i_max xi fuel k <= Nat.max k i_max)%nat.
Proof.
  revert k. induction fuel as [|fuel IH]; intros k; simpl; [lia|].
  destruct (k <? i_max)%nat eqn:E; simpl; [|lia].
  apply Nat.ltb_lt in E.
  destruct (Qeq_bool (sample x k) xi); [|lia].
  specialize (IH (S k)). lia.
Qed.

Lemma skip_plateau_equiv (x y : list Q) (i_max i fuel k : nat) :
  order_equiv x y -> (i < length x)%nat -> (i_max < length x)%nat ->
  skip_plateau x i_max (sample x i) fuel k = skip_plateau y i_max (sample y i) fuel k.
Proof.
  intros He Hi Hm. revert k. induction fuel as [|fuel IH]; intros k; simpl; [reflexivity|].
  destruct (k <? i_max)%nat eqn:E; simpl; [|reflexivity].
  apply Nat.ltb_lt in E.
  rewrite (order_equiv_eqb x y k i He) by lia.
  now rewrite IH.
Qed.

Lemma local_maxima_loop_equiv (x y : list Q) (i_max fuel i : nat) :
  order_equiv x y -> (i_max < length x)%nat ->
  local_maxima_loop x i_max fuel i = local_maxima_loop y i_max fuel i.
Proof.
  intros He Hm. revert i. induction fuel as [|fuel IH]; intros i; simpl; [reflexivity|].
  destruct (i <? i_max)%nat eqn:E; [|reflexivity].
  apply Nat.ltb_lt in E.
  destruct He as [Hl Hc].
  rewrite (Hc (i - 1)%nat i) by lia.
  rewrite (skip_plateau_equiv x y i_max i) by (try split; auto; lia).
  pose proof (skip_plateau_bounds y i_max (sample y i) (i_max - (i + 1)) (i + 1)) as Hb.
  rewrite (Hc (skip_plateau y i_max (sample y i) (i_max - (i + 1)) (i + 1)) i) by lia.
  now rewrite !IH.
Qed.

Lemma local_maxima_1d_equiv (x y : list Q) :
  order_equiv x y -> local_maxima_1d x = local_maxima_1d y.
Proof.
  intros He. unfold local_maxima_1d.
  destruct He as [Hl Hc]. rewrite <- Hl.
  destruct x as [|x0 x'].
  - reflexivity.
  - apply local_maxima_loop_equiv; [now split|simpl; lia].
Qed.

(** The reported positions increase strictly and lie inside the
    signal. *)
Lemma local_maxima_loop_sorted (x : list Q) (i_max fuel i : nat) :
  (1 <= i)%nat ->
  StronglySorted lt (local_maxima_loop x i_max fuel i) /\
  Forall (fun p => i <= p < i_max)%nat (local_maxima_loop x i_max fuel i).
Proof.
  revert i. induction fuel as [|fuel IH]; intros i Hi; cbn [local_maxima_loop].
  { split; constructor. }
  destruct (i <? i_max)%nat eqn:E; [|split; constructor].
  apply Nat.ltb_lt in E.
  destruct (Qltb (sample x (i - 1)) (sample x i)).
  2:{ destruct (IH (i + 1)%nat) as [H1 H2]; [lia|]. split; [assumption|].
      eapply Forall_impl; [exact H2|]. cbv beta. intros; lia. }
  pose proof (skip_plateau_bounds x i_max (sample x i) (i_max - (i + 1)) (i + 1)) as Hb.
  set (ia := skip_plateau x i_max (sample x i) (i_max - (i + 1)) (i + 1)) in *.
  destruct (Qltb (sample x ia) (sample x i)).
  2:{ destruct (IH (i + 1)%nat) as [H1 H2]; [lia|]. split; [assumption|].
      eapply Forall_impl; [exact H2|]. cbv beta. intros; lia. }
  destruct (IH (ia + 1)%nat) as [H1 H2]; [lia|].
  assert (Hmid : (i <= (i + (ia - 1)) / 2 < ia)%nat).
  { split.
    - apply Nat.div_le_lower_bound; lia.
    - apply Nat.Div0.div_lt_upper_bound; lia. }
  split.
  - constructor; [assumption|].
    eapply Forall_impl; [exact H2|]. cbv beta. intros; lia.
  - constructor; [lia|].
    eapply Forall_impl; [exact H2|]. cbv beta. intros; lia.
Qed.

(** The recursion bounds never end a loop early: any bound that covers
    the remaining indices gives the same result. *)
Lemma skip_plateau_fuel (x : list Q) (i_max : nat) (xi : Q) (f1 f2 k : nat) :
  (i_max - k <= f1)%nat -> (i_max - k <= f2)%nat ->
  skip_plateau x i_max xi f1 k = skip_plateau x i_max xi f2 k.
Proof.
  revert f2 k. induction f1 as [|f1 IH]; intros f2 k H1 H2.
  - destruct f2 as [|f2]; [reflexivity|]. cbn [skip_plateau].
    destruct (k <? i_max)%nat eqn:E; [apply Nat.ltb_lt in E; lia|reflexivity].
  - cbn [skip_plateau]. destruct (k <? i_max)%nat eqn:E; cbn [andb].
    + apply Nat.ltb_lt in E. destruct f2 as [|f2]; [lia|].
      cbn [skip_plateau]. apply Nat.ltb_lt in E. rewrite E. cbn [andb].
      apply Nat.ltb_lt in E.
      destruct (Qeq_bool (sample x k) xi); [|reflexivity]. apply IH; lia.
    + destruct f2 as [|f2]; [reflexivity|]. cbn [skip_plateau]. now rewrite E.
Qed.

Lemma local_maxima_loop_fuel (x : list Q) (i_max f1 f2 i : nat) :
  (i_max - i <= f1)%nat -> (i_max - i <= f2)%nat ->
  local_maxima_loop x i_max f1 i = local_maxima_loop x i_max f2 i.
Proof.
  revert f2 i. induction f1 as [|f1 IH]; intros f2 i H1 H2.
  - destruct f2 as [|f2]; [reflexivity|]. cbn [local_maxima_loop].
    destruct (i <? i_max)%nat eqn:E; [apply Nat.ltb_lt in E; lia|reflexivity].
  - cbn [local_maxima_loop]. destruct (i <? i_max)%nat eqn:E.
    + destruct f2 as [|f2]; [apply Nat.ltb_lt in E; lia|].
      cbn [local_maxima_loop]. rewrite E. apply Nat.ltb_lt in E.
      pose proof (skip_plateau_bounds x i_max (sample x i) (i_max - (i + 1)) (i + 1)) as Hb.
      destruct (Qltb (sample x (i - 1)) (sample x i)); [|apply IH; lia].
      destruct (Qltb (sample x _) (sample x i)); [|apply IH; lia].
      f_equal. apply IH; lia.
    + destruct f2 as [|f2]; [reflexivity|]. cbn [local_maxima_loop]. now rewrite E.
Qed.

Lemma local_maxima_1d_sorted (x : list Q) : StronglySorted lt (local_maxima_1d x).
Proof. apply local_maxima_loop_sorted. lia. Qed.

Lemma local_maxima_1d_range (x : list Q) :
  Forall (fun p => 1 <= p /\ p + 1 < length x)%nat (local_maxima_1d x).
Proof.
  unfold local_maxima_1d.
  destruct (local_maxima_loop_sorted x (length x - 1) (length x) 1) as [_ H]; [lia|].
  eapply Forall_impl; [exact H|]. cbv beta. intros; lia.
Qed.

(** ** [np.argsort] *)

Lemma insert_by_equiv (pr pr' : list Q) (j : nat) (l : list nat) :
  order_equiv pr pr' -> (j < length pr)%nat -> Forall (fun k => k < length pr)%nat l ->
  insert_by pr j l = insert_by pr' j l.
Proof.
  intros [Hl Hc] Hj Hr. induction Hr as [|k l Hk Hr IH]; simpl; [reflexivity|].
  rewrite (Hc j k Hj Hk). now rewrite IH.
Qed.

Lemma insert_by_perm (pr : list Q) (j : nat) (l : list nat) :
  Permutation (insert_by pr j l) (j :: l).
Proof.
  induction l as [|k l IH]; simpl; [reflexivity|].
  destruct (Qltb (sample pr j) (sample pr k)); [reflexivity|].
  rewrite IH. apply perm_swap.
Qed.

Lemma argsort_fold_perm (pr : list Q) (js acc : list nat) :
  Permutation (fold_left (fun acc j => insert_by pr j acc) js acc) (js ++ acc).
Proof.
  revert acc. induction js as [|j js IH]; intros acc; simpl; [reflexivity|].
  rewrite IH, insert_by_perm. symmetry. apply Permutation_middle.
Qed.

Lemma argsort_perm (pr : list Q) : Permutation (argsort pr) (seq 0 (length pr)).
Proof.
  unfold argsort. rewrite argsort_fold_perm. now rewrite app_nil_r.
Qed.

Lemma argsort_fold_equiv (pr pr' : list Q) (js acc : list nat) :
  order_equiv pr pr' ->
  Forall (fun k => k < length pr)%nat js -> Forall (fun k => k < length pr)%nat acc ->
  fold_left (fun acc j => insert_by pr j acc) js acc
  = fold_left (fun acc j => insert_by pr' j acc) js acc.
Proof.
  intros He Hjs. revert acc. induction Hjs as [|j js Hj Hjs IH]; intros acc Hacc; simpl.
  { reflexivity. }
  rewrite <- (insert_by_equiv pr pr' j acc He Hj Hacc).
  apply IH.
  apply Forall_forall. intros k Hk.
  apply list_elem_of_In in Hk.
  apply (Permutation_in _ (insert_by_perm pr j acc)) in Hk.
  destruct Hk as [<-|Hk]; [assumption|].
  rewrite Forall_forall in Hacc. apply Hacc. now apply list_elem_of_In.
Qed.

Lemma argsort_equiv (pr pr' : list Q) :
  order_equiv pr pr' -> argsort pr = argsort pr'.
Proof.
  intros He. unfold argsort. destruct He as [Hl Hc] eqn:E. rewrite <- Hl.
  apply argsort_fold_equiv; [split; assumption| |constructor].
  apply Forall_forall. intros k Hk. apply list_elem_of_In, in_seq in Hk. lia.
Qed.

Lemma priority_equiv (x y : list Q) (peaks : list nat) :
  order_equiv x y -> Forall (fun p => p < length x)%nat peaks ->
  order_equiv (map (sample x) peaks) (map (sample y) peaks).
Proof.
  intros [Hl Hc] Hr. split; [now rewrite !length_map|].
  intros i j Hi Hj. rewrite length_map in Hi, Hj.
  assert (Hs : forall (z : list Q) k, (k < length peaks)%nat ->
             sample (map (sample z) peaks) k = sample z (nth k peaks 0%nat)).
  { intros z k Hk. unfold sample at 1.
    rewrite (nth_indep _ 0 (sample z 0%nat)) by (now rewrite length_map).
    apply (map_nth (sample z)). }
  rewrite !Hs by assumption.
  rewrite Forall_forall in Hr.
  apply Hc; apply Hr; apply list_elem_of_In, nth_In; assumption.
Qed.

(** [find_peaks] only looks at the order pattern of the signal. *)
Lemma find_peaks_equiv (x y : list Q) (d : Z) :
  order_equiv x y -> find_peaks x d = find_peaks y d.
Proof.
  intros He. unfold find_peaks.
  destruct (d <? 1)%Z; [reflexivity|].
  rewrite <- (local_maxima_1d_equiv x y He).
  unfold select_by_peak_distance.
  rewrite (argsort_equiv (map (sample x) (local_maxima_1d x))
                         (map (sample y) (local_maxima_1d x))); [reflexivity|].
  apply priority_equiv; [assumption|].
  eapply Forall_impl; [apply local_maxima_1d_range|]. cbv beta. intros; lia.
Qed.

Lemma find_peaks_ok (x : list Q) (d : Z) :
  (1 <= d)%Z ->
  find_peaks x d
  = Ok (mask (local_maxima_1d x)
          (select_by_peak_distance (local_maxima_1d x)
             (map (sample x) (local_maxima_1d x)) d)).
Proof.
  intros Hd. unfold find_peaks.
  destruct (d <? 1)%Z eqn:E; [apply Z.ltb_lt in E; lia|reflexivity].
Qed.

(** ** [_select_by_peak_distance] *)

Lemma sorted_nth (l : list nat) :
  StronglySorted lt l ->
  forall m k, (m < k)%nat -> (k < length l)%nat -> (nth m l 0 < nth k l 0)%nat.
Proof.
  induction 1 as [|a l Hs IH Ha]; intros m k Hmk Hk; simpl in Hk; [lia|].
  destruct k as [|k]; [lia|]. destruct m as [|m]; simpl.
  - rewrite Forall_forall in Ha. apply Ha, list_elem_of_In, nth_In. lia.
  - apply IH; lia.
Qed.

Lemma sorted_nth_le (l : list nat) (m k : nat) :
  StronglySorted lt l -> (m <= k)%nat -> (k < length l)%nat ->
  (nth m l 0 <= nth k l 0)%nat.
Proof.
  intros Hs Hmk Hk. destruct (Nat.eq_dec m k) as [->|Hne]; [lia|].
  apply Nat.lt_le_incl, sorted_nth; [assumption|lia|assumption].
Qed.

Section Selection.

Variable peaks : list nat.
Variable d : Z.
Hypothesis peaks_sorted : StronglySorted lt peaks.

Lemma clear_left_spec (j : nat) (k1 : nat) (keep : list bool) :
  (k1 <= j)%nat -> (j < length peaks)%nat ->
  let keep' := clear_left peaks d (nth j peaks 0%nat) k1 keep in
  length keep' = length keep /\
  (forall m, keep' !! m = Some true -> keep !! m = Some true) /\
  (forall m, (k1 <= m)%nat -> keep' !! m = keep !! m) /\
  (forall m, (m < k1)%nat -> (m < length keep)%nat ->
     (Z.of_nat (nth j peaks 0%nat) - Z.of_nat (nth m peaks 0%nat) < d)%Z ->
     keep' !! m = Some false).
Proof.
  revert keep. induction k1 as [|k IH]; intros keep Hk Hj; cbn [clear_left].
  { repeat split; intros; auto; lia. }
  destruct (Z.of_nat (nth j peaks 0%nat) - Z.of_nat (nth k peaks 0%nat) <? d)%Z eqn:E.
  - destruct (IH (<[k:=false]> keep)) as (IH1 & IH2 & IH3 & IH4); [lia|assumption|].
    rewrite length_insert in IH1, IH4.
    split; [assumption|]. split; [|split].
    + intros m Hm. apply IH2 in Hm.
      rewrite list_lookup_insert in Hm. case_decide; [discriminate|assumption].
    + intros m Hm. rewrite IH3 by lia. apply list_lookup_insert_ne. lia.
    + intros m Hm Hlen Hd.
      destruct (Nat.eq_dec m k) as [->|Hne].
      * rewrite IH3 by lia. now apply list_lookup_insert_eq.
      * apply IH4; [lia|assumption|assumption].
  - apply Z.ltb_ge in E.
    repeat split; auto.
    intros m Hm Hlen Hd.
    pose proof (sorted_nth_le peaks m k peaks_sorted) as Hle. lia.
Qed.

Lemma clear_right_fuel (pj : nat) (f1 f2 k : nat) (keep : list bool) :
  (length peaks - k <= f1)%nat -> (length peaks - k <= f2)%nat ->
  clear_right peaks d pj f1 k keep = clear_right peaks d pj f2 k keep.
Proof.
  revert f2 k keep. induction f1 as [|f1 IH]; intros f2 k keep H1 H2.
  - destruct f2 as [|f2]; [reflexivity|]. cbn [clear_right].
    destruct (k <? length peaks)%nat eqn:E; [apply Nat.ltb_lt in E; lia|reflexivity].
  - cbn [clear_right]. destruct (k <? length peaks)%nat eqn:E; cbn [andb].
    + destruct f2 as [|f2]; [apply Nat.ltb_lt in E; lia|].
      cbn [clear_right]. rewrite E. cbn [andb]. apply Nat.ltb_lt in E.
      destruct (_ <? d)%Z; [|reflexivity]. apply IH; lia.
    + destruct f2 as [|f2]; [reflexivity|]. cbn [clear_right]. now rewrite E.
Qed.

Lemma clear_right_spec (j : nat) (fuel k : nat) (keep : list bool) :
  (j < k)%nat -> (length peaks <= fuel + k)%nat ->
  let keep' := clear_right peaks d (nth j peaks 0%nat) fuel k keep in
  length keep' = length keep /\
  (forall m, keep' !! m = Some true -> keep !! m = Some true) /\
  (forall m, (m < k)%nat -> keep' !! m = keep !! m) /\
  (forall m, (k <= m)%nat -> (m < length peaks)%nat -> (m < length keep)%nat ->
     (Z.of_nat (nth m peaks 0%nat) - Z.of_nat (nth j peaks 0%nat) < d)%Z ->
     keep' !! m = Some false).
Proof.
  revert k keep. induction fuel as [|fuel IH]; intros k keep Hk Hf; cbn [clear_right].
  { repeat split; intros; auto; lia. }
  destruct (k <? length peaks)%nat eqn:Ek; cbn [andb].
  2:{ apply Nat.ltb_ge in Ek. repeat split; intros; auto; lia. }
  apply Nat.ltb_lt in Ek.
  destruct (Z.of_nat (nth k peaks 0%nat) - Z.of_nat (nth j peaks 0%nat) <? d)%Z eqn:E.
  - destruct (IH (S k) (<[k:=false]> keep)) as (IH1 & IH2 & IH3 & IH4); [lia|lia|].
    rewrite length_insert in IH1, IH4.
    split; [assumption|]. split; [|split].
    + intros m Hm. apply IH2 in Hm.
      rewrite list_lookup_insert in Hm. case_decide; [discriminate|assumption].
    + intros m Hm. rewrite IH3 by lia. apply list_lookup_insert_ne. lia.
    + intros m Hm Hmp Hlen Hd.
      destruct (Nat.eq_dec m k) as [->|Hne].
      * rewrite IH3 by lia. now apply list_lookup_insert_eq.
      * apply IH4; [lia|assumption|assumption|assumption].
  - apply Z.ltb_ge in E.
    repeat split; auto.
    intros m Hm Hmp Hlen Hd.
    pose proof (sorted_nth_le peaks k m peaks_sorted) as Hle. lia.
Qed.

Lemma select_step_spec (keep : list bool) (j : nat) :
  (j < length peaks)%nat -> length keep = length peaks ->
  let keep' := select_step peaks d keep j in
  length keep' = length peaks /\
  (forall m, keep' !! m = Some true -> keep !! m = Some true) /\
  (keep' !! j = Some true ->
   forall m, m <> j -> (m < length peaks)%nat -> too_close peaks d j m ->
     keep' !! m <> Some true).
Proof.
  intros Hj Hlen. unfold select_step.
  destruct (keep !! j) as [[|]|] eqn:Ej.
  2,3: (split; [assumption|]; split; [auto|]; intros Hc; congruence).
  destruct (clear_left_spec j j keep) as (L1 & L2 & L3 & L4); [lia|assumption|].
  set (kl := clear_left peaks d (nth j peaks 0%nat) j keep) in *.
  destruct (clear_right_spec j (length peaks - (j + 1)) (j + 1) kl)
    as (R1 & R2 & R3 & R4); [lia|lia|].
  set (kr := clear_right peaks d (nth j peaks 0%nat) (length peaks - (j + 1)) (j + 1) kl) in *.
  split; [lia|]. split; [auto|].
  intros _ m Hne Hm Hclose. unfold too_close in Hclose.
  destruct (Nat.lt_ge_cases m j) as [Hlt|Hge].
  - rewrite R3 by lia.
    pose proof (sorted_nth peaks peaks_sorted m j Hlt Hj) as Hs.
    rewrite L4; [discriminate|assumption|lia|lia].
  - pose proof (sorted_nth peaks peaks_sorted j m) as Hs.
    rewrite R4; [discriminate|lia|assumption|lia|lia].
Qed.

(** After the positions [js] have been processed, every kept one of
    them has no kept neighbour closer than [d]. *)
Lemma select_fold_spec (js : list nat) (keep : list bool) :
  Forall (fun j => j < length peaks)%nat js -> length keep = length peaks ->
  let keep' := fold_left (select_step peaks d) js keep in
  length keep' = length peaks /\
  (forall m, keep' !! m = Some true -> keep !! m = Some true) /\
  (forall j, In j js -> keep' !! j = Some true ->
   forall m, m <> j -> (m < length peaks)%nat -> too_close peaks d j m ->
     keep' !! m <> Some true).
Proof.
  intros Hjs. revert keep. induction Hjs as [|j js Hj Hjs IH]; intros keep Hlen; simpl.
  { split; [assumption|]. split; [auto|]. intros j []. }
  destruct (select_step_spec keep j Hj Hlen) as (S1 & S2 & S3).
  destruct (IH (select_step peaks d keep j) S1) as (F1 & F2 & F3).
  split; [assumption|]. split; [auto|].
  intros j' [<-|Hin] Hkept m Hne Hm Hclose.
  - intros Hm'. apply F2 in Hm'. apply F2 in Hkept.
    exact (S3 Hkept m Hne Hm Hclose Hm').
  - now apply (F3 j' Hin Hkept m).
Qed.

Lemma select_by_peak_distance_spec (priority : list Q) :
  length priority = length peaks ->
  let keep := select_by_peak_distance peaks priority d in
  length keep = length peaks /\
  forall j m, keep !! j = Some true -> keep !! m = Some true -> m <> j ->
    ~ too_close peaks d j m.
Proof.
  intros Hp. unfold select_by_peak_distance.
  assert (Hperm : Permutation (rev (argsort priority)) (seq 0 (length peaks))).
  { rewrite <- Hp, <- argsort_perm. symmetry. apply Permutation_rev. }
  destruct (select_fold_spec (rev (argsort priority)) (repeat true (length peaks)))
    as (F1 & _ & F3).
  { apply Forall_forall. intros j Hin. apply list_elem_of_In in Hin.
    apply (Permutation_in _ Hperm), in_seq in Hin. lia. }
  { apply repeat_length. }
  split; [assumption|].
  intros j m Hj Hm Hne Hclose.
  assert (Hjl : (j < length peaks)%nat) by (apply lookup_lt_Some in Hj; lia).
  assert (Hml : (m < length peaks)%nat) by (apply lookup_lt_Some in Hm; lia).
  assert (Hin : In j (rev (argsort priority))).
  { apply (Permutation_in _ (Permutation_sym Hperm)), in_seq. lia. }
  exact (F3 j Hin Hj m Hne Hml Hclose Hm).
Qed.

End Selection.

Lemma mask_In {A : Type} (l : list A) (keep : list bool) (a : A) :
  In a (mask l keep) -> exists k, nth_error l k = Some a /\ keep !! k = Some true.
Proof.
  revert keep. induction l as [|b l IH]; intros keep; simpl; [intros []|].
  destruct keep as [|c keep]; [intros []|].
  destruct c.
  - intros [<-|Hin]; [now exists 0%nat|].
    destruct (IH _ Hin) as (k & H1 & H2). now exists (S k).
  - intros Hin. destruct (IH _ Hin) as (k & H1 & H2). now exists (S k).
Qed.

Lemma mask_sublist {A : Type} (l : list A) (keep : list bool) :
  sublist (mask l keep) l.
Proof.
  revert keep. induction l as [|b l IH]; intros keep; simpl; [constructor|].
  destruct keep as [|[] keep]; [apply sublist_nil_l| |]; constructor; apply IH.
Qed.

(** Any two distinct peaks that [find_peaks] returns are at least
    [distance] samples apart, and each is a local maximum of the
    signal. *)
Lemma find_peaks_distance (x : list Q) (d : Z) (pks : list nat) :
  find_peaks x d = Ok pks ->
  sublist pks (local_maxima_1d x) /\
  forall p q, In p pks -> In q pks -> p <> q ->
    (d <= Z.abs (Z.of_nat q - Z.of_nat p))%Z.
Proof.
  unfold find_peaks. destruct (d <? 1)%Z; [discriminate|].
  intros [= <-]. split; [apply mask_sublist|].
  intros p q Hp Hq Hne.
  destruct (select_by_peak_distance_spec (local_maxima_1d x) d
              (local_maxima_1d_sorted x) (map (sample x) (local_maxima_1d x)))
    as [_ Hsel]; [apply length_map|].
  apply mask_In in Hp, Hq.
  destruct Hp as (j & Hj1 & Hj2). destruct Hq as (m & Hm1 & Hm2).
  assert (Hmj : m <> j) by (intros ->; congruence).
  specialize (Hsel j m Hj2 Hm2 Hmj). unfold too_close in Hsel.
  rewrite (nth_error_nth _ _ 0%nat Hj1), (nth_error_nth _ _ 0%nat Hm1) in Hsel.
  lia.
Qed.

(** ** [np.min], [np.max] and the normalisation of the morphology
    extractor *)

Lemma fold_min_spec (l : list Q) (m0 : Q) :
  let r := fold_left (fun m y => if Qltb y m then y else m) l m0 in
  r <= m0 /\ Forall (fun v => r <= v) l.
Proof.
  revert m0. induction l as [|y l IH]; intros m0; simpl.
  { split; [lra|constructor]. }
  destruct (IH (if Qltb y m0 then y else m0)) as [H1 H2].
  destruct (Qltb y m0) eqn:E.
  - apply Qltb_lt in E. split; [lra|]. constructor; assumption.
  - apply Qltb_ge in E. split; [assumption|]. constructor; [lra|assumption].
Qed.

Lemma fold_max_spec (l : list Q) (m0 : Q) :
  let r := fold_left (fun m y => if Qltb m y then y else m) l m0 in
  m0 <= r /\ Forall (fun v => v <= r) l.
Proof.
  revert m0. induction l as [|y l IH]; intros m0; simpl.
  { split; [lra|constructor]. }
  destruct (IH (if Qltb m0 y then y else m0)) as [H1 H2].
  destruct (Qltb m0 y) eqn:E.
  - apply Qltb_lt in E. split; [lra|]. constructor; assumption.
  - apply Qltb_ge in E. split; [assumption|]. constructor; [lra|assumption].
Qed.



Lemma np_min_max_ok (l : list Q) :
  l <> [] -> exists mn mx, np_min l = Ok mn /\ np_max l = Ok mx /\ mn <= mx.
Proof.
  destruct l as [|x l]; [congruence|]. intros _.
  eexists _, _. split; [reflexivity|]. split; [reflexivity|].
  destruct (fold_min_spec l x) as [H1 _]. destruct (fold_max_spec l x) as [H2 _].
  cbv zeta in H1, H2. lra.
Qed.

Lemma Qltb_ext (a b c d : Q) : (a < b <-> c < d) -> Qltb a b = Qltb c d.
Proof.
  intros H. destruct (Qltb a b) eqn:E1, (Qltb c d) eqn:E2; try reflexivity.
  - apply Qltb_lt, H, Qltb_lt in E1. congruence.
  - apply Qltb_lt, H, Qltb_lt in E2. congruence.
Qed.

Lemma scale_lt (mn c a b : Q) :
  0 < c -> (a - mn) / c < (b - mn) / c <-> a < b.
Proof.
  intros Hc. unfold Qdiv.
  rewrite Qmult_lt_r by (now apply Qinv_lt_0_compat). split; intros; lra.
Qed.

Lemma scale_order (mn c a b : Q) :
  0 < c -> Qltb ((a - mn) / c) ((b - mn) / c) = Qltb a b.
Proof.
  intros Hc. apply Qltb_ext. now apply scale_lt.
Qed.

(** The normalisation succeeds on a non-empty signal and keeps its
    order pattern, for the signal and for its negation. *)
Lemma renormalize_spec (sig : list Q) :
  sig <> [] ->
  exists sig', renormalize sig = Ok sig' /\ length sig' = length sig /\
    order_equiv sig' sig /\ order_equiv (map Qopp sig') (map Qopp sig).
Proof.
  intros Hne. destruct (np_min_max_ok sig Hne) as (mn & mx & Hmn & Hmx & Hle).
  unfold renormalize. rewrite Hmn, Hmx. cbn [rbind].
  eexists. split; [reflexivity|].
  assert (Hc : 0 < mx - mn + eps8) by (unfold eps8; lra).
  split; [apply length_map|]. split.
  - rewrite <- (map_id sig) at 2. apply order_equiv_map.
    intros a b. now apply scale_order.
  - rewrite map_map. apply order_equiv_map. intros a b.
    apply Qltb_ext.
    pose proof (scale_lt mn (mx - mn + eps8) b a Hc) as [H1 H2].
    split; intros H.
    + assert (H' : b < a) by (apply H1; lra). lra.
    + assert (H' : (b - mn) / (mx - mn + eps8) < (a - mn) / (mx - mn + eps8))
        by (apply H2; lra). lra.
Qed.

(** A signal that never decreases, or never increases, has no local
    maximum. *)
Lemma monotone_loop_no_peaks (x : list Q) (i_max fuel i : nat) :
  nondecreasing x \/ nonincreasing x -> (i_max < length x)%nat ->
  local_maxima_loop x i_max fuel i = [].
Proof.
  intros Hm Hi. revert i. induction fuel as [|fuel IH]; intros i; cbn [local_maxima_loop].
  { reflexivity. }
  destruct (i <? i_max)%nat eqn:E; [|reflexivity]. apply Nat.ltb_lt in E.
  destruct (Qltb (sample x (i - 1)) (sample x i)) eqn:E1; [|apply IH].
  pose proof (skip_plateau_bounds x i_max (sample x i) (i_max - (i + 1)) (i + 1)) as Hb.
  set (ia := skip_plateau x i_max (sample x i) (i_max - (i + 1)) (i + 1)) in *.
  destruct (Qltb (sample x ia) (sample x i)) eqn:E2; [|apply IH].
  apply Qltb_lt in E1, E2. exfalso.
  destruct Hm as [Hm|Hm].
  - specialize (Hm i ia). lapply Hm; [|lia]. intros Hm'. lapply Hm'; [|lia]. lra.
  - destruct i as [|i]; [simpl in E1; lra|].
    specialize (Hm i (S i)). simpl in E1. rewrite Nat.sub_0_r in E1.
    lapply Hm; [|lia]. intros Hm'. lapply Hm'; [|lia]. lra.
Qed.

Lemma monotone_no_peaks (x : list Q) (d : Z) :
  nondecreasing x \/ nonincreasing x -> (1 <= d)%Z -> find_peaks x d = Ok [].
Proof.
  intros Hm Hd. rewrite find_peaks_ok by assumption.
  unfold local_maxima_1d. destruct x as [|x0 x]; [reflexivity|].
  rewrite monotone_loop_no_peaks; [reflexivity|assumption|simpl; lia].
Qed.

Lemma find_peaks_nonempty (x : list Q) (d : Z) (pks : list nat) :
  find_peaks x d = Ok pks -> pks <> [] -> (3 <= length x)%nat.
Proof.
  intros Hf Hne. destruct (find_peaks_distance x d pks Hf) as [Hsub _].
  destruct pks as [|p pks]; [congruence|].
  pose proof (local_maxima_1d_range x) as Hr. rewrite Forall_forall in Hr.
  destruct (Hr p); [|lia].
  eapply elem_of_sublist; [|exact Hsub]. left.
Qed.

(** ** The pulse-interval and morphology extractors *)

Lemma np_diffQ_nonempty (l : list Q) : (2 <= length l)%nat -> np_diffQ l <> [].
Proof.
  destruct l as [|a [|b l]]; simpl; intros H; try lia. discriminate.
Qed.

Lemma np_max_ok (l : list Q) : l <> [] -> exists m, np_max l = Ok m.
Proof. destruct l; [congruence|]. intros _. eexists. reflexivity. Qed.

Lemma np_min_ok (l : list Q) : l <> [] -> exists m, np_min l = Ok m.
Proof. destruct l; [congruence|]. intros _. eexists. reflexivity. Qed.


(** Fewer than two detected peaks: the pulse-interval row is missing. *)
Lemma few_peaks_pulse_row (sig : list Q) (pks : list nat) :
  find_peaks sig 50 = Ok pks -> (length pks < 2)%nat ->
  extract_ppg_specific_features [sig] 100 = Ok [[nan; nan]].
Proof.
  intros Hp Hl.
  unfold extract_ppg_specific_features, ppg_specific_row. cbn [rmap].
  change (Z.quot 100 2) with 50%Z. rewrite Hp. cbn [rbind].
  destruct (1 <? length pks)%nat eqn:E; [apply Nat.ltb_lt in E; lia|].
  reflexivity.
Qed.

(** Fewer than two detected peaks: the morphology row is missing. *)
Lemma few_peaks_morphology_row (sig : list Q) (fs : Z) (pks : list nat) :
  sig <> [] -> find_peaks sig 50 = Ok pks -> (length pks < 2)%nat ->
  extract_ppg_features [sig] fs = Ok [repeat nan 9].
Proof.
  intros Hne Hp Hl.
  destruct (renormalize_spec sig Hne) as (sig' & Hr & _ & He & _).
  unfold extract_ppg_features, ppg_features_row. cbn [rmap].
  rewrite Hr. cbn [rbind]. unfold ppg_features_core.
  rewrite (find_peaks_equiv _ _ 50 He), Hp. cbn [rbind].
  rewrite (find_peaks_ok (map Qopp sig') 50) by lia. cbn [rbind].
  destruct (length pks <? 2)%nat eqn:E; [|apply Nat.ltb_ge in E; lia].
  reflexivity.
Qed.


(** A strictly monotonic ramp is an instance: no local maximum is
    detected in a signal that never decreases or never increases. *)
Corollary monotone_all_missing (sig : list Q) (fs : Z) :
  sig <> [] -> nondecreasing sig \/ nonincreasing sig ->
  extract_ppg_specific_features [sig] 100 = Ok [[nan; nan]] /\
  extract_ppg_features [sig] fs = Ok [repeat nan 9].
Proof.
  intros Hne Hm.
  assert (Hp : find_peaks sig 50 = Ok []) by (apply monotone_no_peaks; [assumption|lia]).
  split.
  - apply (few_peaks_pulse_row sig [] Hp). simpl; lia.
  - apply (few_peaks_morphology_row sig fs [] Hne Hp). simpl; lia.
Qed.



(** C2 (amended): for every waveform and every sample rate of at least
    2, beats are the local maxima selected with the minimum distance
    [int(0.5 * fs)], the integer part of half the rate; any two of them
    are at least that far apart.  With two or more beats the extractor
    returns the mean of the consecutive index differences divided by
    the rate and the mean amplitude at the beats, otherwise the missing
    sentinel twice. *)
Theorem pulse_interval_features (s : list Q) (fs : Z) :
  (2 <= fs)%Z ->
  exists pks,
    find_peaks s (fs / 2) = Ok pks /\
    sublist pks (local_maxima_1d s) /\
    (forall p q, In p pks -> In q pks -> p <> q ->
       (fs / 2 <= Z.abs (Z.of_nat q - Z.of_nat p))%Z) /\
    extract_ppg_specific_features [s] fs
    = Ok [if (1 <? length pks)%nat
          then [num (np_mean (map inject_Z (np_diff pks)) / inject_Z fs);
                num (np_mean (map (sample s) pks))]
          else [nan; nan]].
Proof.
  intros Hfs.
  assert (Hd : (1 <= fs / 2)%Z) by (apply Z.div_le_lower_bound; lia).
  pose proof (find_peaks_ok s (fs / 2) Hd) as Hf.
  eexists. split; [exact Hf|].
  destruct (find_peaks_distance s (fs / 2) _ Hf) as [Hsub Hdist].
  split; [exact Hsub|]. split; [exact Hdist|].
  unfold extract_ppg_specific_features, ppg_specific_row. cbn [rmap].
  rewrite Z.quot_div_nonneg by lia. rewrite Hf. cbn [rbind].
  destruct (1 <? length _)%nat; reflexivity.
Qed.

(** ** The two normalisations *)

Lemma fold_min_map (f : Q -> Q) (l : list Q) (m0 : Q) :
  (forall a b, Qltb (f a) (f b) = Qltb a b) ->
  fold_left (fun m y => if Qltb y m then y else m) (map f l) (f m0)
  = f (fold_left (fun m y => if Qltb y m then y else m) l m0).
Proof.
  intros Hf. revert m0. induction l as [|y l IH]; intros m0; simpl; [reflexivity|].
  rewrite Hf. destruct (Qltb y m0); apply IH.
Qed.

Lemma fold_max_map (f : Q -> Q) (l : list Q) (m0 : Q) :
  (forall a b, Qltb (f a) (f b) = Qltb a b) ->
  fold_left (fun m y => if Qltb m y then y else m) (map f l) (f m0)
  = f (fold_left (fun m y => if Qltb m y then y else m) l m0).
Proof.
  intros Hf. revert m0. induction l as [|y l IH]; intros m0; simpl; [reflexivity|].
  rewrite Hf. destruct (Qltb m0 y); apply IH.
Qed.

Lemma np_min_map (f : Q -> Q) (l : list Q) (mn : Q) :
  (forall a b, Qltb (f a) (f b) = Qltb a b) ->
  np_min l = Ok mn -> np_min (map f l) = Ok (f mn).
Proof.
  intros Hf. destruct l as [|x l]; [discriminate|]. intros [= <-].
  simpl. now rewrite fold_min_map.
Qed.

Lemma np_max_map (f : Q -> Q) (l : list Q) (mx : Q) :
  (forall a b, Qltb (f a) (f b) = Qltb a b) ->
  np_max l = Ok mx -> np_max (map f l) = Ok (f mx).
Proof.
  intros Hf. destruct l as [|x l]; [discriminate|]. intros [= <-].
  simpl. now rewrite fold_max_map.
Qed.

Lemma affine_order (s t a b : Q) :
  0 < s -> Qltb (a * s + t) (b * s + t) = Qltb a b.
Proof.
  intros Hs. apply Qltb_ext.
  rewrite <- (Qmult_lt_r a b s Hs). split; intros; lra.
Qed.

Lemma handle_zeros_pos (r : Q) : 0 < 1 / handle_zeros_in_scale r.
Proof.
  unfold Qdiv. rewrite Qmult_1_l. apply Qinv_lt_0_compat.
  unfold handle_zeros_in_scale. destruct (Qltb r ten_eps) eqn:E; [reflexivity|].
  apply Qltb_ge in E. unfold ten_eps in *. lra.
Qed.


(** The scaler of [extract_features]: it succeeds on a non-empty
    column, scales by [1 / (max - min)] (by 1 for a constant column)
    and keeps the order pattern. *)
Lemma MinMaxScaler_spec (col : list Q) (mn mx : Q) :
  np_min col = Ok mn -> np_max col = Ok mx ->
  let scale_ := 1 / handle_zeros_in_scale (mx - mn) in
  let min_ := 0 - mn * scale_ in
  MinMaxScaler_fit_transform col = Ok (map (fun v => v * scale_ + min_) col) /\
  np_min (map (fun v => v * scale_ + min_) col) = Ok (mn * scale_ + min_) /\
  np_max (map (fun v => v * scale_ + min_) col) = Ok (mx * scale_ + min_).
Proof.
  intros Hmn Hmx scale_ min_.
  assert (Hs : 0 < scale_) by apply handle_zeros_pos.
  split; [|split].
  - unfold MinMaxScaler_fit_transform. destruct col as [|x col]; [discriminate|].
    rewrite Hmn, Hmx. reflexivity.
  - apply (np_min_map (fun v => v * scale_ + min_)); [|assumption].
    intros a b. now apply affine_order.
  - apply (np_max_map (fun v => v * scale_ + min_)); [|assumption].
    intros a b. now apply affine_order.
Qed.


(** ** The band-pass filter *)

Lemma df2t_run_length (b a : list Q) (ntaps : nat) (x z : list Q) :
  length (fst (df2t_run b a ntaps x z)) = length x.
Proof.
  revert z. induction x as [|xm x IH]; intros z; simpl; [reflexivity|].
  specialize (IH (df2t_state z b a xm (sample z 0 + sample b 0 * xm) (ntaps - 1))).
  destruct (df2t_run b a ntaps x _) as [ys zf]. simpl in *. now rewrite IH.
Qed.

Lemma lfilter_length (b a x zi : list Q) (y zf : list Q) :
  lfilter b a x zi = Ok (y, zf) -> length y = length x.
Proof.
  unfold lfilter. destruct a as [|a0 a]; [discriminate|].
  destruct (Qeq_bool a0 0); [discriminate|].
  destruct (negb _); [discriminate|].
  match goal with
  | |- Ok (df2t_run ?b' ?a' ?n ?x' ?z') = _ -> _ =>
      pose proof (df2t_run_length b' a' n x' z') as Hl;
      destruct (df2t_run b' a' n x' z') as [y' zf']
  end.
  intros [= -> ->]. exact Hl.
Qed.

Lemma lfilter_ok (b a x zi : list Q) :
  ~ sample a 0 == 0 -> length zi = (Nat.max (length a) (length b) - 1)%nat ->
  exists y zf, lfilter b a x zi = Ok (y, zf).
Proof.
  intros Ha Hz. unfold lfilter. destruct a as [|a0 a].
  { exfalso. apply Ha. reflexivity. }
  cbn [sample nth] in Ha.
  destruct (Qeq_bool a0 0) eqn:E; [apply Qeq_bool_iff in E; contradiction|].
  rewrite Hz, Nat.eqb_refl. cbn [negb].
  destruct (df2t_run _ _ _ x zi) as [y zf]. now exists y, zf.
Qed.

Lemma odd_ext_length (x : list Q) (n : nat) :
  (n < length x)%nat -> length (odd_ext x n) = (length x + 2 * n)%nat.
Proof.
  intros Hn. unfold odd_ext.
  rewrite !length_app, !length_map, !length_rev, !length_firstn, !length_skipn. lia.
Qed.

(** Whenever [filtfilt] returns, its output is as long as its input. *)
Lemma filtfilt_with_length (zi b a x y : list Q) :
  filtfilt_with zi b a x = Ok y -> length y = length x.
Proof.
  unfold filtfilt_with.
  destruct (length x <=? padlen b a)%nat eqn:E; [discriminate|].
  apply Nat.leb_gt in E.
  destruct (lfilter b a (odd_ext x (padlen b a)) _) as [[yf zf]|] eqn:E1; [|discriminate].
  cbn [rbind fst].
  destruct (lfilter b a (rev yf) _) as [[yb zb]|] eqn:E2; [|discriminate].
  cbn [rbind fst]. intros [= <-].
  apply lfilter_length in E1, E2.
  rewrite length_rev in E2. rewrite odd_ext_length in E1 by assumption.
  rewrite length_firstn, length_skipn, !length_rev. lia.
Qed.

Lemma filtfilt_with_ok (zi b a x : list Q) :
  ~ sample a 0 == 0 -> length zi = (Nat.max (length a) (length b) - 1)%nat ->
  (padlen b a < length x)%nat ->
  exists y, filtfilt_with zi b a x = Ok y.
Proof.
  intros Ha Hz Hx. unfold filtfilt_with.
  destruct (length x <=? padlen b a)%nat eqn:E; [apply Nat.leb_le in E; lia|].
  destruct (lfilter_ok b a (odd_ext x (padlen b a))
              (map (fun z => z * sample (odd_ext x (padlen b a)) 0) zi) Ha)
    as (yf & zf & E1); [now rewrite length_map|].
  rewrite E1. cbn [rbind fst].
  destruct (lfilter_ok b a (rev yf)
              (map (fun z => z * sample yf (length yf - 1)) zi) Ha)
    as (yb & zb & E2); [now rewrite length_map|].
  rewrite E2. cbn [rbind fst]. eexists. reflexivity.
Qed.

(** A waveform no longer than the padding is rejected. *)
Lemma filtfilt_with_short (zi b a x : list Q) :
  (length x <= padlen b a)%nat ->
  exists e, filtfilt_with zi b a x = Err e.
Proof.
  intros Hx. unfold filtfilt_with. apply Nat.leb_le in Hx. rewrite Hx.
  eexists. reflexivity.
Qed.

Lemma butter_bandpass_filter_length (data : list Q) (lowcut highcut : Q) (fs : Z)
    (order : nat) (y : list Q) :
  butter_bandpass_filter data lowcut highcut fs order = Ok y -> length y = length data.
Proof.
  unfold butter_bandpass_filter, filtfilt.
  destruct (Qeq_bool _ 0); [discriminate|].
  destruct (butter _ _ _) as [[b a]|]; [|discriminate]. cbn [rbind fst snd].
  destruct (lfilter_zi b a) as [zi|]; [|discriminate]. cbn [rbind].
  apply filtfilt_with_length.
Qed.

(** C4: when the filter design succeeds (coefficients [(b, a)] with a
    non-zero leading [a], steady state [zi] of the matching length) and
    the waveform is longer than the padding
    [3 * max(len(a), len(b))] of the zero-phase filter, the band-pass
    filter returns, and its output has exactly the length of its
    input. *)
Theorem bandpass_preserves_length (data : list Q) (lowcut highcut : Q) (fs : Z)
    (order : nat) (b a zi : list Q) :
  fs <> 0%Z ->
  butter order (lowcut / ((1 # 2) * inject_Z fs)) (highcut / ((1 # 2) * inject_Z fs))
    = Ok (b, a) ->
  lfilter_zi b a = Ok zi ->
  length zi = (Nat.max (length a) (length b) - 1)%nat ->
  ~ sample a 0 == 0 ->
  (padlen b a < length data)%nat ->
  exists y,
    butter_bandpass_filter data lowcut highcut fs order = Ok y /\
    length y = length data.
Proof.
  intros Hfs Hb Hzi Hlen Ha Hdata.
  destruct (filtfilt_with_ok zi b a data Ha Hlen Hdata) as (y & Hy).
  exists y. split; [|now apply (filtfilt_with_length zi b a)].
  unfold butter_bandpass_filter, filtfilt.
  destruct (Qeq_bool ((1 # 2) * inject_Z fs) 0) eqn:E.
  { apply Qeq_bool_iff in E. exfalso. apply Hfs.
    unfold Qeq, Qmult, inject_Z in E. simpl in E. lia. }
  rewrite Hb. cbn [rbind fst snd]. rewrite Hzi. cbn [rbind]. exact Hy.
Qed.

(** ** The feature row and the imputer *)

Lemma rmap_singleton {A B : Type} (f : A -> result B) (a : A) (T : list B) :
  rmap f [a] = Ok T -> exists b, f a = Ok b /\ T = [b].
Proof.
  cbn [rmap]. destruct (f a) as [b|e]; [|discriminate].
  cbn [rbind]. intros [= <-]. now exists b.
Qed.

Lemma sorted_NoDup (l : list nat) : StronglySorted lt l -> NoDup l.
Proof.
  induction 1 as [|a l Hs IH Ha]; constructor; [|assumption].
  intros Hin. rewrite Forall_forall in Ha. specialize (Ha a Hin). lia.
Qed.

(** Two peaks at least 50 samples apart, neither at an end, need 53
    samples. *)
Lemma short_signal_few_peaks (x : list Q) (pks : list nat) :
  (length x <= 52)%nat -> find_peaks x 50 = Ok pks -> (length pks < 2)%nat.
Proof.
  intros Hx Hf. destruct (find_peaks_distance x 50 pks Hf) as [Hsub Hd].
  destruct pks as [|p [|q pks]]; simpl; try lia. exfalso.
  assert (Hnd : NoDup (p :: q :: pks)).
  { eapply sublist_NoDup; [|exact Hsub]. apply sorted_NoDup, local_maxima_1d_sorted. }
  assert (Hpq : p <> q).
  { intros ->. apply NoDup_cons in Hnd. destruct Hnd as [Hn _]. apply Hn. left. }
  pose proof (local_maxima_1d_range x) as Hr. rewrite Forall_forall in Hr.
  assert (Hp : p ∈ local_maxima_1d x) by (eapply elem_of_sublist; [|exact Hsub]; left).
  assert (Hq : q ∈ local_maxima_1d x)
    by (eapply elem_of_sublist; [|exact Hsub]; right; left).
  apply Hr in Hp, Hq.
  specialize (Hd p q). lapply Hd; [|now left]. intros Hd'.
  lapply Hd'; [|right; now left]. intros Hd''. specialize (Hd'' Hpq). lia.
Qed.

Lemma short_signal_rows (s : list Q) (fs : Z) :
  s <> [] -> (length s <= 52)%nat ->
  extract_ppg_specific_features [s] 100 = Ok [[nan; nan]] /\
  extract_ppg_features [s] fs = Ok [repeat nan 9].
Proof.
  intros Hne Hlen.
  pose proof (find_peaks_ok s 50) as Hf.
  assert (Hl : (length (mask (local_maxima_1d s)
                         (select_by_peak_distance (local_maxima_1d s)
                            (map (sample s) (local_maxima_1d s)) 50)) < 2)%nat).
  { eapply short_signal_few_peaks; [exact Hlen|apply Hf; lia]. }
  split.
  - eapply few_peaks_pulse_row; [apply Hf; lia|exact Hl].
  - eapply few_peaks_morphology_row; [assumption|apply Hf; lia|exact Hl].
Qed.

Lemma ppg_specific_shape (s : list Q) (fs : Z) (P : list (list feat)) :
  extract_ppg_specific_features [s] fs = Ok P -> exists r, P = [r] /\ length r = 2%nat.
Proof.
  unfold extract_ppg_specific_features.
  destruct (rmap (ppg_specific_row fs) [s]) as [cols|] eqn:E; [|discriminate].
  apply rmap_singleton in E. destruct E as (ia & _ & ->).
  cbn [rbind map]. intros [= <-]. eexists. split; reflexivity.
Qed.

Lemma ppg_features_shape (s : list Q) (fs : Z) (W : list (list feat)) :
  extract_ppg_features [s] fs = Ok W -> exists r, W = [r] /\ length r = 9%nat.
Proof.
  intros H. apply rmap_singleton in H. destruct H as (r & Hr & ->).
  exists r. split; [reflexivity|].
  unfold ppg_features_row in Hr.
  destruct (renormalize s) as [s'|]; [|discriminate]. cbn [rbind] in Hr.
  unfold ppg_features_core in Hr.
  destruct (find_peaks s' 50) as [peaks|]; [|discriminate]. cbn [rbind] in Hr.
  destruct (find_peaks (map Qopp s') 50) as [valleys|]; [|discriminate]. cbn [rbind] in Hr.
  destruct (_ || _); [now injection Hr as <-|].
  destruct (np_max _); [|discriminate]. cbn [rbind] in Hr.
  destruct (np_min _); [|discriminate]. cbn [rbind] in Hr.
  now injection Hr as <-.
Qed.

Lemma time_domain_shape (s : list Q) (T : list (list feat)) :
  extract_time_domain_features [s] = Ok T -> exists r, T = [r] /\ length r = 8%nat.
Proof.
  intros H. apply rmap_singleton in H. destruct H as (r & Hr & ->).
  exists r. split; [reflexivity|]. unfold time_domain_row in Hr.
  destruct (np_max s); [|discriminate]. cbn [rbind] in Hr.
  destruct (np_min s); [|discriminate]. cbn [rbind] in Hr.
  now injection Hr as <-.
Qed.

Lemma frequency_domain_shape (s : list Q) (fs : Z) (F : list (list feat)) :
  extract_frequency_domain_features [s] fs = Ok F -> exists r, F = [r] /\ length r = 2%nat.
Proof.
  intros H. apply rmap_singleton in H. destruct H as (r & Hr & ->).
  exists r. split; [reflexivity|]. unfold frequency_domain_row in Hr.
  destruct (welch _ _ _) as [[f psd]|]; [|discriminate]. cbn [rbind] in Hr.
  destruct (np_argmax psd); [|discriminate]. cbn [rbind] in Hr.
  destruct (getitem f _); [|discriminate]. cbn [rbind] in Hr.
  now injection Hr as <-.
Qed.

Lemma map_nth_seq {A B : Type} (g : A -> B) (l : list A) (d : A) :
  map (fun j => g (nth j l d)) (seq 0 (length l)) = map g l.
Proof.
  induction l as [|a l IH]; [reflexivity|].
  cbn [length seq map nth]. f_equal.
  rewrite <- seq_shift, map_map. exact IH.
Qed.

Lemma impute_row_single (feats : list feat) :
  impute_row (map (fun v => column_mean [v]) feats) feats = observed feats.
Proof.
  induction feats as [|[|q] feats IH]; simpl; [reflexivity|exact IH|].
  now rewrite IH.
Qed.

(** Fitted on one row, the imputer returns the observed entries of
    that row: every missing slot is dropped. *)
Lemma impute_single_row (feats : list feat) :
  SimpleImputer_fit_transform [feats] = Ok [observed feats].
Proof.
  unfold SimpleImputer_fit_transform, column. cbn [map].
  rewrite (map_nth_seq (fun v => column_mean [v]) feats nan).
  now rewrite impute_row_single.
Qed.

Lemma observed_app (l1 l2 : list feat) :
  observed (l1 ++ l2) = observed l1 ++ observed l2.
Proof.
  induction l1 as [|[|q] l1 IH]; simpl; [reflexivity|exact IH|now rewrite IH].
Qed.

Lemma observed_length (l : list feat) :
  (length (observed l) + count_missing l)%nat = length l.
Proof.
  induction l as [|[|q] l IH]; simpl; lia.
Qed.


(** C1: what the code does.  The row that reaches the imputer has the
    21 slots (8 + 2 + 2 + 9); the imputer, fitted on that single row,
    drops every slot that is missing there, so the returned vector
    holds [21 - (number of missing slots)] numbers and none of them is
    missing.  It has 21 slots only when no feature was missing: for a
    waveform of at most 52 samples at most 10 remain. *)
Theorem feature_vector_slots (ppg : list Q) (X : list (list Q)) :
  extract_features ppg = Ok X ->
  exists feats,
    length feats = 21%nat /\ X = [observed feats] /\
    (length (observed feats) + count_missing feats)%nat = 21%nat /\
    ((length ppg <= 52)%nat -> (length (observed feats) <= 10)%nat).
Proof.
  unfold extract_features.
  destruct (MinMaxScaler_fit_transform ppg) as [scaled|] eqn:Es; [|discriminate].
  cbn [rbind]. unfold stacked_features.
  destruct (extract_time_domain_features [scaled]) as [tf|] eqn:Et; [|discriminate].
  cbn [rbind].
  destruct (extract_frequency_domain_features [scaled] 100) as [ff|] eqn:Ef; [|discriminate].
  cbn [rbind].
  destruct (extract_ppg_specific_features [scaled] 100) as [pf|] eqn:Ep; [|discriminate].
  cbn [rbind].
  destruct (extract_ppg_features [scaled] 100) as [wf|] eqn:Ew; [|discriminate].
  cbn [rbind].
  destruct (time_domain_shape _ _ Et) as (rt & -> & Lt).
  destruct (frequency_domain_shape _ _ _ Ef) as (rf & -> & Lf).
  destruct (ppg_specific_shape _ _ _ Ep) as (rp & -> & Lp).
  destruct (ppg_features_shape _ _ _ Ew) as (rw & -> & Lw).
  cbn [hstack]. rewrite impute_single_row. intros [= <-].
  exists (((rt ++ rf) ++ rp) ++ rw).
  assert (L21 : length (((rt ++ rf) ++ rp) ++ rw) = 21%nat)
    by (rewrite !length_app; lia).
  split; [exact L21|]. split; [reflexivity|].
  split; [now rewrite observed_length|].
  intros Hlen.
  assert (Hsl : length scaled = length ppg /\ scaled <> []).
  { unfold MinMaxScaler_fit_transform in Es. destruct ppg as [|x ppg]; [discriminate|].
    destruct (np_min (x :: ppg)); [|discriminate]. cbn [rbind] in Es.
    destruct (np_max (x :: ppg)); [|discriminate]. cbn [rbind] in Es.
    injection Es as Es. rewrite <- Es.
    split; [simpl; now rewrite length_map|discriminate]. }
  destruct Hsl as [Hsl Hne].
  destruct (short_signal_rows scaled 100 Hne) as [Hp Hw]; [lia|].
  rewrite Hp in Ep. rewrite Hw in Ew. injection Ep as <-. injection Ew as <-.
  rewrite !observed_app. cbn [observed repeat]. rewrite !app_nil_r.
  pose proof (observed_length (rt ++ rf)) as Ho. rewrite observed_app in Ho.
  rewrite length_app in Ho |- *. rewrite length_app in Ho. lia.
Qed.

Lemma argmax_from_bound (l : list Q) (best : Q) (besti i : nat) :
  (besti < i)%nat -> (argmax_from l best besti i < i + length l)%nat.
Proof.
  revert best besti i. induction l as [|y l IH]; intros best besti i Hi; simpl; [lia|].
  destruct (Qltb best y).
  - specialize (IH y i (S i)). lia.
  - specialize (IH best besti (S i)). lia.
Qed.

Lemma ppg_features_row_ok (fs : Z) (s : list Q) :
  s <> [] -> exists r, ppg_features_row fs s = Ok r.
Proof.
  intros Hne. destruct (renormalize_spec s Hne) as (s' & Hr & Hl & _ & _).
  unfold ppg_features_row. rewrite Hr. cbn [rbind]. unfold ppg_features_core.
  pose proof (find_peaks_ok s' 50) as Hp. rewrite Hp by lia. cbn [rbind].
  rewrite (find_peaks_ok (map Qopp s') 50) by lia. cbn [rbind].
  set (peaks := mask _ _) in *. set (valleys := mask _ _).
  destruct ((length peaks <? 2)%nat || (length valleys <? 2)%nat) eqn:E.
  { eexists. reflexivity. }
  apply orb_false_iff in E. destruct E as [E _]. apply Nat.ltb_ge in E.
  assert (H3 : (3 <= length s')%nat).
  { apply (find_peaks_nonempty s' 50 peaks); [apply Hp; lia|].
    destruct peaks; simpl in E; [lia|discriminate]. }
  assert (Hd : np_diffQ s' <> []) by (apply np_diffQ_nonempty; lia).
  destruct (np_max_ok _ Hd) as (smvc & ->). destruct (np_min_ok _ Hd) as (dmvc & ->).
  eexists. reflexivity.
Qed.

(** [extract_features] returns on every non-empty waveform, provided
    the spectral estimate has as many frequencies as powers and at
    least one. *)
Lemma extract_features_returns (ppg : list Q) :
  (forall fs n x, exists f psd,
      welch fs n x = Ok (f, psd) /\ psd <> [] /\ length f = length psd) ->
  ppg <> [] -> exists X, extract_features ppg = Ok X.
Proof.
  intros Hw Hne.
  destruct (np_min_max_ok ppg Hne) as (mn & mx & Hmn & Hmx & _).
  destruct (MinMaxScaler_spec ppg mn mx Hmn Hmx) as (Hs & Hmin & Hmax).
  set (scaled := map _ ppg) in *.
  unfold extract_features. rewrite Hs. cbn [rbind]. unfold stacked_features.
  unfold extract_time_domain_features, time_domain_row. cbn [rmap].
  rewrite Hmax, Hmin. cbn [rbind].
  unfold extract_frequency_domain_features, frequency_domain_row. cbn [rmap].
  destruct (Hw 100%Z (Nat.min 256 (length scaled)) scaled) as (f & psd & -> & Hpsd & Hlen).
  cbn [rbind].
  destruct psd as [|p0 psd]; [congruence|]. cbn [np_argmax rbind].
  pose proof (argmax_from_bound psd p0 0 1) as Hb.
  unfold getitem.
  destruct (f !! argmax_from psd p0 0 1) as [domf|] eqn:Eg.
  2:{ apply lookup_ge_None in Eg. simpl in Hlen. lia. }
  cbn [rbind].
  unfold extract_ppg_specific_features, ppg_specific_row. cbn [rmap].
  change (Z.quot 100 2) with 50%Z. rewrite (find_peaks_ok scaled 50) by lia.
  cbn [rbind].
  assert (Hsne : scaled <> []).
  { unfold scaled. destruct ppg; [congruence|discriminate]. }
  destruct (ppg_features_row_ok 100 scaled Hsne) as (rw & Hrw).
  unfold extract_ppg_features. cbn [rmap]. rewrite Hrw.
  destruct (1 <? _)%nat; cbn [rbind map hstack fst snd];
    rewrite impute_single_row; eexists; reflexivity.
Qed.

(** ** The [/predict] route *)

Lemma predict_try_cases (m_sbp m_dbp : model) (data : list Q) (fs : Z) :
  predict_try m_sbp m_dbp data fs =
  match butter_bandpass_filter data (1 # 2) 8 fs 3 with
  | Err e => ([Filtering], Err e)
  | Ok filt =>
      match extract_features filt with
      | Err e => ([Filtering; Extraction], Err e)
      | Ok X =>
          match predict_first m_sbp X with
          | Err e => ([Filtering; Extraction; InferenceSBP], Err e)
          | Ok sbp =>
              match predict_first m_dbp X with
              | Err e => ([Filtering; Extraction; InferenceSBP; InferenceDBP], Err e)
              | Ok dbp =>
                  ([Filtering; Extraction; InferenceSBP; InferenceDBP],
                   Ok (filt, X, sbp, dbp))
              end
          end
      end
  end.
Proof.
  unfold predict_try, tbind, tcall.
  destruct (butter_bandpass_filter _ _ _ _ _) as [filt|]; [|reflexivity].
  destruct (extract_features filt) as [X|]; [|reflexivity].
  destruct (predict_first m_sbp X) as [sbp|]; [|reflexivity].
  destruct (predict_first m_dbp X) as [dbp|]; reflexivity.
Qed.


(** C7: a request with an empty (or absent) waveform, and any request
    made while one of the two models is not loaded, gets the failure
    response (status 400, [{"error": "Invalid input or models not
    loaded"}]) and no pipeline stage is entered: neither the filter nor
    the feature extraction is called. *)
Theorem predict_fail_fast (req : request) :
  default [] (req_ppg req) = [] \/ model_sbp = None \/ model_dbp = None ->
  predict req
  = ([], {| status := 400;
            body := error_body "Invalid input or models not loaded" |}).
Proof.
  unfold predict. intros [H|[H|H]]; rewrite H.
  - reflexivity.
  - destruct (default [] (req_ppg req)); reflexivity.
  - destruct (default [] (req_ppg req)); [|destruct model_sbp]; reflexivity.
Qed.

(** ** Further properties of the pipeline *)










(** X2: a request with [fs = 0] and a non-empty waveform, both models
    loaded: the filter divides by zero before anything else, and the
    route answers 500 with that message. *)
Theorem predict_zero_rate (req : request) (m_sbp m_dbp : model) :
  model_sbp = Some m_sbp -> model_dbp = Some m_dbp ->
  default [] (req_ppg req) <> [] -> req_fs req = Some 0%Z ->
  predict req
  = ([Filtering], {| status := 500; body := error_body "float division by zero" |}).
Proof.
  intros H1 H2 Hne Hfs. unfold predict. rewrite H1, H2, Hfs.
  destruct (default [] (req_ppg req)) as [|x data]; [congruence|].
  rewrite predict_try_cases. reflexivity.
Qed.

(** X3: a waveform no longer than the padding of the zero-phase filter is
    never filtered: when the filter design itself succeeds, the route
    answers 500 with SciPy's message and enters no later stage. *)
Theorem predict_too_short (req : request) (m_sbp m_dbp : model) (b a zi : list Q) :
  let data := default [] (req_ppg req) in
  let fs := default 100%Z (req_fs req) in
  model_sbp = Some m_sbp -> model_dbp = Some m_dbp ->
  fs <> 0%Z ->
  butter 3 ((1 # 2) / ((1 # 2) * inject_Z fs)) (8 / ((1 # 2) * inject_Z fs)) = Ok (b, a) ->
  lfilter_zi b a = Ok zi ->
  data <> [] -> (length data <= padlen b a)%nat ->
  predict req
  = ([Filtering],
     {| status := 500;
        body := error_body
                  ("The length of the input vector x must be greater than padlen, which is "
                   ++ str_of_nat (padlen b a) ++ ".") |}).
Proof.
  intros data fs H1 H2 Hfs Hb Hzi Hne Hlen. unfold predict. fold data fs.
  rewrite H1, H2.
  destruct data as [|x data'] eqn:Ed; [congruence|].
  rewrite predict_try_cases.
  unfold butter_bandpass_filter, filtfilt.
  destruct (Qeq_bool ((1 # 2) * inject_Z fs) 0) eqn:E.
  { apply Qeq_bool_iff in E. exfalso. apply Hfs.
    unfold Qeq, Qmult, inject_Z in E. simpl in E. lia. }
  rewrite Hb. cbn [rbind fst snd]. rewrite Hzi. cbn [rbind].
  unfold filtfilt_with. apply Nat.leb_le in Hlen. rewrite Hlen. reflexivity.
Qed.

End Pipeline.

(** * Concrete runs *)

(** ** Inputs on which the claims as worded fail *)

(** C2: at the positive sample rate 1 the minimum distance is
    [int(0.5) = 0], which [find_peaks] rejects: the extractor raises
    instead of returning two values.  At the odd rate 5 the distance is
    [int(2.5) = 2]: the beats at 1 and 3, two samples apart and so closer
    than [0.5 * 5] samples, are both kept. *)
Lemma pulse_interval_counterexample :
  (0 < 1)%Z /\
  extract_ppg_specific_features [[0; 1; 0; 1; 0]] 1
    = Err (ValueError "`distance` must be greater or equal to 1") /\
  find_peaks [0; 1; 0; 1; 0] (Z.quot 5 2) = Ok [1%nat; 3%nat] /\
  inject_Z (3 - 1) < (1 # 2) * inject_Z 5.
Proof.
  split; [lia|]. split; [reflexivity|]. split; [reflexivity|]. reflexivity.
Qed.



(** ** The theorems at concrete inputs *)

Local Abbreviation demo_extract_features :=
  (extract_features Demo.np_std Demo.stats_skew Demo.stats_kurtosis
     Demo.stats_entropy Demo.welch).

Local Abbreviation demo_filter :=
  (butter_bandpass_filter Demo.butter Demo.lfilter_zi).

Local Abbreviation demo_predict :=
  (predict Demo.np_std Demo.stats_skew Demo.stats_kurtosis Demo.stats_entropy
     Demo.welch Demo.butter Demo.lfilter_zi).

(** The ramp of 30 samples: 10 of the 21 slots survive the imputer. *)
Lemma feature_vector_slots_witness :
  exists X,
    demo_extract_features ramp = Ok X /\
    (exists row, X = [row] /\ length row = 10%nat) /\
    exists feats,
      length feats = 21%nat /\ X = [observed feats] /\
      (length (observed feats) + count_missing feats)%nat = 21%nat /\
      ((length ramp <= 52)%nat -> (length (observed feats) <= 10)%nat).
Proof.
  eexists. split; [vm_compute; reflexivity|].
  split; [eexists; split; reflexivity|].
  apply (feature_vector_slots Demo.np_std Demo.stats_skew Demo.stats_kurtosis
           Demo.stats_entropy Demo.welch ramp).
  vm_compute. reflexivity.
Defined.

Lemma pulse_interval_features_witness :
  (2 <= 100)%Z /\
  exists pks,
    find_peaks beats (100 / 2) = Ok pks /\
    sublist pks (local_maxima_1d beats) /\
    (forall p q, In p pks -> In q pks -> p <> q ->
       (100 / 2 <= Z.abs (Z.of_nat q - Z.of_nat p))%Z) /\
    extract_ppg_specific_features [beats] 100
    = Ok [if (1 <? length pks)%nat
          then [num (np_mean (map inject_Z (np_diff pks)) / inject_Z 100);
                num (np_mean (map (sample beats) pks))]
          else [nan; nan]].
Proof.
  split; [lia|]. apply (pulse_interval_features beats 100). lia.
Defined.


Lemma bandpass_preserves_length_witness :
  exists y, demo_filter ramp (1 # 2) 8 100 3 = Ok y /\ length y = length ramp.
Proof.
  apply (bandpass_preserves_length Demo.butter Demo.lfilter_zi ramp (1 # 2) 8 100 3
           [1; 0; -1] [1; 0; 0] [0; 0]).
  - lia.
  - vm_compute. reflexivity.
  - reflexivity.
  - reflexivity.
  - intros H. discriminate H.
  - vm_compute. lia.
Defined.



(** An empty waveform with both models loaded, and a valid waveform with
    the systolic model missing. *)
Lemma predict_fail_fast_witness :
  demo_predict (Some (Demo.constant_model 120)) (Some (Demo.constant_model 80))
    {| req_ppg := Some []; req_fs := Some 100%Z |}
  = ([], {| status := 400; body := error_body "Invalid input or models not loaded" |})
  /\
  demo_predict None (Some (Demo.constant_model 80))
    {| req_ppg := Some beats; req_fs := None |}
  = ([], {| status := 400; body := error_body "Invalid input or models not loaded" |}).
Proof.
  split.
  - apply (predict_fail_fast Demo.np_std Demo.stats_skew Demo.stats_kurtosis
             Demo.stats_entropy Demo.welch Demo.butter Demo.lfilter_zi
             (Some (Demo.constant_model 120)) (Some (Demo.constant_model 80))).
    left. reflexivity.
  - apply (predict_fail_fast Demo.np_std Demo.stats_skew Demo.stats_kurtosis
             Demo.stats_entropy Demo.welch Demo.butter Demo.lfilter_zi
             None (Some (Demo.constant_model 80))).
    right. left. reflexivity.
Defined.



(** ** An end-to-end run *)

(** The triangle wave through the whole route with regressors that
    return 120 and 80: all four stages are entered and the response
    carries the two constants and a filtered waveform as long as the
    input. *)
(** A waveform of three samples: the filter raises, and the route
    answers with the status-500 failure that carries the message. *)
Example predict_short_waveform :
  demo_predict (Some (Demo.constant_model 120)) (Some (Demo.constant_model 80))
    {| req_ppg := Some [1; 2; 3]; req_fs := None |}
  = ([Filtering],
     {| status := 500;
        body := error_body
                  "The length of the input vector x must be greater than padlen, which is 9." |}).
Proof. vm_compute. reflexivity. Qed.

Example predict_end_to_end :
  exists sbp dbp filt,
    demo_predict (Some (Demo.constant_model 120)) (Some (Demo.constant_model 80))
      {| req_ppg := Some beats; req_fs := Some 100%Z |}
    = ([Filtering; Extraction; InferenceSBP; InferenceDBP],
       {| status := 200;
          body := [("sbp"%string, JNum sbp); ("dbp"%string, JNum dbp);
                   ("filtered"%string, JArr filt)] |})
    /\ sbp == 120 /\ dbp == 80 /\ length filt = length beats.
Proof.
  eexists _, _, _. split; [vm_compute; reflexivity|]. repeat split.
Qed.

(** * Properties of the other routes *)

(** ** Capped buffers *)

Lemma tail_drop {A : Type} (l : list A) : tail l = drop 1 l.
Proof. destruct l; reflexivity. Qed.

(** One append to a buffer within its cap keeps the last [cap] items. *)
Lemma append_capped_last_n {A : Type} (cap : nat) (l : list A) (x : A) :
  append_capped cap (last_n cap l) x = last_n cap (l ++ [x]).
Proof.
  unfold append_capped, last_n. cbv zeta.
  rewrite !length_app, length_drop. cbn [length].
  destruct (Nat.le_gt_cases cap (length l)) as [Hge|Hlt].
  - replace (cap <? length l - (length l - cap) + 1)%nat with true
      by (symmetry; apply Nat.ltb_lt; lia).
    rewrite tail_drop.
    rewrite <- (drop_app_le l [x] (length l - cap)) by lia.
    rewrite drop_drop. f_equal. lia.
  - replace (cap <? length l - (length l - cap) + 1)%nat with false
      by (symmetry; apply Nat.ltb_ge; lia).
    replace (length l - cap)%nat with 0%nat by lia.
    replace (length l + 1 - cap)%nat with 0%nat by lia.
    reflexivity.
Qed.

Lemma last_n_short {A : Type} (cap : nat) (l : list A) :
  (length l <= cap)%nat -> last_n cap l = l.
Proof. intros H. unfold last_n. replace (length l - cap)%nat with 0%nat by lia. reflexivity. Qed.

Lemma last_n_length {A : Type} (cap : nat) (l : list A) :
  length (last_n cap l) = Nat.min cap (length l).
Proof. unfold last_n. rewrite length_drop. lia. Qed.

(** A bounded deque behaves like the capped list. *)
Lemma deque_append_capped {A : Type} (maxlen : nat) (d : list A) (x : A) :
  (length d <= maxlen)%nat -> deque_append maxlen d x = append_capped maxlen d x.
Proof.
  intros Hd. unfold deque_append, append_capped. rewrite length_app. cbn [length].
  destruct (Nat.eqb_spec maxlen 0) as [->|Hn].
  - destruct d; [reflexivity|simpl in Hd; lia].
  - destruct (length d <? maxlen)%nat eqn:E.
    + apply Nat.ltb_lt in E.
      replace (maxlen <? length d + 1)%nat with false by (symmetry; apply Nat.ltb_ge; lia).
      reflexivity.
    + apply Nat.ltb_ge in E.
      replace (maxlen <? length d + 1)%nat with true by (symmetry; apply Nat.ltb_lt; lia).
      destruct d; [simpl in E; lia|reflexivity].
Qed.

Lemma deque_append_last_n {A : Type} (maxlen : nat) (l : list A) (x : A) :
  deque_append maxlen (last_n maxlen l) x = last_n maxlen (l ++ [x]).
Proof.
  rewrite deque_append_capped by (rewrite last_n_length; lia).
  apply append_capped_last_n.
Qed.

Lemma trim_append_last_n {A : Type} (cap : nat) (l : list A) (x : A) :
  Sensors.trim cap (last_n cap l ++ [x]) = last_n cap (l ++ [x]).
Proof. apply (append_capped_last_n cap l x). Qed.

(** ** [api_get_data] *)

Lemma api_get_data_window (ds : list Sensors.api_draws) (d : Sensors.api_draws)
    (st : Sensors.api_state) :
  api_window ds st ->
  api_window (ds ++ [d]) (Sensors.api_get_data d st).1 /\
  exists resp,
    (Sensors.api_get_data d st).2 = Returns resp /\
    Sensors.r_ecg_buffer resp = Sensors.ECG_BUFFER (Sensors.api_get_data d st).1 /\
    Sensors.r_ppg_buffers resp = Sensors.PPG_BUFFERS (Sensors.api_get_data d st).1.
Proof.
  intros (He & Hi & Hr & Hg). unfold Sensors.api_get_data, Sensors.dict_append.
  rewrite Hi. rewrite lookup_insert_ne by discriminate. rewrite Hr.
  rewrite !lookup_insert_ne by discriminate. rewrite Hg.
  cbn [fst snd]. split.
  - unfold api_window. cbn [Sensors.ECG_BUFFER Sensors.PPG_BUFFERS].
    rewrite !map_app. cbn [map]. rewrite He.
    rewrite !lookup_fmap.
    rewrite lookup_insert_ne by discriminate.
    rewrite lookup_insert_ne by discriminate.
    rewrite lookup_insert_eq.
    rewrite lookup_insert_ne by discriminate.
    rewrite lookup_insert_eq.
    rewrite lookup_insert_eq.
    cbn [fmap option_fmap option_map].
    rewrite !trim_append_last_n. repeat split; reflexivity.
  - eexists. split; [reflexivity|]. split; reflexivity.
Qed.

Lemma api_run_window (ds : list Sensors.api_draws) :
  api_window ds (api_run ds Sensors.api_state0).
Proof.
  induction ds as [|d ds IH] using rev_ind.
  - repeat split.
  - unfold api_run in *. rewrite fold_left_app. cbn [fold_left].
    apply api_get_data_window. exact IH.
Qed.

(** X5: started from the empty buffers, [api_get_data] never raises, and the
    buffers it returns are the last 70 values (fewer while fewer have
    been drawn) of the ECG draws and of each PPG channel, the newest
    last. *)
Theorem api_get_data_sliding_window (ds : list Sensors.api_draws) (d : Sensors.api_draws) :
  exists resp,
    (Sensors.api_get_data d (api_run ds Sensors.api_state0)).2 = Returns resp /\
    Sensors.r_ecg_buffer resp = last_n 70 (map Sensors.ecg_val (ds ++ [d])) /\
    Sensors.r_ppg_buffers resp !! "ir"%string
      = Some (last_n 70 (map Sensors.ppg0 (ds ++ [d]))) /\
    Sensors.r_ppg_buffers resp !! "red"%string
      = Some (last_n 70 (map Sensors.ppg1 (ds ++ [d]))) /\
    Sensors.r_ppg_buffers resp !! "green"%string
      = Some (last_n 70 (map Sensors.ppg2 (ds ++ [d]))) /\
    (length (Sensors.r_ecg_buffer resp) <= 70)%nat.
Proof.
  destruct (api_get_data_window ds d _ (api_run_window ds))
    as ((He & Hi & Hr & Hg) & resp & Hresp & Re & Rp).
  exists resp. split; [exact Hresp|].
  rewrite Re, Rp. repeat split; try assumption.
  rewrite He, last_n_length. lia.
Qed.

(** ** [ppg_data] *)

Lemma last_n_zeros_length (l : list Z) :
  length (last_n 100 (repeat 0%Z 100 ++ l)) = 100%nat.
Proof. rewrite last_n_length, length_app, repeat_length. lia. Qed.

Lemma ppg_data_window (ps : list Sensors.ppg_point) (p : Sensors.ppg_point)
    (b : gmap string (list Z)) :
  ppg_window ps b ->
  ppg_window (ps ++ [p]) (Sensors.ppg_data p b).1 /\
  (Sensors.ppg_data p b).2 = Returns p.
Proof.
  intros (Hi & Hr & Hg & Hlen). unfold Sensors.ppg_data, Sensors.stream_channel.
  rewrite Hi. rewrite lookup_insert_ne by discriminate. rewrite Hr.
  rewrite !lookup_insert_ne by discriminate. rewrite Hg.
  cbn [fst snd]. split; [|reflexivity].
  unfold ppg_window. rewrite !map_app. cbn [map]. rewrite !app_assoc.
  unfold Sensors.MAX_SAMPLES. rewrite !trim_append_last_n.
  rewrite lookup_insert_ne by discriminate.
  rewrite lookup_insert_ne by discriminate.
  rewrite lookup_insert_eq.
  rewrite lookup_insert_ne by discriminate.
  rewrite lookup_insert_eq.
  rewrite lookup_insert_eq.
  repeat split; try reflexivity.
  intros ch buf.
  destruct (decide (ch = "green"%string)) as [->|N1].
  { rewrite lookup_insert_eq. intros Hb. apply (inj Some) in Hb. rewrite <- Hb.
    rewrite last_n_length, !length_app, repeat_length. lia. }
  rewrite lookup_insert_ne by congruence.
  destruct (decide (ch = "red"%string)) as [->|N2].
  { rewrite lookup_insert_eq. intros Hb. apply (inj Some) in Hb. rewrite <- Hb.
    rewrite last_n_length, !length_app, repeat_length. lia. }
  rewrite lookup_insert_ne by congruence.
  destruct (decide (ch = "ir"%string)) as [->|N3].
  { rewrite lookup_insert_eq. intros Hb. apply (inj Some) in Hb. rewrite <- Hb.
    rewrite last_n_length, !length_app, repeat_length. lia. }
  rewrite lookup_insert_ne by congruence. apply Hlen.
Qed.

Lemma ppg_run_window (ps : list Sensors.ppg_point) :
  ppg_window ps (ppg_run ps Sensors.STREAM_PPG_BUFFERS0).
Proof.
  induction ps as [|p ps IH] using rev_ind.
  - repeat split. intros ch buf. unfold ppg_run. cbn [fold_left].
    unfold Sensors.STREAM_PPG_BUFFERS0.
    destruct (decide (ch = "ir"%string)) as [->|N3].
    { rewrite lookup_insert_eq. intros [= <-]. reflexivity. }
    rewrite lookup_insert_ne by congruence.
    destruct (decide (ch = "red"%string)) as [->|N2].
    { rewrite lookup_insert_eq. intros [= <-]. reflexivity. }
    rewrite lookup_insert_ne by congruence.
    destruct (decide (ch = "green"%string)) as [->|N1].
    { rewrite lookup_insert_eq. intros [= <-]. reflexivity. }
    rewrite lookup_insert_ne by congruence. rewrite lookup_empty. discriminate.
  - unfold ppg_run in *. rewrite fold_left_app. cbn [fold_left].
    apply ppg_data_window. exact IH.
Qed.

(** X6: started from the buffers of zeros, [ppg_data] never raises and
    returns the point it drew; every streaming buffer always has exactly
    100 samples: the last 100 of the initial zeros followed by the
    points drawn so far. *)
Theorem ppg_data_stream_buffers (ps : list Sensors.ppg_point) (p : Sensors.ppg_point) :
  let r := Sensors.ppg_data p (ppg_run ps Sensors.STREAM_PPG_BUFFERS0) in
  r.2 = Returns p /\
  r.1 !! "ir"%string
    = Some (last_n 100 (repeat 0%Z 100 ++ map Sensors.ir (ps ++ [p]))) /\
  r.1 !! "red"%string
    = Some (last_n 100 (repeat 0%Z 100 ++ map Sensors.red (ps ++ [p]))) /\
  r.1 !! "green"%string
    = Some (last_n 100 (repeat 0%Z 100 ++ map Sensors.green (ps ++ [p]))) /\
  forall ch buf, r.1 !! ch = Some buf -> length buf = 100%nat.
Proof.
  destruct (ppg_data_window ps p _ (ppg_run_window ps)) as ((Hi & Hr & Hg & Hlen) & Hret).
  cbv zeta. repeat split; assumption.
Qed.

(** ** [get_gas_data] *)

Lemma get_gas_data_step (us : list (nat -> Q)) (u : nat -> Q) :
  Sensors.get_gas_data u (map (gas_history us) (seq 0 6))
  = (map (gas_history (us ++ [u])) (seq 0 6),
     Returns (map (fun i => round_to 2 (u i)) (seq 0 6),
              map (gas_history (us ++ [u])) (seq 0 6))).
Proof.
  unfold Sensors.get_gas_data, Sensors.GAS_THRESHOLDS.
  cbn [seq map Sensors.gas_loop lookup list_lookup insert list_insert].
  unfold gas_history. rewrite !map_app. cbn [map].
  rewrite !deque_append_last_n. reflexivity.
Qed.

Lemma gas_run_histories (us : list (nat -> Q)) :
  gas_run us Sensors.HISTORY0 = map (gas_history us) (seq 0 6).
Proof.
  induction us as [|u us IH] using rev_ind; [reflexivity|].
  unfold gas_run in *. rewrite fold_left_app. cbn [fold_left].
  rewrite IH, get_gas_data_step. reflexivity.
Qed.

(** X7: started from the six empty histories, [get_gas_data] never raises;
    it reports the six draws rounded to two decimals, and the history of
    each gas is the last 30 values reported for it (fewer while fewer
    have been reported), the newest last. *)
Theorem get_gas_data_histories (us : list (nat -> Q)) (u : nat -> Q) :
  exists vals hist,
    (Sensors.get_gas_data u (gas_run us Sensors.HISTORY0)).2 = Returns (vals, hist) /\
    vals = map (fun i => round_to 2 (u i)) (seq 0 6) /\
    length hist = 6%nat /\
    forall i, (i < 6)%nat ->
      hist !! i = Some (last_n 30 (map (fun u => round_to 2 (u i)) (us ++ [u]))) /\
      vals !! i = last (default [] (hist !! i)).
Proof.
  rewrite gas_run_histories, get_gas_data_step. cbn [snd].
  eexists _, _. split; [reflexivity|]. split; [reflexivity|].
  split; [reflexivity|].
  intros i Hi.
  assert (Hl : forall (l : list Q) x, last (last_n 30 (l ++ [x])) = Some x).
  { intros l x. unfold last_n. rewrite length_app. cbn [length].
    rewrite drop_app_le by lia. apply last_snoc. }
  do 6 (destruct i as [|i]; [cbn [seq map lookup list_lookup default]; unfold gas_history;
                             rewrite map_app; cbn [map]; unfold id; rewrite Hl; split; reflexivity|]).
  lia.
Qed.

(** ** Rounding *)

Lemma inject_Z_half_le (m z : Z) : inject_Z m <= inject_Z z + (1 # 2) -> (m <= z)%Z.
Proof. unfold Qle, Qplus, inject_Z. simpl. lia. Qed.

Lemma inject_Z_half_ge (m z : Z) : inject_Z z - (1 # 2) <= inject_Z m -> (z <= m)%Z.
Proof. unfold Qle, Qminus, Qplus, Qopp, inject_Z. simpl. lia. Qed.

Lemma pow10_pos (n : nat) : 0 < inject_Z (10 ^ Z.of_nat n).
Proof.
  assert (0 < 10 ^ Z.of_nat n)%Z by (apply Z.pow_pos_nonneg; lia).
  unfold Qlt, inject_Z. simpl. lia.
Qed.

(** [round_to] returns a multiple of [10 ** -ndigits] at most half a
    unit away from its argument. *)
Lemma round_to_nearest (n : nat) (q : Q) :
  exists m : Z,
    round_to n q = inject_Z m / inject_Z (10 ^ Z.of_nat n) /\
    inject_Z m - q * inject_Z (10 ^ Z.of_nat n) <= 1 # 2 /\
    q * inject_Z (10 ^ Z.of_nat n) - inject_Z m <= 1 # 2.
Proof.
  unfold round_to. cbv zeta.
  set (t := q * inject_Z (10 ^ Z.of_nat n)).
  pose proof (Qfloor_le t) as Hlo. pose proof (Qlt_floor t) as Hhi.
  rewrite inject_Z_plus in Hhi. change (inject_Z 1) with 1 in Hhi.
  destruct (Qltb (t - inject_Z (Qfloor t)) (1 # 2)) eqn:E1.
  { apply Qltb_lt in E1. eexists. split; [reflexivity|]. split; lra. }
  apply Qltb_ge in E1.
  destruct (Qltb (1 # 2) (t - inject_Z (Qfloor t))) eqn:E2.
  { apply Qltb_lt in E2. eexists. split; [reflexivity|].
    rewrite inject_Z_plus. change (inject_Z 1) with 1. split; lra. }
  apply Qltb_ge in E2.
  destruct (Z.even (Qfloor t)).
  - eexists. split; [reflexivity|]. split; lra.
  - eexists. split; [reflexivity|].
    rewrite inject_Z_plus. change (inject_Z 1) with 1. split; lra.
Qed.

(** Rounding never crosses a multiple of the unit. *)
Lemma round_to_lower (n : nat) (z : Z) (lo q : Q) :
  lo == inject_Z z / inject_Z (10 ^ Z.of_nat n) -> lo <= q -> lo <= round_to n q.
Proof.
  intros Hlo Hq. destruct (round_to_nearest n q) as (m & -> & H1 & H2).
  pose proof (pow10_pos n) as Hs. set (s := inject_Z (10 ^ Z.of_nat n)) in *.
  assert (Hz : inject_Z z <= q * s).
  { rewrite Hlo in Hq.
    assert (E : inject_Z z / s * s == inject_Z z) by (field; lra).
    rewrite <- E. apply Qmult_le_compat_r; lra. }
  assert (Hm : (z <= m)%Z) by (apply inject_Z_half_ge; lra).
  rewrite Hlo. apply Qmult_le_compat_r.
  - rewrite <- Zle_Qle. exact Hm.
  - apply Qlt_le_weak, Qinv_lt_0_compat. exact Hs.
Qed.

Lemma round_to_upper (n : nat) (z : Z) (hi q : Q) :
  hi == inject_Z z / inject_Z (10 ^ Z.of_nat n) -> q <= hi -> round_to n q <= hi.
Proof.
  intros Hhi Hq. destruct (round_to_nearest n q) as (m & -> & H1 & H2).
  pose proof (pow10_pos n) as Hs. set (s := inject_Z (10 ^ Z.of_nat n)) in *.
  assert (Hz : q * s <= inject_Z z).
  { rewrite Hhi in Hq.
    assert (E : inject_Z z / s * s == inject_Z z) by (field; lra).
    rewrite <- E. apply Qmult_le_compat_r; lra. }
  assert (Hm : (m <= z)%Z) by (apply inject_Z_half_le; lra).
  rewrite Hhi. apply Qmult_le_compat_r.
  - rewrite <- Zle_Qle. exact Hm.
  - apply Qlt_le_weak, Qinv_lt_0_compat. exact Hs.
Qed.

Lemma round1_round_to (q : Q) : round1 q = round_to 1 q.
Proof. reflexivity. Qed.


Lemma round1_lower (z : Z) (lo q : Q) :
  lo == inject_Z z / inject_Z 10 -> lo <= q -> lo <= round1 q.
Proof. rewrite round1_round_to. apply (round_to_lower 1). Qed.

Lemma round1_upper (z : Z) (hi q : Q) :
  hi == inject_Z z / inject_Z 10 -> q <= hi -> round1 q <= hi.
Proof. rewrite round1_round_to. apply (round_to_upper 1). Qed.

(** ** [ecg_data] *)


(** ** [get_data], the temperature route *)







Lemma temp_history_snoc (us : list (Q * Q * Q)) (u : Q * Q * Q) (i : nat) :
  temp_history (us ++ [u]) i <> [] /\
  last (temp_history (us ++ [u]) i) = Some (round1 (nth i [u.1.1; u.1.2; u.2] 0)).
Proof.
  unfold temp_history, last_n. rewrite map_app, length_app. cbn [map length].
  rewrite drop_app_le by lia. split.
  - destruct (drop _ _); discriminate.
  - apply last_snoc.
Qed.

(** The three histories hold a sliding window over the calls [us]. *)
Lemma get_data_step (us : list (Q * Q * Q)) (u0 u1 u2 : Q) (now : string)
    (h : gmap nat (list Q)) :
  (forall i, (i < 3)%nat -> h !! i = Some (temp_history us i)) ->
  (forall i, (i < 3)%nat ->
     (Sensors.get_data u0 u1 u2 now h).1 !! i
     = Some (temp_history (us ++ [(u0, u1, u2)]) i)) /\
  exists s0 s1 s2,
    Sensors.temp_stat (Sensors.get_data u0 u1 u2 now h).1 0 = Returns (Some s0) /\
    Sensors.temp_stat (Sensors.get_data u0 u1 u2 now h).1 1 = Returns (Some s1) /\
    Sensors.temp_stat (Sensors.get_data u0 u1 u2 now h).1 2 = Returns (Some s2) /\
    (Sensors.get_data u0 u1 u2 now h).2
    = Returns {| Sensors.tr_temperatures := [round1 u0; round1 u1; round1 u2];
                 Sensors.tr_statuses := [Sensors.temp_status 0 (round1 u0);
                                         Sensors.temp_status 1 (round1 u1);
                                         Sensors.temp_status 2 (round1 u2)];
                 Sensors.tr_stats := [Some s0; Some s1; Some s2];
                 Sensors.tr_timestamp := now |}.
Proof.
  intros Hh.
  assert (Hw : forall i, temp_history (us ++ [(u0, u1, u2)]) i
               = Sensors.trim 100 (temp_history us i ++ [round1 (nth i [u0; u1; u2] 0)])).
  { intros i. unfold temp_history. rewrite map_app. cbn [map fst snd].
    symmetry. apply trim_append_last_n. }
  assert (Hne : forall i, exists x l, temp_history (us ++ [(u0, u1, u2)]) i = x :: l).
  { intros i. destruct (temp_history_snoc us (u0, u1, u2) i) as [H _].
    destruct (temp_history _ i) as [|x l]; [congruence|]. eexists _, _; reflexivity. }
  unfold Sensors.get_data. cbn [Sensors.temp_loop].
  rewrite (Hh 0%nat) by lia.
  rewrite lookup_insert_ne by discriminate. rewrite (Hh 1%nat) by lia.
  rewrite !lookup_insert_ne by discriminate. rewrite (Hh 2%nat) by lia.
  unfold Sensors.MAX_HISTORY.
  pose proof (Hw 0%nat) as W0. pose proof (Hw 1%nat) as W1. pose proof (Hw 2%nat) as W2.
  cbn [nth] in W0, W1, W2. rewrite <- W0, <- W1, <- W2. clear W0 W1 W2.
  set (h' := <[2%nat := _]> _).
  assert (H0 : h' !! 0%nat = Some (temp_history (us ++ [(u0, u1, u2)]) 0)).
  { subst h'. rewrite !lookup_insert_ne by discriminate. apply lookup_insert_eq. }
  assert (H1 : h' !! 1%nat = Some (temp_history (us ++ [(u0, u1, u2)]) 1)).
  { subst h'. rewrite !lookup_insert_ne by discriminate. apply lookup_insert_eq. }
  assert (H2 : h' !! 2%nat = Some (temp_history (us ++ [(u0, u1, u2)]) 2)).
  { subst h'. apply lookup_insert_eq. }
  cbn [Sensors.temp_stats_loop]. unfold Sensors.temp_stat. rewrite H0, H1, H2.
  destruct (Hne 0%nat) as (x0 & l0 & E0). destruct (Hne 1%nat) as (x1 & l1 & E1).
  destruct (Hne 2%nat) as (x2 & l2 & E2). rewrite E0, E1, E2. cbn [fst snd].
  fold h'. rewrite H0, H1, H2, E0, E1, E2.
  split.
  - intros i Hi. destruct i as [|[|[|i]]]; [congruence|congruence|congruence|lia].
  - eexists _, _, _. repeat split; reflexivity.
Qed.

Lemma temp_run_histories (us : list (Q * Q * Q)) (i : nat) :
  (i < 3)%nat -> temp_run us Sensors.history0 !! i = Some (temp_history us i).
Proof.
  revert i. induction us as [|[[u0 u1] u2] us IH] using rev_ind; intros i Hi.
  - destruct i as [|[|[|i]]]; [reflexivity|reflexivity|reflexivity|lia].
  - unfold temp_run in *. rewrite fold_left_app. cbn [fold_left fst snd].
    apply (get_data_step us u0 u1 u2 "" _ IH). exact Hi.
Qed.


(** X10: with the three draws in the ranges the route simulates (contact
    35..38, ambient 20..30, core 36..39) rounding keeps every reported
    temperature in its range; the ambient sensor is always reported
    normal, the contact sensor never critical, and the core sensor is
    critical exactly when it reads above 38.5, never warning. *)
Theorem get_data_statuses (us : list (Q * Q * Q)) (u0 u1 u2 : Q) (now : string) :
  35 <= u0 <= 38 -> 20 <= u1 <= 30 -> 36 <= u2 <= 39 ->
  exists resp s0 s2,
    (Sensors.get_data u0 u1 u2 now (temp_run us Sensors.history0)).2 = Returns resp /\
    Sensors.tr_temperatures resp = [round1 u0; round1 u1; round1 u2] /\
    35 <= round1 u0 <= 38 /\ 20 <= round1 u1 <= 30 /\ 36 <= round1 u2 <= 39 /\
    Sensors.tr_statuses resp = [s0; "normal"%string; s2] /\
    (s0 = "warning"%string \/ s0 = "normal"%string) /\
    (s0 = "warning"%string <-> round1 u0 < 36 \/ (75 # 2) < round1 u0) /\
    (s2 = "critical"%string \/ s2 = "normal"%string) /\
    (s2 = "critical"%string <-> (77 # 2) < round1 u2).
Proof.
  intros [L0 U0] [L1 U1] [L2 U2].
  destruct (get_data_step us u0 u1 u2 now _ (temp_run_histories us))
    as (_ & s0 & s1 & s2 & _ & _ & _ & Hresp).
  assert (R0l : 35 <= round1 u0) by (apply (round1_lower 350); [reflexivity|exact L0]).
  assert (R0u : round1 u0 <= 38) by (apply (round1_upper 380); [reflexivity|exact U0]).
  assert (R1l : 20 <= round1 u1) by (apply (round1_lower 200); [reflexivity|exact L1]).
  assert (R1u : round1 u1 <= 30) by (apply (round1_upper 300); [reflexivity|exact U1]).
  assert (R2l : 36 <= round1 u2) by (apply (round1_lower 360); [reflexivity|exact L2]).
  assert (R2u : round1 u2 <= 39) by (apply (round1_upper 390); [reflexivity|exact U2]).
  eexists _, _, _. split; [exact Hresp|]. cbn [Sensors.tr_temperatures Sensors.tr_statuses].
  split; [reflexivity|]. do 3 (split; [split; assumption|]).
  split; [reflexivity|].
  unfold Sensors.temp_status. cbn [Nat.eqb andb].
  assert (E2 : Qltb (round1 u2) 36 = false) by (apply Qltb_ge; exact R2l).
  rewrite E2. cbn [orb].
  destruct (Qltb (round1 u0) 36) eqn:A; destruct (Qltb (75 # 2) (round1 u0)) eqn:B;
    destruct (Qltb (77 # 2) (round1 u2)) eqn:C; cbn [orb];
    try apply Qltb_lt in A; try apply Qltb_ge in A;
    try apply Qltb_lt in B; try apply Qltb_ge in B;
    try apply Qltb_lt in C; try apply Qltb_ge in C;
    repeat split; auto; try discriminate; try (intros [?|?]; lra); try (intros; lra).
Qed.


(** * Properties of the connectivity routes *)

(** ** [get_com_ports] *)

(** X11: the list of ports is never empty.  It holds every device the serial
    library reported, followed on a system other than Windows by the
    Raspberry Pi paths that exist, and nothing else; the placeholder is
    the whole list exactly when no port was found.  A failure to list
    the devices counts as no device. *)
Theorem get_com_ports_listing (comports : option (list string)) (system : string)
    (path_exists : string -> bool) :
  let ports := (Connectivity.get_com_ports comports system path_exists).1 in
  let devices := default [] comports in
  let probed := fun p => system <> "Windows"%string /\ In p Connectivity.rpi_ports /\
                         path_exists p = true in
  ports <> [] /\
  (Connectivity.get_com_ports comports system path_exists).2 = Connectivity.baud_rates /\
  ((devices = [] /\ forall p, ~ probed p) -> ports = ["No Ports Available"%string]) /\
  (~ (devices = [] /\ forall p, ~ probed p) ->
     (exists rest, ports = devices ++ rest) /\
     forall p, In p ports <-> In p devices \/ probed p).
Proof.
  cbv zeta. unfold Connectivity.get_com_ports. cbn [fst snd].
  set (devices := default [] comports).
  destruct (String.eqb_spec system "Windows") as [->|Hsys]; cbn [negb].
  - split; [destruct devices; discriminate|]. split; [reflexivity|]. split.
    + intros [-> _]. reflexivity.
    + intros Hn. destruct devices as [|d ds].
      { exfalso. apply Hn. split; [reflexivity|]. intros p (H & _). congruence. }
      split; [exists []; symmetry; apply app_nil_r|].
      intros p. split; [auto|]. intros [H|(H & _)]; [exact H|congruence].
  - set (found := List.filter path_exists Connectivity.rpi_ports).
    assert (Hf : forall p, In p found <-> In p Connectivity.rpi_ports /\ path_exists p = true)
      by (intros p; apply filter_In).
    split; [destruct (devices ++ found); discriminate|]. split; [reflexivity|]. split.
    + intros [-> Hnone]. cbn [app]. destruct found as [|p ps]; [reflexivity|].
      exfalso. apply (Hnone p). split; [exact Hsys|]. apply Hf. left; reflexivity.
    + intros Hn. destruct (devices ++ found) as [|x xs] eqn:E.
      { exfalso. apply Hn. apply app_eq_nil in E. destruct E as [-> Ef]. split; [reflexivity|].
        intros p (_ & H1 & H2). assert (In p found) by (apply Hf; auto).
        rewrite Ef in *. contradiction. }
      rewrite <- E. split; [exists found; reflexivity|].
      intros p. rewrite in_app_iff, Hf. split.
      * intros [H|H]; [left; exact H|right; split; [exact Hsys|exact H]].
      * intros [H|(_ & H)]; [left; exact H|right; exact H].
Qed.

(** X12: on a system other than Windows, a device that the serial library
    reports under one of the Raspberry Pi paths is listed twice, once as
    reported and once as an existing path. *)
Theorem get_com_ports_duplicate (devices : list string) (system : string)
    (path_exists : string -> bool) (p : string) :
  system <> "Windows"%string -> In p devices -> In p Connectivity.rpi_ports ->
  path_exists p = true ->
  (2 <= count_occ string_dec
          (Connectivity.get_com_ports (Some devices) system path_exists).1 p)%nat.
Proof.
  intros Hsys Hd Hr He. unfold Connectivity.get_com_ports. cbn [fst default]. unfold id.
  destruct (String.eqb_spec system "Windows") as [->|_]; [congruence|]. cbn [negb].
  set (found := List.filter path_exists Connectivity.rpi_ports).
  assert (Hf : In p found) by (apply filter_In; auto).
  assert (Hc : (2 <= count_occ string_dec (devices ++ found) p)%nat).
  { rewrite count_occ_app.
    apply (count_occ_In string_dec) in Hd. apply (count_occ_In string_dec) in Hf. lia. }
  destruct (devices ++ found); [simpl in Hc; lia|exact Hc].
Qed.

(** ** [save_config] *)

(** The five keys of the configuration after a request whose body
    decodes to the object [d]. *)
Lemma save_config_keys (body : option jval) (d : gmap string jval)
    (cfg : gmap string jval) :
  Connectivity.body_or_empty body = JObject d ->
  let field k := default JNull (d !! k) in
  let mode := field "mode"%string in
  exists c,
    Connectivity.save_config body cfg
    = Returns (c, {| Connectivity.success := true;
                     Connectivity.message := "Configuration saved";
                     Connectivity.config := c |}) /\
    c !! "mode"%string = Some mode /\
    c !! "serial_port"%string
      = Some (if is_str mode "serial" then field "com_port"%string else JNull) /\
    c !! "baud_rate"%string
      = Some (if is_str mode "serial" then field "baud_rate"%string else JNull) /\
    c !! "ble_address"%string
      = Some (if is_str mode "ble" then field "ble_address"%string else JNull) /\
    c !! "wifi_ip"%string
      = Some (if is_str mode "wifi" then field "wifi_ip"%string else JNull) /\
    forall k, k <> "mode"%string -> k <> "serial_port"%string -> k <> "baud_rate"%string ->
      k <> "ble_address"%string -> k <> "wifi_ip"%string -> c !! k = cfg !! k.
Proof.
  intros Hb. cbv zeta. unfold Connectivity.save_config. rewrite Hb.
  eexists. split; [reflexivity|].
  set (mode := default JNull (d !! "mode"%string)).
  assert (Hx : is_str mode "serial" = true -> is_str mode "ble" = false /\ is_str mode "wifi" = false).
  { destruct mode; cbn [is_str]; try discriminate.
    intros H. apply String.eqb_eq in H. subst. split; reflexivity. }
  assert (Hy : is_str mode "ble" = true -> is_str mode "wifi" = false).
  { destruct mode; cbn [is_str]; try discriminate.
    intros H. apply String.eqb_eq in H. subst. reflexivity. }
  destruct (is_str mode "serial") eqn:E1.
  { destruct (Hx eq_refl) as [-> ->]. cbn [negb].
    repeat split;
      try (intros k N1 N2 N3 N4 N5);
      repeat first [rewrite lookup_insert_eq | rewrite lookup_insert_ne by congruence];
      reflexivity. }
  destruct (is_str mode "ble") eqn:E2.
  { rewrite (Hy eq_refl). cbn [negb].
    repeat split;
      try (intros k N1 N2 N3 N4 N5);
      repeat first [rewrite lookup_insert_eq | rewrite lookup_insert_ne by congruence];
      reflexivity. }
  destruct (is_str mode "wifi") eqn:E3; cbn [negb];
    repeat split;
      try (intros k N1 N2 N3 N4 N5);
      repeat first [rewrite lookup_insert_eq | rewrite lookup_insert_ne by congruence];
      reflexivity.
Qed.

(** X13: what [save_config] stores depends on the request alone: whatever the
    configuration held before, the mode is the one sent (any value, also
    none), the parameters of that mode are the ones sent (null when not
    sent), and the parameters of the other modes are null.  Keys other
    than the five are left as they were. *)
Theorem save_config_no_stale_state (body : option jval) (d : gmap string jval)
    (cfg : gmap string jval) :
  Connectivity.body_or_empty body = JObject d ->
  let field k := default JNull (d !! k) in
  let mode := field "mode"%string in
  exists c,
    Connectivity.save_config body cfg
    = Returns (c, {| Connectivity.success := true;
                     Connectivity.message := "Configuration saved";
                     Connectivity.config := c |}) /\
    Connectivity.get_config c !! "mode"%string = Some mode /\
    Connectivity.get_config c !! "serial_port"%string
      = Some (if is_str mode "serial" then field "com_port"%string else JNull) /\
    Connectivity.get_config c !! "baud_rate"%string
      = Some (if is_str mode "serial" then field "baud_rate"%string else JNull) /\
    Connectivity.get_config c !! "ble_address"%string
      = Some (if is_str mode "ble" then field "ble_address"%string else JNull) /\
    Connectivity.get_config c !! "wifi_ip"%string
      = Some (if is_str mode "wifi" then field "wifi_ip"%string else JNull) /\
    forall k, k <> "mode"%string -> k <> "serial_port"%string -> k <> "baud_rate"%string ->
      k <> "ble_address"%string -> k <> "wifi_ip"%string ->
      Connectivity.get_config c !! k = cfg !! k.
Proof. intros Hb. exact (save_config_keys body d cfg Hb). Qed.

(** X14: a request without a body, with an undecodable body or with a falsy
    one ([null], [false], [0], an empty string, list or object) is
    accepted and resets the mode and the four parameters to null; a
    truthy body that is not an object makes the route raise
    [AttributeError] and stores nothing. *)
Theorem save_config_body_cases (body : option jval) (cfg : gmap string jval) :
  ((body = None \/ exists v, body = Some v /\ truthy v = false) ->
   exists c r,
     Connectivity.save_config body cfg = Returns (c, r) /\
     Connectivity.success r = true /\ Connectivity.config r = c /\
     forall k, k ∈ ["mode"; "serial_port"; "baud_rate"; "ble_address"; "wifi_ip"]%string ->
       c !! k = Some JNull) /\
  (forall v, body = Some v -> truthy v = true -> (forall d, v <> JObject d) ->
   Connectivity.save_config body cfg
   = Raises (AttributeError "object has no attribute 'get'")).
Proof.
  split.
  - intros Hb.
    assert (He : Connectivity.body_or_empty body = JObject ∅).
    { destruct Hb as [->|(v & -> & Hv)]; [reflexivity|].
      unfold Connectivity.body_or_empty. rewrite Hv. reflexivity. }
    destruct (save_config_keys body ∅ cfg He) as (c & Hs & K1 & K2 & K3 & K4 & K5 & _).
    rewrite !lookup_empty in *. cbn [default is_str] in *.
    eexists _, _. split; [exact Hs|]. split; [reflexivity|]. split; [reflexivity|].
    intros k Hk. repeat (apply elem_of_cons in Hk; destruct Hk as [->|Hk]; [assumption|]).
    apply elem_of_nil in Hk. contradiction.
  - intros v -> Hv Hd. unfold Connectivity.save_config, Connectivity.body_or_empty. rewrite Hv.
    destruct v; try reflexivity. exfalso. eapply Hd. reflexivity.
Qed.

(** ** [test_wifi] *)




(** * Properties of the sessions *)

(** ** The heart-rate session: [update] and [clear] *)

Lemma sum_Z_snoc (l : list Z) (x : Z) : Session.sum_Z (l ++ [x]) = (Session.sum_Z l + x)%Z.
Proof. unfold Session.sum_Z. rewrite fold_left_app. reflexivity. Qed.

Lemma fold_add_bounds (lo hi : Z) (l : list Z) (acc : Z) :
  Forall (fun v => (lo <= v <= hi)%Z) l ->
  (acc + lo * Z.of_nat (length l) <= fold_left Z.add l acc
   <= acc + hi * Z.of_nat (length l))%Z.
Proof.
  intros H. revert acc. induction H as [|v l Hv _ IH]; intros acc.
  - cbn [fold_left length]. lia.
  - cbn [fold_left length]. specialize (IH (acc + v)%Z). lia.
Qed.

(** The floor of the mean of a non-empty list lies between its least
    and its greatest item. *)
Lemma floor_mean_bounds (mn mx : Z) (l : list Z) :
  l <> [] -> least mn l -> greatest mx l ->
  (mn <= Session.sum_Z l / Z.of_nat (length l) <= mx)%Z.
Proof.
  intros Hne [_ Hmn] [_ Hmx].
  assert (Hb : Forall (fun v => (mn <= v <= mx)%Z) l).
  { rewrite Forall_forall in Hmn, Hmx. apply Forall_forall. intros v Hv.
    split; [apply Hmn|apply Hmx]; exact Hv. }
  pose proof (fold_add_bounds mn mx l 0 Hb) as Hs. fold (Session.sum_Z l) in Hs.
  assert (Hn : (0 < Z.of_nat (length l))%Z) by (destruct l; [congruence|cbn [length]; lia]).
  split.
  - apply Z.div_le_lower_bound; lia.
  - apply Z.div_le_upper_bound; lia.
Qed.

Lemma least_snoc (a hr : Z) (l : list Z) :
  least a l -> least (if (hr <? a)%Z then hr else a) (l ++ [hr]).
Proof.
  intros [Hin Hall]. destruct (Z.ltb_spec hr a) as [Hlt|Hge]; split.
  - apply in_or_app. right. left. reflexivity.
  - apply Forall_app. split; [|constructor; [lia|constructor]].
    eapply Forall_impl; [exact Hall|]. cbv beta. intros. lia.
  - apply in_or_app. left. exact Hin.
  - apply Forall_app. split; [exact Hall|constructor; [lia|constructor]].
Qed.

Lemma greatest_snoc (b hr : Z) (l : list Z) :
  greatest b l -> greatest (if (b <? hr)%Z then hr else b) (l ++ [hr]).
Proof.
  intros [Hin Hall]. destruct (Z.ltb_spec b hr) as [Hlt|Hge]; split.
  - apply in_or_app. right. left. reflexivity.
  - apply Forall_app. split; [|constructor; [lia|constructor]].
    eapply Forall_impl; [exact Hall|]. cbv beta. intros. lia.
  - apply in_or_app. left. exact Hin.
  - apply Forall_app. split; [exact Hall|constructor; [lia|constructor]].
Qed.

(** [clear] starts a heart-rate session without points. *)
Lemma clear_hr_inv (t : Q) (st : Session.state) : hr_inv t [] (Session.clear t st).
Proof.
  unfold hr_inv, Session.clear. cbn.
  repeat split. exists Session.PosInf, Session.NegInf. repeat split.
Qed.

(** One valid reading in a heart-rate session. *)
Lemma update_hr_inv (t : Q) (S : list (Z * Z)) (st : Session.state) (hr : Z) (now : Q) :
  hr_inv t S st -> hr <> (-1)%Z ->
  let S' := S ++ [(Session.int_of (now - t), hr)] in
  hr_inv t S' (Session.update hr now st).1 /\
  exists mn mx,
    (Session.update hr now st).2
    = Returns {| Session.u_heartrate := hr; Session.u_status := Session.hr_status hr;
                 Session.u_min := Session.Stat (Session.Fin mn);
                 Session.u_max := Session.Stat (Session.Fin mx);
                 Session.u_avg := Session.Stat
                   (Session.Fin (Session.sum_Z (map snd S') / Z.of_nat (length S')));
                 Session.u_graph := last_n 60 S' |} /\
    least mn (map snd S') /\ greatest mx (map snd S').
Proof.
  intros (Ht & Hg & Hspo2 & Hc & Htot & mn & mx & Hmn & Hmx & Hm) Hhr. cbv zeta.
  unfold Session.update. destruct (Z.eqb_spec hr (-1)) as [E|_]; [congruence|].
  cbn [Session.session_data Session.session_start_time Session.graph_data].
  unfold Session.number_at. rewrite Hmn.
  rewrite lookup_insert_ne by discriminate. rewrite Hmx.
  rewrite !lookup_insert_ne by discriminate. rewrite Htot.
  rewrite !lookup_insert_ne by discriminate. rewrite Hc.
  cbn [Session.add_int].
  assert (Hlen : (Z.of_nat (length S) + 1 = Z.of_nat (length (S ++ [(Session.int_of (now - t), hr)])))%Z)
    by (rewrite length_app; cbn [length]; lia).
  assert (Hsum : (Session.sum_Z (map snd S) + hr
                  = Session.sum_Z (map snd (S ++ [(Session.int_of (now - t), hr)])))%Z)
    by (rewrite map_app; cbn [map snd]; symmetry; apply sum_Z_snoc).
  rewrite Hlen, Hsum. unfold Session.floordiv.
  destruct (Z.of_nat (length (S ++ [(Session.int_of (now - t), hr)]))) as [|c|c] eqn:Ec;
    [rewrite length_app in Ec; cbn [length] in Ec; lia| |lia].
  rewrite <- Ec. rewrite Ht, Hg, deque_append_last_n.
  assert (Hmm : exists a b,
             Session.min_with mn hr = Session.Fin a /\ Session.max_with mx hr = Session.Fin b /\
             least a (map snd (S ++ [(Session.int_of (now - t), hr)])) /\
             greatest b (map snd (S ++ [(Session.int_of (now - t), hr)]))).
  { rewrite map_app. cbn [map snd]. destruct S as [|s0 S0].
    - destruct Hm as [-> ->]. exists hr, hr. cbn.
      repeat split; try (left; reflexivity); repeat constructor; lia.
    - destruct Hm as (a & b & -> & -> & Ha & Hb).
      exists (if (hr <? a)%Z then hr else a), (if (b <? hr)%Z then hr else b).
      unfold Session.min_with, Session.max_with. cbn [Session.int_lt Session.lt_int].
      split; [destruct (hr <? a)%Z; reflexivity|].
      split; [destruct (b <? hr)%Z; reflexivity|].
      split; [apply least_snoc; exact Ha|apply greatest_snoc; exact Hb]. }
  destruct Hmm as (a & b & -> & -> & Ha & Hb).
  cbn [fst snd]. split.
  - unfold hr_inv. cbn [Session.session_data Session.session_start_time Session.graph_data].
    split; [reflexivity|]. split; [reflexivity|].
    split; [rewrite !lookup_insert_ne by discriminate; exact Hspo2|].
    split; [rewrite lookup_insert_eq; reflexivity|].
    split; [rewrite lookup_insert_ne by discriminate; rewrite lookup_insert_eq; reflexivity|].
    exists (Session.Fin a), (Session.Fin b).
    split; [rewrite !lookup_insert_ne by discriminate; rewrite lookup_insert_eq; reflexivity|].
    split; [rewrite !lookup_insert_ne by discriminate; rewrite lookup_insert_eq; reflexivity|].
    destruct (S ++ [(Session.int_of (now - t), hr)]) eqn:E;
      [apply app_eq_nil in E; destruct E; discriminate|].
    exists a, b. auto.
  - exists a, b. split; [reflexivity|]. split; assumption.
Qed.

(** Requests other than [clear] keep the heart-rate session, adding the
    points of the valid readings. *)
Lemma step_hr_inv (t : Q) (S : list (Z * Z)) (st : Session.state) (r : Session.request) :
  hr_inv t S st -> is_clear r = false ->
  hr_inv t (S ++ hr_samples t [r]) (Session.step st r).
Proof.
  intros H Hr. destruct r as [hr now|now|s p t1 t2| |data]; cbn [is_clear] in Hr; try discriminate;
    cbn [hr_samples flat_map Session.step]; rewrite ?app_nil_r.
  - destruct (Z.eqb_spec hr (-1)) as [->|Hne]; rewrite ?app_nil_r.
    + exact H.
    + apply (update_hr_inv t S st hr now H Hne).
  - destruct H as (Ht & Hg & Hspo2 & Hc & Htot & Hex). unfold Session.get_spo2_data.
    destruct (Session.paused st).
    + cbn. do 5 (split; [assumption|]). exact Hex.
    + unfold Session.list_append_at. rewrite Hspo2. cbn.
      do 5 (split; [assumption|]). exact Hex.
  - exact H.
  - exact H.
Qed.

Lemma hr_samples_app (t : Q) (rs1 rs2 : list Session.request) :
  hr_samples t (rs1 ++ rs2) = hr_samples t rs1 ++ hr_samples t rs2.
Proof. unfold hr_samples. apply flat_map_app. Qed.

Lemma run_hr_inv (t : Q) (S : list (Z * Z)) (st : Session.state) (rs : list Session.request) :
  hr_inv t S st -> no_clear rs ->
  hr_inv t (S ++ hr_samples t rs) (Session.run rs st).
Proof.
  revert S st. induction rs as [|r rs IH]; intros S st H Hn.
  - cbn. rewrite app_nil_r. exact H.
  - unfold no_clear in Hn. cbn [forallb] in Hn. apply andb_prop in Hn. destruct Hn as [Hr Hn].
    apply negb_true_iff in Hr.
    change (r :: rs) with ([r] ++ rs). rewrite hr_samples_app, app_assoc.
    unfold Session.run. cbn [app fold_left]. apply IH; [|exact Hn].
    apply step_hr_inv; assumption.
Qed.

(** X17: once [clear] has been called, a valid reading is always answered:
    [update] does not raise, the minimum and the maximum it reports are
    the least and the greatest valid reading since the last [clear], the
    average is the floor of their mean and lies between the two, and the
    graph holds the last 60 points [(elapsed seconds, reading)] of the
    session.  Readings of -1 and the other routes leave the session as
    it is. *)
Theorem update_after_clear (st : Session.state) (t : Q) (rs : list Session.request)
    (hr : Z) (now : Q) :
  no_clear rs -> hr <> (-1)%Z ->
  let S := hr_samples t (rs ++ [Session.Update hr now]) in
  let hrs := map snd S in
  exists mn mx,
    (Session.update hr now (Session.run rs (Session.clear t st))).2
    = Returns {| Session.u_heartrate := hr; Session.u_status := Session.hr_status hr;
                 Session.u_min := Session.Stat (Session.Fin mn);
                 Session.u_max := Session.Stat (Session.Fin mx);
                 Session.u_avg := Session.Stat
                   (Session.Fin (Session.sum_Z hrs / Z.of_nat (length hrs)));
                 Session.u_graph := last_n 60 S |} /\
    least mn hrs /\ greatest mx hrs /\
    (mn <= hr <= mx)%Z /\
    (mn <= Session.sum_Z hrs / Z.of_nat (length hrs) <= mx)%Z.
Proof.
  intros Hn Hhr. cbv zeta.
  pose proof (run_hr_inv t [] _ rs (clear_hr_inv t st) Hn) as Hinv. cbn [app] in Hinv.
  destruct (update_hr_inv t _ _ hr now Hinv Hhr) as (_ & mn & mx & Hresp & Hmn & Hmx).
  rewrite hr_samples_app. cbn [hr_samples flat_map].
  destruct (Z.eqb_spec hr (-1)) as [E|_]; [congruence|]. cbn [app].
  fold (hr_samples t rs).
  exists mn, mx. rewrite length_map. split; [exact Hresp|].
  split; [exact Hmn|]. split; [exact Hmx|].
  assert (Hin : In hr (map snd (hr_samples t rs ++ [(Session.int_of (now - t), hr)]))).
  { rewrite map_app. apply in_or_app. right. left. reflexivity. }
  split.
  - destruct Hmn as [_ Hmn]. destruct Hmx as [_ Hmx]. rewrite Forall_forall in Hmn, Hmx.
    apply list_elem_of_In in Hin. split; [apply Hmn|apply Hmx]; exact Hin.
  - rewrite <- (length_map snd). apply floor_mean_bounds; [|exact Hmn|exact Hmx].
    rewrite map_app. intros E. apply app_eq_nil in E. destruct E; discriminate.
Qed.

(** [get_spo2_data] in a heart-rate session: the entry ["spo2"] is
    missing. *)
Lemma get_spo2_data_hr_shaped (s p : Z) (t1 t2 : Q) (st : Session.state) :
  hr_shaped (Session.session_data st) -> Session.paused st = false ->
  Session.get_spo2_data s p t1 t2 st = (st, Raises (KeyError "spo2")).
Proof.
  intros (Hs & _) Hp. unfold Session.get_spo2_data, Session.list_append_at.
  rewrite Hp, Hs. reflexivity.
Qed.

Lemma step_hr_shaped (st : Session.state) (r : Session.request) :
  hr_shaped (Session.session_data st) -> hr_shaped (Session.session_data (Session.step st r)).
Proof.
  intros H. destruct r as [hr now|now|s p t1 t2| |data]; cbn [Session.step].
  - destruct H as (Hs & (mn & Hmn) & (mx & Hmx) & (tot & Htot) & (c & Hc)).
    unfold Session.update. destruct (hr =? -1)%Z; [cbn; unfold hr_shaped; eauto 10|].
    cbn [Session.session_data Session.session_start_time Session.graph_data].
    unfold Session.number_at. rewrite Hmn.
    rewrite lookup_insert_ne by discriminate. rewrite Hmx.
    rewrite !lookup_insert_ne by discriminate. rewrite Htot.
    rewrite !lookup_insert_ne by discriminate. rewrite Hc.
    assert (Hd : hr_shaped
                   (<["count"%string := Session.SNum (Session.add_int c 1)]>
                    (<["total"%string := Session.SNum (Session.add_int tot hr)]>
                     (<["max"%string := Session.SNum (Session.max_with mx hr)]>
                      (<["min"%string := Session.SNum (Session.min_with mn hr)]>
                       (Session.session_data st)))))).
    { unfold hr_shaped.
      split; [rewrite !lookup_insert_ne by discriminate; exact Hs|].
      split; [eexists; rewrite !lookup_insert_ne by discriminate; apply lookup_insert_eq|].
      split; [eexists; rewrite !lookup_insert_ne by discriminate; apply lookup_insert_eq|].
      split; [eexists; rewrite !lookup_insert_ne by discriminate; apply lookup_insert_eq|].
      eexists; apply lookup_insert_eq. }
    destruct (Session.floordiv _ _); cbn; exact Hd.
  - cbn. unfold hr_shaped, Session.hr_session.
    split; [reflexivity|]. repeat split; eexists; reflexivity.
  - unfold Session.get_spo2_data. destruct (Session.paused st); [cbn; exact H|].
    unfold Session.list_append_at. destruct H as (Hs & H). rewrite Hs. cbn. split; assumption.
  - exact H.
  - exact H.
Qed.

Lemma run_hr_shaped (rs : list Session.request) (st : Session.state) :
  hr_shaped (Session.session_data st) ->
  hr_shaped (Session.session_data (Session.run rs st)).
Proof.
  revert st. induction rs as [|r rs IH]; intros st H; [exact H|].
  unfold Session.run. cbn [fold_left]. apply IH. apply step_hr_shaped. exact H.
Qed.

(** X18: after [clear] has been called once, [get_spo2_data] raises
    [KeyError] for the entry ["spo2"] whenever it is not paused, and
    nothing the routes do afterwards repairs it: the dictionary that
    [clear] binds has no such entry.  The state is left as it was. *)
Theorem get_spo2_data_after_clear (st : Session.state) (rs1 rs2 : list Session.request)
    (t : Q) (s p : Z) (t1 t2 : Q) :
  let st' := Session.run (rs1 ++ Session.Clear t :: rs2) st in
  Session.paused st' = false ->
  Session.get_spo2_data s p t1 t2 st' = (st', Raises (KeyError "spo2")).
Proof.
  intros st' Hp. apply get_spo2_data_hr_shaped; [|exact Hp].
  subst st'. unfold Session.run. rewrite fold_left_app. cbn [fold_left Session.step].
  apply run_hr_shaped. cbn. unfold hr_shaped, Session.hr_session.
  split; [reflexivity|]. repeat split; eexists; reflexivity.
Qed.

(** ** The SpO2 session: [get_spo2_data], [toggle_pause] *)

Lemma min_Z_least (x : Z) (l : list Z) : least (Session.min_Z x l) (x :: l).
Proof.
  unfold Session.min_Z. revert x. induction l as [|y l IH]; intros x.
  - cbn [fold_left]. split; [left; reflexivity|constructor; [lia|constructor]].
  - cbn [fold_left]. destruct (IH (if (y <? x)%Z then y else x)) as [Hin Hall].
    apply Forall_cons in Hall. destruct Hall as [H1 H2]. split.
    + destruct Hin as [H|H]; [|right; right; exact H].
      destruct (y <? x)%Z; [right; left|left]; exact H.
    + destruct (Z.ltb_spec y x); repeat constructor; try lia; exact H2.
Qed.

Lemma max_Z_greatest (x : Z) (l : list Z) : greatest (Session.max_Z x l) (x :: l).
Proof.
  unfold Session.max_Z. revert x. induction l as [|y l IH]; intros x.
  - cbn [fold_left]. split; [left; reflexivity|constructor; [lia|constructor]].
  - cbn [fold_left]. destruct (IH (if (x <? y)%Z then y else x)) as [Hin Hall].
    apply Forall_cons in Hall. destruct Hall as [H1 H2]. split.
    + destruct Hin as [H|H]; [|right; right; exact H].
      destruct (x <? y)%Z; [right; left|left]; exact H.
    + destruct (Z.ltb_spec x y); repeat constructor; try lia; exact H2.
Qed.

Lemma stats_of_spec (d : gmap string Session.sval) (key : string) (l : list Z) :
  d !! key = Some (Session.SList l) -> l <> [] ->
  exists s, Session.stats_of d key = Returns s /\ stats_for l s.
Proof.
  intros Hd Hne. unfold Session.stats_of. rewrite Hd. destruct l as [|x l]; [congruence|].
  eexists. split; [reflexivity|]. exists (Session.min_Z x l), (Session.max_Z x l).
  cbn [Session.s_min Session.s_max Session.s_avg].
  pose proof (min_Z_least x l) as Hmin. pose proof (max_Z_greatest x l) as Hmax.
  repeat (split; [reflexivity|]). split; [exact Hmin|]. split; [exact Hmax|].
  apply floor_mean_bounds; assumption.
Qed.

(** One request other than [clear] in the SpO2 session. *)
Lemma step_spo2_inv (acc : bool * list (Z * Z)) (st : Session.state) (r : Session.request) :
  spo2_inv acc.1 acc.2 st -> is_clear r = false ->
  spo2_inv (track acc r).1 (track acc r).2 (Session.step st r).
Proof.
  destruct acc as [pz R]. cbn [fst snd]. intros (Hp & Hs & Hq & Hm) Hr.
  destruct r as [hr now|now|s p t1 t2| |data]; cbn [is_clear] in Hr; try discriminate;
    cbn [track Session.step fst snd].
  - unfold Session.update. destruct (hr =? -1)%Z; [cbn; repeat split; assumption|].
    cbn [Session.session_data]. unfold Session.number_at. rewrite Hm. cbn.
    repeat split; assumption.
  - unfold Session.get_spo2_data. rewrite Hp. destruct pz.
    + cbn. repeat split; assumption.
    + unfold Session.list_append_at. rewrite Hs.
      rewrite lookup_insert_ne by discriminate. rewrite Hq.
      set (d2 := <["pulse"%string := _]> _).
      assert (H1 : d2 !! "spo2"%string = Some (Session.SList (map fst (R ++ [(s, p)])))).
      { subst d2. rewrite lookup_insert_ne by discriminate. rewrite lookup_insert_eq.
        rewrite map_app. reflexivity. }
      assert (H2 : d2 !! "pulse"%string = Some (Session.SList (map snd (R ++ [(s, p)])))).
      { subst d2. rewrite lookup_insert_eq. rewrite map_app. reflexivity. }
      assert (N1 : map fst (R ++ [(s, p)]) <> [])
        by (rewrite map_app; intros E; apply app_eq_nil in E; destruct E; discriminate).
      assert (N2 : map snd (R ++ [(s, p)]) <> [])
        by (rewrite map_app; intros E; apply app_eq_nil in E; destruct E; discriminate).
      destruct (stats_of_spec d2 _ _ H1 N1) as (s1 & E1 & _).
      destruct (stats_of_spec d2 _ _ H2 N2) as (s2 & E2 & _).
      assert (H3 : d2 !! "min"%string = None)
        by (subst d2; rewrite !lookup_insert_ne by discriminate; exact Hm).
      unfold Session.get_stats. rewrite H1, H2, E1, E2.
      unfold Session.get_duration, Session.set_session_data, spo2_inv.
      cbn [fst snd Session.paused Session.session_data].
      split; [exact Hp|]. split; [exact H1|]. split; [exact H2|exact H3].
  - cbn. rewrite Hp. repeat split; assumption.
  - cbn. repeat split; assumption.
Qed.

Lemma run_spo2_inv (rs : list Session.request) (acc : bool * list (Z * Z))
    (st : Session.state) :
  spo2_inv acc.1 acc.2 st -> no_clear rs ->
  spo2_inv (fold_left track rs acc).1 (fold_left track rs acc).2 (Session.run rs st).
Proof.
  revert acc st. induction rs as [|r rs IH]; intros acc st H Hn; [exact H|].
  unfold no_clear in Hn. cbn [forallb] in Hn. apply andb_prop in Hn. destruct Hn as [Hr Hn].
  apply negb_true_iff in Hr. unfold Session.run. cbn [fold_left].
  apply IH; [|exact Hn]. apply step_spo2_inv; assumption.
Qed.

Lemma state0_spo2_inv (t0 : Q) : spo2_inv false [] (Session.state0 t0).
Proof. repeat split. Qed.

(** Without [clear] the entry ["min"] stays missing and the graph
    stays empty. *)
Lemma step_min_missing (st : Session.state) (r : Session.request) :
  Session.session_data st !! "min"%string = None /\ Session.graph_data st = [] ->
  is_clear r = false ->
  Session.session_data (Session.step st r) !! "min"%string = None /\
  Session.graph_data (Session.step st r) = [].
Proof.
  intros [Hm Hg] Hr.
  destruct r as [hr now|now|s p t1 t2| |data]; cbn [is_clear] in Hr; try discriminate;
    cbn [Session.step].
  - unfold Session.update. destruct (hr =? -1)%Z; [split; assumption|].
    cbn [Session.session_data]. unfold Session.number_at. rewrite Hm. split; assumption.
  - unfold Session.get_spo2_data. destruct (Session.paused st); [split; assumption|].
    unfold Session.list_append_at.
    destruct (Session.session_data st !! "spo2"%string) as [[x|l]|] eqn:E1;
      [split; assumption| |split; assumption].
    rewrite lookup_insert_ne by discriminate.
    destruct (Session.session_data st !! "pulse"%string) as [[x|l']|] eqn:E2.
    + cbn [fst Session.set_session_data Session.session_data Session.graph_data].
      rewrite lookup_insert_ne by discriminate. split; assumption.
    + destruct (Session.get_stats _);
        cbn [fst Session.get_duration Session.set_session_data Session.session_data
             Session.graph_data];
        rewrite !lookup_insert_ne by discriminate; split; assumption.
    + cbn [fst Session.set_session_data Session.session_data Session.graph_data].
      rewrite lookup_insert_ne by discriminate. split; assumption.
  - split; assumption.
  - split; assumption.
Qed.

Lemma run_min_missing (rs : list Session.request) (st : Session.state) :
  Session.session_data st !! "min"%string = None /\ Session.graph_data st = [] ->
  no_clear rs ->
  Session.session_data (Session.run rs st) !! "min"%string = None /\
  Session.graph_data (Session.run rs st) = [].
Proof.
  revert st. induction rs as [|r rs IH]; intros st H Hn; [exact H|].
  unfold no_clear in Hn. cbn [forallb] in Hn. apply andb_prop in Hn. destruct Hn as [Hr Hn].
  apply negb_true_iff in Hr. unfold Session.run. cbn [fold_left].
  apply IH; [|exact Hn]. apply step_min_missing; assumption.
Qed.

(** X19: until [clear] is called, a valid heart rate makes [update] raise
    [KeyError] for the entry ["min"]: the dictionary the module ends up
    with is the one of the SpO2 session.  The reading is remembered as
    the last valid one and nothing else changes; the graph is still
    empty. *)
Theorem update_before_clear (t0 : Q) (rs : list Session.request) (hr : Z) (now : Q) :
  no_clear rs -> hr <> (-1)%Z ->
  let st := Session.run rs (Session.state0 t0) in
  exists st',
    Session.update hr now st = (st', Raises (KeyError "min")) /\
    Session.last_valid_hr st' = Some hr /\
    Session.session_data st' = Session.session_data st /\
    Session.graph_data st' = [].
Proof.
  intros Hn Hhr st.
  destruct (run_min_missing rs (Session.state0 t0) (conj eq_refl eq_refl) Hn) as [Hm Hg].
  fold st in Hm, Hg. unfold Session.update.
  destruct (Z.eqb_spec hr (-1)) as [E|_]; [congruence|].
  cbn [Session.session_data]. unfold Session.number_at. rewrite Hm.
  eexists. split; [reflexivity|]. cbn [Session.last_valid_hr Session.session_data Session.graph_data].
  repeat split. exact Hg.
Qed.

(** X20: until [clear] is called, [get_spo2_data] never raises.  While
    paused it answers without a reading and records nothing; otherwise
    it records the reading it drew, and the statistics it reports are
    those of all readings recorded so far: for SpO2 and for the pulse
    the least and the greatest reading and the floor of the mean, which
    lies between them. *)
Theorem get_spo2_data_statistics (t0 : Q) (rs : list Session.request) (s p : Z)
    (t1 t2 : Q) :
  no_clear rs ->
  let st := Session.run rs (Session.state0 t0) in
  let r := Session.get_spo2_data s p t1 t2 st in
  (paused_after rs = true ->
   exists duration,
     r.2 = Returns (Session.Paused duration) /\
     Session.session_data r.1 = Session.session_data st) /\
  (paused_after rs = false ->
   let R := recorded rs ++ [(s, p)] in
   exists stats duration,
     r.2 = Returns (Session.Reading s p (Session.get_spo2_status s)
                      (Session.get_pulse_status p) stats duration) /\
     stats_for (map fst R) stats.1 /\ stats_for (map snd R) stats.2 /\
     Session.session_data r.1 !! "spo2"%string = Some (Session.SList (map fst R)) /\
     Session.session_data r.1 !! "pulse"%string = Some (Session.SList (map snd R))).
Proof.
  intros Hn st r.
  pose proof (run_spo2_inv rs (false, []) _ (state0_spo2_inv t0) Hn) as (Hp & Hs & Hq & Hm).
  fold st in Hp, Hs, Hq, Hm. fold (paused_after rs) in Hp. fold (recorded rs) in Hs, Hq.
  subst r. unfold Session.get_spo2_data. rewrite Hp. split; intros Hpa; rewrite Hpa.
  - cbn. eexists. split; reflexivity.
  - cbv zeta. unfold Session.list_append_at. rewrite Hs.
    rewrite lookup_insert_ne by discriminate. rewrite Hq.
    set (d2 := <["pulse"%string := _]> _).
    assert (H1 : d2 !! "spo2"%string = Some (Session.SList (map fst (recorded rs ++ [(s, p)])))).
    { subst d2. rewrite lookup_insert_ne by discriminate. rewrite lookup_insert_eq.
      rewrite map_app. reflexivity. }
    assert (H2 : d2 !! "pulse"%string = Some (Session.SList (map snd (recorded rs ++ [(s, p)])))).
    { subst d2. rewrite lookup_insert_eq. rewrite map_app. reflexivity. }
    assert (N1 : map fst (recorded rs ++ [(s, p)]) <> [])
      by (rewrite map_app; intros E; apply app_eq_nil in E; destruct E; discriminate).
    assert (N2 : map snd (recorded rs ++ [(s, p)]) <> [])
      by (rewrite map_app; intros E; apply app_eq_nil in E; destruct E; discriminate).
    destruct (stats_of_spec d2 _ _ H1 N1) as (s1 & E1 & S1).
    destruct (stats_of_spec d2 _ _ H2 N2) as (s2 & E2 & S2).
    unfold Session.get_stats. rewrite H1, H2, E1, E2. cbn.
    eexists (s1, s2), _. split; [reflexivity|]. cbn [fst snd]. auto.
Qed.

(** *** The duration *)

Lemma fmt02_two_digits (n : Z) : (0 <= n < 100)%Z -> Session.fmt02 n = two_digits n.
Proof.
  intros Hn.
  assert (H : forallb (fun k => String.eqb (Session.fmt02 (Z.of_nat k)) (two_digits (Z.of_nat k)))
                (seq 0 100) = true) by (vm_compute; reflexivity).
  rewrite forallb_forall in H. specialize (H (Z.to_nat n)).
  rewrite Z2Nat.id in H by lia. apply String.eqb_eq, H, in_seq. lia.
Qed.

Lemma step_session_start (acc : bool * list (Z * Z)) (st : Session.state)
    (r : Session.request) :
  spo2_inv acc.1 acc.2 st -> is_clear r = false ->
  Session.session_start (Session.step st r) = poll (Session.session_start st) r.
Proof.
  destruct acc as [pz R]. cbn [fst snd]. intros (Hp & Hs & Hq & Hm) Hr.
  destruct r as [hr now|now|s p t1 t2| |data]; cbn [is_clear] in Hr; try discriminate;
    cbn [Session.step].
  - unfold Session.update. destruct (hr =? -1)%Z; [cbn [fst snd Session.session_start Session.get_duration Session.toggle_pause Session.update_settings]; destruct (Session.session_start st); reflexivity|].
    cbn [Session.session_data]. unfold Session.number_at. rewrite Hm.
    cbn. cbn [fst snd Session.session_start Session.get_duration Session.toggle_pause Session.update_settings]; destruct (Session.session_start st); reflexivity.
  - unfold Session.get_spo2_data. destruct (Session.paused st).
    + cbn. cbn [fst snd Session.session_start Session.get_duration Session.toggle_pause Session.update_settings]; destruct (Session.session_start st); reflexivity.
    + unfold Session.list_append_at. rewrite Hs.
      rewrite lookup_insert_ne by discriminate. rewrite Hq.
      set (d2 := <["pulse"%string := _]> _).
      assert (H1 : d2 !! "spo2"%string = Some (Session.SList (map fst R ++ [s]))).
      { subst d2. rewrite lookup_insert_ne by discriminate. apply lookup_insert_eq. }
      assert (H2 : d2 !! "pulse"%string = Some (Session.SList (map snd R ++ [p])))
        by (subst d2; apply lookup_insert_eq).
      assert (N1 : map fst R ++ [s] <> [])
        by (intros E; apply app_eq_nil in E; destruct E; discriminate).
      assert (N2 : map snd R ++ [p] <> [])
        by (intros E; apply app_eq_nil in E; destruct E; discriminate).
      destruct (stats_of_spec d2 _ _ H1 N1) as (s1 & E1 & _).
      destruct (stats_of_spec d2 _ _ H2 N2) as (s2 & E2 & _).
      unfold Session.get_stats. rewrite H1, H2, E1, E2.
      unfold Session.get_duration, Session.set_session_data.
      cbn [fst snd Session.session_start Session.get_duration Session.toggle_pause Session.update_settings]; destruct (Session.session_start st); reflexivity.
  - cbn. cbn [fst snd Session.session_start Session.get_duration Session.toggle_pause Session.update_settings]; destruct (Session.session_start st); reflexivity.
  - cbn. cbn [fst snd Session.session_start Session.get_duration Session.toggle_pause Session.update_settings]; destruct (Session.session_start st); reflexivity.
Qed.

Lemma run_session_start (rs : list Session.request) (acc : bool * list (Z * Z))
    (st : Session.state) :
  spo2_inv acc.1 acc.2 st -> no_clear rs ->
  Session.session_start (Session.run rs st) = fold_left poll rs (Session.session_start st).
Proof.
  revert acc st. induction rs as [|r rs IH]; intros acc st H Hn; [reflexivity|].
  unfold no_clear in Hn. cbn [forallb] in Hn. apply andb_prop in Hn. destruct Hn as [Hr Hn].
  apply negb_true_iff in Hr. unfold Session.run. cbn [fold_left].
  rewrite <- (step_session_start acc st r H Hr).
  apply (IH (track acc r)); [|exact Hn]. apply step_spo2_inv; assumption.
Qed.

(** X21: until [clear] is called, the duration that [get_spo2_data]
    reports counts the whole seconds since the first call of the route,
    paused or not: pausing does not stop the clock.  Below 100 minutes
    it reads as two digits of minutes, a colon and two digits of
    seconds. *)
Theorem get_spo2_data_duration (t0 : Q) (rs : list Session.request) (s p : Z) (t1 t2 : Q) :
  no_clear rs ->
  let start := default t1 (fold_left poll rs None) in
  let e := Session.int_of (t2 - start) in
  (0 <= e < 6000)%Z ->
  exists resp,
    (Session.get_spo2_data s p t1 t2 (Session.run rs (Session.state0 t0))).2 = Returns resp /\
    duration_of resp = (two_digits (e / 60) ++ ":" ++ two_digits (e mod 60))%string.
Proof.
  intros Hn start e He.
  pose proof (run_session_start rs (false, []) _ (state0_spo2_inv t0) Hn) as Hst.
  change (Session.session_start (Session.state0 t0)) with (@None Q) in Hst.
  pose proof (run_spo2_inv rs (false, []) _ (state0_spo2_inv t0) Hn) as (Hp & Hs & Hq & Hm).
  set (st := Session.run rs (Session.state0 t0)) in *.
  assert (Hd : (Session.get_duration t1 t2 st).2
               = (two_digits (e / 60) ++ ":" ++ two_digits (e mod 60))%string).
  { unfold Session.get_duration. cbn [snd]. rewrite Hst. fold start. fold e.
    rewrite !fmt02_two_digits; [reflexivity| |].
    - pose proof (Z.mod_pos_bound e 60). lia.
    - split; [apply Z.div_pos; lia|apply Z.div_lt_upper_bound; lia]. }
  assert (Hd' : forall d, (Session.get_duration t1 t2 (Session.set_session_data d st)).2
                          = (Session.get_duration t1 t2 st).2) by reflexivity.
  unfold Session.get_spo2_data. destruct (Session.paused st).
  - destruct (Session.get_duration t1 t2 st) as [st' dur] eqn:Eg. cbn [snd] in *.
    eexists. split; [reflexivity|]. exact Hd.
  - unfold Session.list_append_at. rewrite Hs.
    rewrite lookup_insert_ne by discriminate. rewrite Hq.
    set (d2 := <["pulse"%string := _]> _).
    assert (H1 : d2 !! "spo2"%string
                 = Some (Session.SList (map fst (fold_left track rs (false, [])).2 ++ [s]))).
    { subst d2. rewrite lookup_insert_ne by discriminate. apply lookup_insert_eq. }
    assert (H2 : d2 !! "pulse"%string
                 = Some (Session.SList (map snd (fold_left track rs (false, [])).2 ++ [p])))
      by (subst d2; apply lookup_insert_eq).
    assert (N1 : map fst (fold_left track rs (false, [])).2 ++ [s] <> [])
      by (intros E; apply app_eq_nil in E; destruct E; discriminate).
    assert (N2 : map snd (fold_left track rs (false, [])).2 ++ [p] <> [])
      by (intros E; apply app_eq_nil in E; destruct E; discriminate).
    destruct (stats_of_spec d2 _ _ H1 N1) as (s1 & E1 & _).
    destruct (stats_of_spec d2 _ _ H2 N2) as (s2 & E2 & _).
    unfold Session.get_stats. rewrite H1, H2, E1, E2.
    specialize (Hd' d2).
    destruct (Session.get_duration t1 t2 (Session.set_session_data d2 st)) as [st' dur] eqn:Eg.
    cbn [snd] in *. eexists. split; [reflexivity|]. cbn [duration_of]. congruence.
Qed.

(** ** [update_settings] *)

Lemma update_with_thresholds (th : jval) (hr : Z) (now : Q) (st : Session.state) :
  Session.update hr now (with_thresholds th st)
  = (with_thresholds th (Session.update hr now st).1, (Session.update hr now st).2).
Proof.
  unfold Session.update, with_thresholds, Session.set_session_data.
  cbn [Session.session_data Session.session_start_time Session.graph_data
       Session.last_valid_hr Session.session_start Session.paused Session.thresholds].
  destruct (hr =? -1)%Z; [reflexivity|].
  destruct (Session.number_at _ "min"); [|reflexivity].
  destruct (Session.number_at _ "max"); [|reflexivity].
  destruct (Session.number_at _ "total"); [|reflexivity].
  destruct (Session.number_at _ "count"); [|reflexivity].
  destruct (Session.floordiv _ _); reflexivity.
Qed.

Lemma get_spo2_data_with_thresholds (th : jval) (s p : Z) (t1 t2 : Q) (st : Session.state) :
  Session.get_spo2_data s p t1 t2 (with_thresholds th st)
  = (with_thresholds th (Session.get_spo2_data s p t1 t2 st).1,
     (Session.get_spo2_data s p t1 t2 st).2).
Proof.
  unfold Session.get_spo2_data, Session.get_duration, with_thresholds, Session.set_session_data.
  cbn [Session.session_data Session.session_start_time Session.graph_data
       Session.last_valid_hr Session.session_start Session.paused Session.thresholds].
  destruct (Session.paused st) eqn:Hp;
    [cbn [fst snd Session.paused]; rewrite ?Hp; reflexivity|].
  destruct (Session.list_append_at _ "spo2" _);
    [|cbn [fst snd Session.paused]; rewrite ?Hp; reflexivity].
  destruct (Session.list_append_at _ "pulse" _);
    [|cbn [fst snd Session.paused]; rewrite ?Hp; reflexivity].
  destruct (Session.get_stats _); cbn [fst snd Session.paused]; rewrite ?Hp; reflexivity.
Qed.

(** A state answers as the same state with other thresholds does. *)
Lemma respond_with_thresholds (th : jval) (st : Session.state) (r : Session.request) :
  exists th',
    respond (with_thresholds th st) r = (with_thresholds th' (respond st r).1, (respond st r).2).
Proof.
  destruct r as [hr now|now|s p t1 t2| |data]; cbn [respond Session.step fst snd].
  - exists th. rewrite update_with_thresholds. reflexivity.
  - exists th. reflexivity.
  - exists th. rewrite get_spo2_data_with_thresholds. reflexivity.
  - exists th. reflexivity.
  - exists data. reflexivity.
Qed.

Lemma replies_with_thresholds (rs : list Session.request) (th : jval) (st : Session.state) :
  replies rs (with_thresholds th st) = replies rs st.
Proof.
  revert th st. induction rs as [|r rs IH]; intros th st; [reflexivity|].
  cbn [replies]. destruct (respond_with_thresholds th st r) as (th' & ->).
  cbn [fst snd]. rewrite IH. reflexivity.
Qed.

(** X22: the thresholds that [update_settings] stores are never read: the
    replies of [update], [clear], [get_spo2_data] and [toggle_pause] in
    any sequence of requests are the same when every [update_settings]
    request is left out of it. *)
Theorem update_settings_has_no_effect (rs : list Session.request) (st : Session.state) :
  replies (List.filter (fun r => negb (is_settings r)) rs) st
  = List.filter (fun x => negb (is_settings_reply x)) (replies rs st).
Proof.
  revert st. induction rs as [|r rs IH]; intros st; [reflexivity|].
  destruct r as [hr now|now|s p t1 t2| |data];
    cbn [List.filter is_settings negb replies respond is_settings_reply fst snd];
    try (rewrite IH; reflexivity).
  rewrite <- IH. symmetry. apply (replies_with_thresholds _ data st).
Qed.

(** * Concrete runs of the routes *)

(** ** The pipeline *)


Lemma predict_zero_rate_witness :
  demo_predict (Some (Demo.constant_model 120)) (Some (Demo.constant_model 80))
    {| req_ppg := Some beats; req_fs := Some 0%Z |}
  = ([Filtering], {| status := 500; body := error_body "float division by zero" |}).
Proof.
  apply (predict_zero_rate Demo.np_std Demo.stats_skew Demo.stats_kurtosis
           Demo.stats_entropy Demo.welch Demo.butter Demo.lfilter_zi
           (Some (Demo.constant_model 120)) (Some (Demo.constant_model 80))
           {| req_ppg := Some beats; req_fs := Some 0%Z |}
           (Demo.constant_model 120) (Demo.constant_model 80)).
  - reflexivity.
  - reflexivity.
  - discriminate.
  - reflexivity.
Defined.

Lemma predict_too_short_witness :
  demo_predict (Some (Demo.constant_model 120)) (Some (Demo.constant_model 80))
    {| req_ppg := Some [1; 2; 3; 4; 5; 6; 7; 8; 9]; req_fs := None |}
  = ([Filtering],
     {| status := 500;
        body := error_body
                  ("The length of the input vector x must be greater than padlen, which is "
                   ++ str_of_nat (padlen [1; 0; -1] [1; 0; 0]) ++ ".") |}).
Proof.
  apply (predict_too_short Demo.np_std Demo.stats_skew Demo.stats_kurtosis
           Demo.stats_entropy Demo.welch Demo.butter Demo.lfilter_zi
           (Some (Demo.constant_model 120)) (Some (Demo.constant_model 80))
           {| req_ppg := Some [1; 2; 3; 4; 5; 6; 7; 8; 9]; req_fs := None |}
           (Demo.constant_model 120) (Demo.constant_model 80)
           [1; 0; -1] [1; 0; 0] [0; 0]).
  - reflexivity.
  - reflexivity.
  - discriminate.
  - vm_compute. reflexivity.
  - reflexivity.
  - discriminate.
  - vm_compute. lia.
Defined.


(** ** The simulated sensors *)


Lemma get_data_statuses_witness :
  exists resp,
    (Sensors.get_data (3764 # 100) 25 (3851 # 100) "12:00:00"
       (temp_run [(36, 22, 37)] Sensors.history0)).2 = Returns resp /\
    Sensors.tr_temperatures resp = [round1 (3764 # 100); round1 25; round1 (3851 # 100)] /\
    Sensors.tr_statuses resp = ["warning"; "normal"; "normal"]%string.
Proof.
  destruct (get_data_statuses [(36, 22, 37)] (3764 # 100) 25 (3851 # 100) "12:00:00")
    as (resp & s0 & s2 & Hr & Ht & _ & _ & _ & Hs & _ & H0 & H2 & H2').
  - split; vm_compute; discriminate.
  - split; vm_compute; discriminate.
  - split; vm_compute; discriminate.
  - exists resp. split; [exact Hr|]. split; [exact Ht|]. rewrite Hs.
    assert (E0 : s0 = "warning"%string).
    { apply H0. right. vm_compute. reflexivity. }
    assert (E2 : s2 = "normal"%string).
    { destruct H2 as [E|E]; [|exact E]. apply H2' in E. vm_compute in E. discriminate. }
    rewrite E0, E2. reflexivity.
Defined.

(** ** Connectivity *)

Lemma get_com_ports_duplicate_witness :
  (2 <= count_occ string_dec
          (Connectivity.get_com_ports (Some ["/dev/ttyUSB0"%string]) "Linux"
             (fun p => String.eqb p "/dev/ttyUSB0")).1 "/dev/ttyUSB0"%string)%nat.
Proof.
  apply (get_com_ports_duplicate ["/dev/ttyUSB0"%string] "Linux"
           (fun p => String.eqb p "/dev/ttyUSB0") "/dev/ttyUSB0"%string).
  - discriminate.
  - left. reflexivity.
  - left. reflexivity.
  - reflexivity.
Defined.

(** Nothing found on Windows, and one existing path on Linux. *)
Lemma get_com_ports_listing_witness :
  (Connectivity.get_com_ports None "Windows" (fun _ => true)).1
  = ["No Ports Available"%string] /\
  (forall p, In p (Connectivity.get_com_ports (Some ["COM9"%string]) "Linux"
                     (fun p => String.eqb p "/dev/ttyAMA0")).1
             <-> In p ["COM9"%string] \/
                 ("Linux"%string <> "Windows"%string /\ In p Connectivity.rpi_ports /\
                  String.eqb p "/dev/ttyAMA0" = true)).
Proof.
  split.
  - destruct (get_com_ports_listing None "Windows" (fun _ => true)) as (_ & _ & H & _).
    apply H. split; [reflexivity|]. intros p (Hw & _). apply Hw. reflexivity.
  - destruct (get_com_ports_listing (Some ["COM9"%string]) "Linux"
                (fun p => String.eqb p "/dev/ttyAMA0")) as (_ & _ & _ & H).
    apply H. intros [Hd _]. discriminate Hd.
Defined.

(** A request for the WiFi mode over a configuration left by the serial
    mode. *)
Lemma save_config_no_stale_state_witness :
  let d : gmap string jval :=
    <["mode"%string := JString "wifi"]> (<["wifi_ip"%string := JString "10.0.0.5"]> ∅) in
  let cfg : gmap string jval :=
    <["mode"%string := JString "serial"]>
    (<["serial_port"%string := JString "COM3"]>
    (<["baud_rate"%string := JString "9600"]> Connectivity.connection_config0)) in
  exists c r,
    Connectivity.save_config (Some (JObject d)) cfg = Returns (c, r) /\
    c !! "mode"%string = Some (JString "wifi") /\
    c !! "serial_port"%string = Some JNull /\
    c !! "baud_rate"%string = Some JNull /\
    c !! "ble_address"%string = Some JNull /\
    c !! "wifi_ip"%string = Some (JString "10.0.0.5").
Proof.
  intros d cfg.
  destruct (save_config_no_stale_state (Some (JObject d)) d cfg)
    as (c & Hs & K1 & K2 & K3 & K4 & K5 & _).
  - unfold Connectivity.body_or_empty. cbn [truthy].
    destruct (bool_decide (d = ∅)) eqn:E; [|reflexivity].
    apply bool_decide_eq_true in E. exfalso.
    assert (H : d !! "mode"%string = Some (JString "wifi")) by apply lookup_insert_eq.
    rewrite E, lookup_empty in H. discriminate.
  - exists c. eexists. split; [exact Hs|].
    unfold Connectivity.get_config in *.
    assert (Hm : d !! "mode"%string = Some (JString "wifi")) by apply lookup_insert_eq.
    assert (Hw : d !! "wifi_ip"%string = Some (JString "10.0.0.5"))
      by (subst d; rewrite lookup_insert_ne by discriminate; apply lookup_insert_eq).
    rewrite Hm in *. rewrite Hw in *. cbn in K2, K3, K4, K5.
    repeat split; assumption.
Defined.

(** No body at all, and a list as body. *)
Lemma save_config_body_cases_witness :
  (exists c r,
     Connectivity.save_config None Connectivity.connection_config0 = Returns (c, r) /\
     Connectivity.success r = true /\ Connectivity.config r = c /\
     forall k, k ∈ ["mode"; "serial_port"; "baud_rate"; "ble_address"; "wifi_ip"]%string ->
       c !! k = Some JNull) /\
  Connectivity.save_config (Some (JList [JInt 1])) Connectivity.connection_config0
  = Raises (AttributeError "object has no attribute 'get'").
Proof.
  split.
  - apply (proj1 (save_config_body_cases None Connectivity.connection_config0)).
    left. reflexivity.
  - apply (proj2 (save_config_body_cases (Some (JList [JInt 1]))
                    Connectivity.connection_config0) (JList [JInt 1])).
    + reflexivity.
    + reflexivity.
    + discriminate.
Defined.



(** ** Sessions *)

Lemma update_after_clear_witness :
  let rs := [Session.Update 70 101; Session.Update (-1) 102;
             Session.Spo2Data 97 80 0 103; Session.Update 90 104] in
  (Session.update 80 105 (Session.run rs (Session.clear 100 (Session.state0 0)))).2
  = Returns {| Session.u_heartrate := 80; Session.u_status := "NORMAL";
               Session.u_min := Session.Stat (Session.Fin 70);
               Session.u_max := Session.Stat (Session.Fin 90);
               Session.u_avg := Session.Stat (Session.Fin 80);
               Session.u_graph := [(1, 70); (4, 90); (5, 80)]%Z |}.
Proof.
  intros rs.
  destruct (update_after_clear (Session.state0 0) 100 rs 80 105)
    as (mn & mx & Hr & [Hin1 Hall1] & [Hin2 Hall2] & _).
  - reflexivity.
  - discriminate.
  - assert (E : map snd (hr_samples 100 (rs ++ [Session.Update 80 105])) = [70; 90; 80]%Z)
      by reflexivity.
    rewrite E in Hin1, Hall1, Hin2, Hall2.
    repeat match goal with
           | H : Forall _ (_ :: _) |- _ => apply Forall_cons in H; destruct H
           end.
    cbn [In] in Hin1, Hin2.
    assert (mn = 70%Z) by lia. assert (mx = 90%Z) by lia. subst mn mx.
    rewrite Hr. reflexivity.
Defined.

Lemma get_spo2_data_after_clear_witness :
  let st' := Session.run ([Session.Spo2Data 97 80 0 1] ++ Session.Clear 5 :: [Session.Update 70 6])
               (Session.state0 0) in
  Session.paused st' = false /\
  Session.get_spo2_data 96 75 0 7 st' = (st', Raises (KeyError "spo2")).
Proof.
  intros st'. split; [reflexivity|].
  apply (get_spo2_data_after_clear (Session.state0 0) [Session.Spo2Data 97 80 0 1]
           [Session.Update 70 6] 5 96 75 0 7).
  reflexivity.
Defined.

Lemma update_before_clear_witness :
  let st := Session.run [Session.Spo2Data 97 80 0 1; Session.TogglePause]
              (Session.state0 0) in
  exists st',
    Session.update 72 2 st = (st', Raises (KeyError "min")) /\
    Session.last_valid_hr st' = Some 72%Z /\
    Session.session_data st' = Session.session_data st /\
    Session.graph_data st' = [].
Proof.
  apply (update_before_clear 0 [Session.Spo2Data 97 80 0 1; Session.TogglePause] 72 2).
  - reflexivity.
  - discriminate.
Defined.

(** Two readings, the second one made while paused: only the first and
    the current one count. *)
Lemma get_spo2_data_statistics_witness :
  let rs := [Session.Spo2Data 97 80 0 1; Session.TogglePause;
             Session.Spo2Data 90 60 0 2; Session.TogglePause] in
  paused_after rs = false /\ recorded rs = [(97, 80)]%Z /\
  exists stats duration,
    (Session.get_spo2_data 94 71 0 3 (Session.run rs (Session.state0 0))).2
    = Returns (Session.Reading 94 71 (Session.get_spo2_status 94)
                 (Session.get_pulse_status 71) stats duration) /\
    stats_for [97; 94]%Z stats.1 /\ stats_for [80; 71]%Z stats.2.
Proof.
  intros rs. split; [reflexivity|]. split; [reflexivity|].
  destruct (get_spo2_data_statistics 0 rs 94 71 0 3) as [_ H]; [reflexivity|].
  destruct (H eq_refl) as (stats & duration & Hr & S1 & S2 & _).
  exists stats, duration. split; [exact Hr|]. split; [exact S1|exact S2].
Defined.

(** Polled at clock reading 10, paused, and polled again 75 seconds
    later. *)
Lemma get_spo2_data_duration_witness :
  exists resp,
    (Session.get_spo2_data 96 70 85 85
       (Session.run [Session.Spo2Data 97 80 10 10; Session.TogglePause] (Session.state0 0))).2
    = Returns resp /\
    duration_of resp = "01:15"%string.
Proof.
  apply (get_spo2_data_duration 0 [Session.Spo2Data 97 80 10 10; Session.TogglePause]
           96 70 85 85).
  - reflexivity.
  - vm_compute. split; [discriminate|reflexivity].
Defined.

